(** * GCAFO Booking API: a shallow embedding of [server.js]

    The Express handlers of [server.js] are embedded as state-passing
    functions over a model of the PostgreSQL store declared in
    [initDatabase].  Each [pool.query] is a separate statement (the source
    opens no transaction), so a handler that throws half-way keeps the
    effect of the statements it already ran; the [try]/[catch] of every
    handler turns the exception into the generic 500 response.

    Conventions.
    - SQL [NULL] and JS [undefined]/[null] are [None].
    - Text is [string]; one [ascii] stands for one character.  Case folding
      (ILIKE) is the ASCII one.
    - [INTEGER]/[SERIAL] values and ids are [Z] (taken inside the 32-bit
      range), [DECIMAL(_,2)] values are [Z] counted in hundredths,
      [TIMESTAMP]s are [Z] seconds, [JSONB] values are opaque text.
    - [bcryptjs] and [jsonwebtoken] are libraries, not code of this
      repository: they are Section variables, with the two laws the
      round-trip property needs stated as Section hypotheses. *)

From Stdlib Require Import ZArith List String Ascii Bool Lia.
From Stdlib Require Import Permutation Sorted.
Import ListNotations.

Open Scope string_scope.
Open Scope Z_scope.

Set Implicit Arguments.

(* ================================================================== *)
(** ** SQL values *)

Definition opt_eqb {A} (eqb : A -> A -> bool) (x y : option A) : bool :=
  match x, y with
  | Some a, Some b => eqb a b
  | _, _ => false
  end.

(** [col = $n]: unknown (treated as false by WHERE) when either side is NULL. *)
Definition sql_eq_text (col param : option string) : bool := opt_eqb String.eqb col param.
Definition sql_eq_int (col param : option Z) : bool := opt_eqb Z.eqb col param.

Fixpoint all_spaces (s : string) : bool :=
  match s with
  | EmptyString => true
  | String c s' => Ascii.eqb c " "%char && all_spaces s'
  end.

(** Assignment of a text value to a [VARCHAR(n)] column: an over-length
    value is an error unless the excess is all spaces, in which case it is
    cut to [n] characters. *)
Definition varchar (n : nat) (s : string) : option string :=
  if (String.length s <=? n)%nat then Some s
  else if all_spaces (substring n (String.length s - n) s)
       then Some (substring 0 n s)
       else None.

(** The same for a nullable parameter; the outer [option] is the error. *)
Definition varchar_opt (n : nat) (v : option string) : option (option string) :=
  match v with
  | None => Some None
  | Some s => option_map Some (varchar n s)
  end.

(** [AVG(x)::numeric(3,2)] of the exact mean [sum/cnt] ([cnt > 0]) in
    hundredths: rounded half away from zero. *)
Definition round_hundredths (sum cnt : Z) : Z :=
  Z.sgn sum * ((200 * Z.abs sum + cnt) / (2 * cnt)).

(** [numeric(3,2)] holds absolute values below 10. *)
Definition numeric_3_2 (h : Z) : option Z :=
  if Z.abs h <? 1000 then Some h else None.

(* ================================================================== *)
(** ** The schema of [initDatabase] *)

(** Table [users]; the SQL alias used throughout the source is [u]. *)
Record user := mkUser {
  u_id : Z;
  u_email : string;
  u_password : string;
  u_role : string;
  u_full_name : string;
  u_phone : option string;
  u_profile_image : option string;
  u_is_verified : option bool;
  u_is_certified : option bool;
  u_ville : option string;
  u_secteur : option string;
  u_created_at : Z;
  u_updated_at : Z
}.

(** Table [prestataire_profiles], alias [p]. *)
Record profile := mkProfile {
  p_id : Z;
  p_user_id : Z;
  p_metier : string;
  p_description : option string;
  p_annees_experience : option Z;
  p_tarif_horaire : option Z;
  p_zone_intervention : option string;
  p_adresse : option string;
  p_portfolio : option string;
  p_disponibilites : option string;
  p_note_moyenne : option Z;
  p_nombre_avis : option Z
}.

(** Table [services], alias [s]. *)
Record service := mkService {
  s_id : Z;
  s_prestataire_id : Z;
  s_nom_service : string;
  s_description : option string;
  s_prix : option Z;
  s_duree_estimee : option Z;
  s_categorie : option string;
  s_created_at : Z
}.

(** Table [bookings], alias [b]. *)
Record booking := mkBooking {
  b_id : Z;
  b_client_id : Z;
  b_prestataire_id : Z;
  b_service_id : Z;
  b_date_reservation : Z;
  b_statut : option string;
  b_adresse_prestation : option string;
  b_prix_final : option Z;
  b_notes_client : option string;
  b_created_at : Z;
  b_updated_at : Z
}.

(** Table [reviews], alias [r]. *)
Record review := mkReview {
  r_id : Z;
  r_booking_id : Z;
  r_note : option Z;
  r_commentaire : option string;
  r_photos_review : option string;
  r_created_at : Z
}.

(** Table [messages], alias [m]. *)
Record message_row := mkMessage {
  m_id : Z;
  m_booking_id : Z;
  m_expediteur_id : Z;
  m_message : string;
  m_lu : option bool;
  m_created_at : Z
}.

(** The store: the six tables, in insertion order, and the sequence behind
    each [SERIAL] column. *)
Record db := mkDb {
  users : list user;
  users_id_seq : Z;
  prestataire_profiles : list profile;
  prestataire_profiles_id_seq : Z;
  services : list service;
  services_id_seq : Z;
  bookings : list booking;
  bookings_id_seq : Z;
  reviews : list review;
  reviews_id_seq : Z;
  messages : list message_row;
  messages_id_seq : Z
}.

(** State after [initDatabase] on a fresh database. *)
Definition init_db : db :=
  mkDb [] 1 [] 1 [] 1 [] 1 [] 1 [] 1.

(** The two [CHECK ... IN (...)] lists and the [note] range. *)
Definition role_check (role : string) : bool :=
  String.eqb role "client" || String.eqb role "prestataire".

Definition statut_check (statut : option string) : bool :=
  match statut with
  | None => true
  | Some s => String.eqb s "en_attente" || String.eqb s "confirme"
              || String.eqb s "annule" || String.eqb s "termine"
  end.

Definition note_check (note : option Z) : bool :=
  match note with
  | None => true
  | Some n => (1 <=? n) && (n <=? 5)
  end.

(* ================================================================== *)
(** ** Exceptions and the statement monad *)

Inductive exn :=
| not_null_violation
| unique_violation
| check_violation
| foreign_key_violation
| string_data_right_truncation
| numeric_value_out_of_range
| invalid_row_count_in_limit_clause
| invalid_escape_sequence
| illegal_arguments      (* bcryptjs on a missing password *)
| type_error.            (* property read on [undefined] *)

Inductive result (A : Type) :=
| Ok (a : A)
| Throw (e : exn).
Arguments Ok {A} a.
Arguments Throw {A} e.

(** A statement or handler body: runs on a store, leaves a store, and
    either yields a value or throws.  Nothing is rolled back on a throw
    except inside the single statement that threw. *)
Definition M (A : Type) : Type := db -> db * result A.

Definition ret {A} (a : A) : M A := fun d => (d, Ok a).
Definition throw {A} (e : exn) : M A := fun d => (d, Throw e).
Definition bind {A B} (m : M A) (k : A -> M B) : M B :=
  fun d => match m d with
           | (d', Ok a) => k a d'
           | (d', Throw e) => (d', Throw e)
           end.
Definition get : M db := fun d => (d, Ok d).
Definition put (d' : db) : M unit := fun _ => (d', Ok tt).

Notation "x <- m ;; k" := (bind m (fun x => k))
  (at level 61, m at next level, right associativity).
Notation "m ;;; k" := (bind m (fun _ => k))
  (at level 61, right associativity).

Definition guard (b : bool) (e : exn) : M unit :=
  if b then ret tt else throw e.

Definition of_option {A} (o : option A) (e : exn) : M A :=
  match o with
  | Some a => ret a
  | None => throw e
  end.

(* ================================================================== *)
(** ** Statements issued through [pool.query] *)

Definition has_user_id (d : db) (id : Z) : bool :=
  existsb (fun u => u_id u =? id) (users d).
Definition has_profile_id (d : db) (id : Z) : bool :=
  existsb (fun p => p_id p =? id) (prestataire_profiles d).
Definition has_service_id (d : db) (id : Z) : bool :=
  existsb (fun s => s_id s =? id) (services d).
Definition has_booking_id (d : db) (id : Z) : bool :=
  existsb (fun b => b_id b =? id) (bookings d).

(** [DECIMAL(10,2)], in hundredths. *)
Definition numeric_10_2 (v : option Z) : option (option Z) :=
  match v with
  | None => Some None
  | Some h => if Z.abs h <? 10 ^ 10 then Some (Some h) else None
  end.

(** [nextval] of each sequence: never rolled back. *)
Definition nextval_users : M Z := fun d =>
  (mkDb (users d) (users_id_seq d + 1) (prestataire_profiles d)
        (prestataire_profiles_id_seq d) (services d) (services_id_seq d)
        (bookings d) (bookings_id_seq d) (reviews d) (reviews_id_seq d)
        (messages d) (messages_id_seq d), Ok (users_id_seq d)).
Definition nextval_profiles : M Z := fun d =>
  (mkDb (users d) (users_id_seq d) (prestataire_profiles d)
        (prestataire_profiles_id_seq d + 1) (services d) (services_id_seq d)
        (bookings d) (bookings_id_seq d) (reviews d) (reviews_id_seq d)
        (messages d) (messages_id_seq d), Ok (prestataire_profiles_id_seq d)).
Definition nextval_services : M Z := fun d =>
  (mkDb (users d) (users_id_seq d) (prestataire_profiles d)
        (prestataire_profiles_id_seq d) (services d) (services_id_seq d + 1)
        (bookings d) (bookings_id_seq d) (reviews d) (reviews_id_seq d)
        (messages d) (messages_id_seq d), Ok (services_id_seq d)).
Definition nextval_bookings : M Z := fun d =>
  (mkDb (users d) (users_id_seq d) (prestataire_profiles d)
        (prestataire_profiles_id_seq d) (services d) (services_id_seq d)
        (bookings d) (bookings_id_seq d + 1) (reviews d) (reviews_id_seq d)
        (messages d) (messages_id_seq d), Ok (bookings_id_seq d)).
Definition nextval_reviews : M Z := fun d =>
  (mkDb (users d) (users_id_seq d) (prestataire_profiles d)
        (prestataire_profiles_id_seq d) (services d) (services_id_seq d)
        (bookings d) (bookings_id_seq d) (reviews d) (reviews_id_seq d + 1)
        (messages d) (messages_id_seq d), Ok (reviews_id_seq d)).
Definition nextval_messages : M Z := fun d =>
  (mkDb (users d) (users_id_seq d) (prestataire_profiles d)
        (prestataire_profiles_id_seq d) (services d) (services_id_seq d)
        (bookings d) (bookings_id_seq d) (reviews d) (reviews_id_seq d)
        (messages d) (messages_id_seq d + 1), Ok (messages_id_seq d)).

(** Replacing one table. *)
Definition set_users (l : list user) (d : db) : db :=
  mkDb l (users_id_seq d) (prestataire_profiles d)
       (prestataire_profiles_id_seq d) (services d) (services_id_seq d)
       (bookings d) (bookings_id_seq d) (reviews d) (reviews_id_seq d)
       (messages d) (messages_id_seq d).
Definition set_profiles (l : list profile) (d : db) : db :=
  mkDb (users d) (users_id_seq d) l
       (prestataire_profiles_id_seq d) (services d) (services_id_seq d)
       (bookings d) (bookings_id_seq d) (reviews d) (reviews_id_seq d)
       (messages d) (messages_id_seq d).
Definition set_services (l : list service) (d : db) : db :=
  mkDb (users d) (users_id_seq d) (prestataire_profiles d)
       (prestataire_profiles_id_seq d) l (services_id_seq d)
       (bookings d) (bookings_id_seq d) (reviews d) (reviews_id_seq d)
       (messages d) (messages_id_seq d).
Definition set_bookings (l : list booking) (d : db) : db :=
  mkDb (users d) (users_id_seq d) (prestataire_profiles d)
       (prestataire_profiles_id_seq d) (services d) (services_id_seq d)
       l (bookings_id_seq d) (reviews d) (reviews_id_seq d)
       (messages d) (messages_id_seq d).
Definition set_reviews (l : list review) (d : db) : db :=
  mkDb (users d) (users_id_seq d) (prestataire_profiles d)
       (prestataire_profiles_id_seq d) (services d) (services_id_seq d)
       (bookings d) (bookings_id_seq d) l (reviews_id_seq d)
       (messages d) (messages_id_seq d).
Definition set_messages (l : list message_row) (d : db) : db :=
  mkDb (users d) (users_id_seq d) (prestataire_profiles d)
       (prestataire_profiles_id_seq d) (services d) (services_id_seq d)
       (bookings d) (bookings_id_seq d) (reviews d) (reviews_id_seq d)
       l (messages_id_seq d).

(** [INSERT INTO users (email, password, full_name, phone, role, ville,
    secteur) VALUES ($1..$7) RETURNING *].  The length coercions of the
    parameters come first, then the row gets its id, then the row
    constraints, then the unique indexes. *)
Definition insert_user (now : Z)
    (email password full_name phone role ville secteur : option string)
    : M user :=
  email' <- of_option (varchar_opt 255 email) string_data_right_truncation ;;
  password' <- of_option (varchar_opt 255 password) string_data_right_truncation ;;
  role' <- of_option (varchar_opt 20 role) string_data_right_truncation ;;
  full_name' <- of_option (varchar_opt 255 full_name) string_data_right_truncation ;;
  phone' <- of_option (varchar_opt 20 phone) string_data_right_truncation ;;
  ville' <- of_option (varchar_opt 100 ville) string_data_right_truncation ;;
  secteur' <- of_option (varchar_opt 100 secteur) string_data_right_truncation ;;
  id <- nextval_users ;;
  e <- of_option email' not_null_violation ;;
  pw <- of_option password' not_null_violation ;;
  ro <- of_option role' not_null_violation ;;
  fn <- of_option full_name' not_null_violation ;;
  guard (role_check ro) check_violation ;;;
  d <- get ;;
  guard (negb (has_user_id d id)) unique_violation ;;;
  guard (negb (existsb (fun u => String.eqb (u_email u) e) (users d)))
        unique_violation ;;;
  let row := mkUser id e pw ro fn phone' None (Some false) (Some false)
                    ville' secteur' now now in
  put (set_users (users d ++ [row]) d) ;;;
  ret row.

(** [INSERT INTO prestataire_profiles (user_id, metier) VALUES ($1, $2)]. *)
Definition insert_profile (user_id : Z) (metier : string) : M profile :=
  metier' <- of_option (varchar 255 metier) string_data_right_truncation ;;
  id <- nextval_profiles ;;
  d <- get ;;
  guard (negb (has_profile_id d id)) unique_violation ;;;
  guard (negb (existsb (fun p => p_user_id p =? user_id) (prestataire_profiles d)))
        unique_violation ;;;
  guard (has_user_id d user_id) foreign_key_violation ;;;
  let row := mkProfile id user_id metier' None None None None None None None
                       (Some 0) (Some 0) in
  put (set_profiles (prestataire_profiles d ++ [row]) d) ;;;
  ret row.

(** [INSERT INTO services (prestataire_id, nom_service, description, prix,
    duree_estimee, categorie) VALUES ($1..$6) RETURNING *]. *)
Definition insert_service (now : Z) (prestataire_id : Z)
    (nom_service description : option string) (prix duree_estimee : option Z)
    (categorie : option string) : M service :=
  nom' <- of_option (varchar_opt 255 nom_service) string_data_right_truncation ;;
  prix' <- of_option (numeric_10_2 prix) numeric_value_out_of_range ;;
  cat' <- of_option (varchar_opt 100 categorie) string_data_right_truncation ;;
  id <- nextval_services ;;
  nom <- of_option nom' not_null_violation ;;
  d <- get ;;
  guard (negb (has_service_id d id)) unique_violation ;;;
  guard (has_profile_id d prestataire_id) foreign_key_violation ;;;
  let row := mkService id prestataire_id nom description prix' duree_estimee
                       cat' now in
  put (set_services (services d ++ [row]) d) ;;;
  ret row.

(** [INSERT INTO bookings (client_id, prestataire_id, service_id,
    date_reservation, adresse_prestation, notes_client) VALUES ($1..$6)
    RETURNING *]; [statut] takes its default. *)
Definition insert_booking (now : Z) (client_id : Z)
    (prestataire_id service_id date_reservation : option Z)
    (adresse_prestation notes : option string) : M booking :=
  id <- nextval_bookings ;;
  pid <- of_option prestataire_id not_null_violation ;;
  sid <- of_option service_id not_null_violation ;;
  date <- of_option date_reservation not_null_violation ;;
  d <- get ;;
  guard (negb (has_booking_id d id)) unique_violation ;;;
  guard (has_user_id d client_id) foreign_key_violation ;;;
  guard (has_profile_id d pid) foreign_key_violation ;;;
  guard (has_service_id d sid) foreign_key_violation ;;;
  let row := mkBooking id client_id pid sid date (Some "en_attente")
                       adresse_prestation None notes now now in
  put (set_bookings (bookings d ++ [row]) d) ;;;
  ret row.

(** [INSERT INTO reviews (booking_id, note, commentaire) VALUES ($1, $2, $3)
    RETURNING *]. *)
Definition insert_review (now : Z) (booking_id note : option Z)
    (commentaire : option string) : M review :=
  id <- nextval_reviews ;;
  bid <- of_option booking_id not_null_violation ;;
  guard (note_check note) check_violation ;;;
  d <- get ;;
  guard (negb (existsb (fun r => r_id r =? id) (reviews d))) unique_violation ;;;
  guard (negb (existsb (fun r => r_booking_id r =? bid) (reviews d)))
        unique_violation ;;;
  guard (has_booking_id d bid) foreign_key_violation ;;;
  let row := mkReview id bid note commentaire None now in
  put (set_reviews (reviews d ++ [row]) d) ;;;
  ret row.

(** [INSERT INTO messages (booking_id, expediteur_id, message) VALUES
    ($1, $2, $3) RETURNING *]. *)
Definition insert_message (now : Z) (booking_id : option Z)
    (expediteur_id : Z) (text : option string) : M message_row :=
  id <- nextval_messages ;;
  bid <- of_option booking_id not_null_violation ;;
  msg <- of_option text not_null_violation ;;
  d <- get ;;
  guard (negb (existsb (fun m => m_id m =? id) (messages d))) unique_violation ;;;
  guard (has_booking_id d bid) foreign_key_violation ;;;
  guard (has_user_id d expediteur_id) foreign_key_violation ;;;
  let row := mkMessage id bid expediteur_id msg (Some false) now in
  put (set_messages (messages d ++ [row]) d) ;;;
  ret row.

(** [UPDATE bookings SET statut = $1, updated_at = CURRENT_TIMESTAMP
    WHERE id = $2 RETURNING *].  The [CHECK] on [statut] is evaluated for
    the rows that are rewritten only. *)
Definition with_statut (now : Z) (statut : option string) (b : booking) : booking :=
  mkBooking (b_id b) (b_client_id b) (b_prestataire_id b) (b_service_id b)
            (b_date_reservation b) statut (b_adresse_prestation b)
            (b_prix_final b) (b_notes_client b) (b_created_at b) now.

Definition update_booking_statut (now : Z) (statut : option string) (id : Z)
    : M (list booking) :=
  statut' <- of_option (varchar_opt 20 statut) string_data_right_truncation ;;
  d <- get ;;
  let hit := fun b => b_id b =? id in
  guard (negb (existsb hit (bookings d)) || statut_check statut')
        check_violation ;;;
  put (set_bookings
         (map (fun b => if hit b then with_statut now statut' b else b)
              (bookings d)) d) ;;;
  ret (map (with_statut now statut') (filter hit (bookings d))).

(** [UPDATE prestataire_profiles SET metier = $1, ..., disponibilites = $8
    WHERE user_id = $9 RETURNING *]. *)
Definition with_fields (metier : string) (description : option string)
    (annees_experience tarif_horaire : option Z)
    (zone_intervention adresse portfolio disponibilites : option string)
    (p : profile) : profile :=
  mkProfile (p_id p) (p_user_id p) metier description annees_experience
            tarif_horaire zone_intervention adresse portfolio disponibilites
            (p_note_moyenne p) (p_nombre_avis p).

Definition update_profile_fields (metier description : option string)
    (annees_experience tarif_horaire : option Z)
    (zone_intervention adresse portfolio disponibilites : option string)
    (user_id : Z) : M (list profile) :=
  metier' <- of_option (varchar_opt 255 metier) string_data_right_truncation ;;
  tarif' <- of_option (numeric_10_2 tarif_horaire) numeric_value_out_of_range ;;
  zone' <- of_option (varchar_opt 255 zone_intervention)
                     string_data_right_truncation ;;
  d <- get ;;
  let hit := fun p => p_user_id p =? user_id in
  if existsb hit (prestataire_profiles d) then
    me <- of_option metier' not_null_violation ;;
    let upd := with_fields me description annees_experience tarif' zone'
                           adresse portfolio disponibilites in
    put (set_profiles
           (map (fun p => if hit p then upd p else p) (prestataire_profiles d))
           d) ;;;
    ret (map upd (filter hit (prestataire_profiles d)))
  else ret [].

(** The rows of [reviews r INNER JOIN bookings b ON r.booking_id = b.id
    WHERE b.prestataire_id = pid], as the [note] of each. *)
Definition joined_notes (d : db) (pid : Z) : list (option Z) :=
  flat_map
    (fun r => map (fun _ => r_note r)
                  (filter (fun b => (r_booking_id r =? b_id b)
                                    && (b_prestataire_id b =? pid))
                          (bookings d)))
    (reviews d).

(** The non-NULL values of a column: what [AVG] ranges over. *)
Fixpoint non_null (l : list (option Z)) : list Z :=
  match l with
  | [] => []
  | Some n :: l' => n :: non_null l'
  | None :: l' => non_null l'
  end.

Definition sum_Z (l : list Z) : Z := fold_right Z.add 0 l.

(** [SELECT AVG(r.note)::numeric(3,2)]: NULL over no value; the outer
    [option] is the overflow of the cast. *)
Definition avg_note (notes : list (option Z)) : option (option Z) :=
  match non_null notes with
  | [] => Some None
  | vals => option_map Some
              (numeric_3_2 (round_hundredths (sum_Z vals)
                                             (Z.of_nat (List.length vals))))
  end.

(** [SELECT COUNT( * )]. *)
Definition count_rows {A} (rows : list A) : Z := Z.of_nat (List.length rows).

Definition with_aggregate (note_moyenne : option Z) (nombre_avis : Z)
    (p : profile) : profile :=
  mkProfile (p_id p) (p_user_id p) (p_metier p) (p_description p)
            (p_annees_experience p) (p_tarif_horaire p)
            (p_zone_intervention p) (p_adresse p) (p_portfolio p)
            (p_disponibilites p) note_moyenne (Some nombre_avis).

(** [UPDATE prestataire_profiles SET note_moyenne = (SELECT AVG ...),
    nombre_avis = (SELECT COUNT ...) WHERE id = $1]: both sub-selects are
    correlated on the id of the row being rewritten, which is [$1]. *)
Definition update_note_moyenne (pid : Z) : M unit :=
  d <- get ;;
  let hit := fun p => p_id p =? pid in
  if existsb hit (prestataire_profiles d) then
    let notes := joined_notes d pid in
    avg <- of_option (avg_note notes) numeric_value_out_of_range ;;
    put (set_profiles
           (map (fun p => if hit p then with_aggregate avg (count_rows notes) p
                          else p)
                (prestataire_profiles d)) d)
  else ret tt.

(* ================================================================== *)
(** ** JSON rows

    [GET /api/prestataires/:id] selects [u.*, p.*]: the driver builds the row
    object column by column, so the second [id] overwrites the first.  That
    one row is kept as an object; every other row is a record. *)

Inductive jsval :=
| JNull
| JString (s : string)
| JInt (n : Z)
| JDecimal (hundredths : Z)
| JBool (b : bool)
| JTimestamp (t : Z).

Definition object := list (string * jsval).

Fixpoint obj_set (k : string) (v : jsval) (o : object) : object :=
  match o with
  | [] => [(k, v)]
  | (k', v') :: o' =>
      if String.eqb k' k then (k', v) :: o' else (k', v') :: obj_set k v o'
  end.

Definition obj_get (k : string) (o : object) : option jsval :=
  option_map snd (find (fun kv => String.eqb (fst kv) k) o).

Definition has_field (k : string) (o : object) : bool :=
  existsb (fun kv => String.eqb (fst kv) k) o.

(** [const { k: _, ...rest } = o]. *)
Definition obj_without (k : string) (o : object) : object :=
  filter (fun kv => negb (String.eqb (fst kv) k)) o.

Definition js_text (v : option string) : jsval :=
  match v with Some s => JString s | None => JNull end.
Definition js_int (v : option Z) : jsval :=
  match v with Some n => JInt n | None => JNull end.
Definition js_decimal (v : option Z) : jsval :=
  match v with Some n => JDecimal n | None => JNull end.
Definition js_bool (v : option bool) : jsval :=
  match v with Some b => JBool b | None => JNull end.

Definition user_columns (u : user) : list (string * jsval) :=
  [ ("id", JInt (u_id u)); ("email", JString (u_email u));
    ("password", JString (u_password u)); ("role", JString (u_role u));
    ("full_name", JString (u_full_name u)); ("phone", js_text (u_phone u));
    ("profile_image", js_text (u_profile_image u));
    ("is_verified", js_bool (u_is_verified u));
    ("is_certified", js_bool (u_is_certified u));
    ("ville", js_text (u_ville u)); ("secteur", js_text (u_secteur u));
    ("created_at", JTimestamp (u_created_at u));
    ("updated_at", JTimestamp (u_updated_at u)) ].

Definition profile_columns (p : profile) : list (string * jsval) :=
  [ ("id", JInt (p_id p)); ("user_id", JInt (p_user_id p));
    ("metier", JString (p_metier p));
    ("description", js_text (p_description p));
    ("annees_experience", js_int (p_annees_experience p));
    ("tarif_horaire", js_decimal (p_tarif_horaire p));
    ("zone_intervention", js_text (p_zone_intervention p));
    ("adresse", js_text (p_adresse p));
    ("portfolio", js_text (p_portfolio p));
    ("disponibilites", js_text (p_disponibilites p));
    ("note_moyenne", js_decimal (p_note_moyenne p));
    ("nombre_avis", js_int (p_nombre_avis p)) ].

Definition row_object (columns : list (string * jsval)) : object :=
  fold_left (fun o kv => obj_set (fst kv) (snd kv) o) columns [].

(* ================================================================== *)
(** ** [ILIKE], [ORDER BY ... DESC], [LIMIT] and [OFFSET] *)

Definition is_upper (c : ascii) : bool :=
  (65 <=? nat_of_ascii c)%nat && (nat_of_ascii c <=? 90)%nat.

Definition lower (c : ascii) : ascii :=
  if is_upper c then ascii_of_nat (nat_of_ascii c + 32) else c.

Fixpoint lower_string (s : string) : string :=
  match s with
  | EmptyString => EmptyString
  | String c s' => String (lower c) (lower_string s')
  end.

Inductive like_token :=
| any_string              (* % *)
| any_char                (* _ *)
| literal (c : ascii).    (* c, or \c *)

(** A pattern as its tokens; [None] is a pattern that ends in a lone
    escape character. *)
Fixpoint like_tokens (p : string) : option (list like_token) :=
  match p with
  | EmptyString => Some []
  | String "\" EmptyString => None
  | String "\" (String c p') => option_map (cons (literal c)) (like_tokens p')
  | String "%" p' => option_map (cons any_string) (like_tokens p')
  | String "_" p' => option_map (cons any_char) (like_tokens p')
  | String c p' => option_map (cons (literal c)) (like_tokens p')
  end.

Fixpoint ilike_match (p : list like_token) (s : string) {struct p} : bool :=
  match p with
  | [] => match s with EmptyString => true | _ => false end
  | any_string :: p' =>
      (fix scan (s : string) : bool :=
         ilike_match p' s
         || match s with
            | EmptyString => false
            | String _ s' => scan s'
            end) s
  | any_char :: p' =>
      match s with
      | EmptyString => false
      | String _ s' => ilike_match p' s'
      end
  | literal c :: p' =>
      match s with
      | EmptyString => false
      | String c' s' => Ascii.eqb (lower c) (lower c') && ilike_match p' s'
      end
  end.

(** [col ILIKE pattern] inside a WHERE: a NULL column does not match. *)
Definition ilike (col : option string) (p : list like_token) : bool :=
  match col with
  | None => false
  | Some s => ilike_match p s
  end.

(** [`%${v}%`]. *)
Definition percent_wrap (v : string) : string := "%" ++ v ++ "%".

(** [x] is listed no later than [y] by [ORDER BY ... DESC]: NULLs first. *)
Definition desc_le (x y : option Z) : bool :=
  match x, y with
  | None, _ => true
  | Some _, None => false
  | Some a, Some b => b <=? a
  end.

Fixpoint insert_desc {A} (key : A -> option Z) (x : A) (l : list A) : list A :=
  match l with
  | [] => [x]
  | y :: l' => if desc_le (key x) (key y) then x :: y :: l'
               else y :: insert_desc key x l'
  end.

(** Rows with equal keys stay in scan order. *)
Definition order_by_desc {A} (key : A -> option Z) (l : list A) : list A :=
  fold_right (insert_desc key) [] l.

(** [LIMIT $n OFFSET $m] over an ordered result. *)
Definition limit_offset {A} (limit offset : Z) (rows : list A) : M (list A) :=
  guard (0 <=? limit) invalid_row_count_in_limit_clause ;;;
  guard (0 <=? offset) invalid_row_count_in_limit_clause ;;;
  ret (firstn (Z.to_nat limit) (skipn (Z.to_nat offset) rows)).

(* ================================================================== *)
(** ** Requests and responses *)

(** The payload given to [jwt.sign] and handed back by [jwt.verify] as
    [req.user]. *)
Record claims := mkClaims {
  userId : Z;
  email : option string;
  role : option string
}.

(** [req.body] of POST /api/auth/register. *)
Record register_body := mkRegisterBody {
  reg_email : option string;
  reg_password : option string;
  reg_full_name : option string;
  reg_phone : option string;
  reg_role : option string;
  reg_ville : option string;
  reg_secteur : option string
}.

(** [req.body] of POST /api/auth/login. *)
Record login_body := mkLoginBody {
  login_email : option string;
  login_password : option string
}.

(** [req.query] of GET /api/prestataires; [page] and [limit] are read as
    decimal integers. *)
Record prestataires_query := mkPrestatairesQuery {
  q_ville : option string;
  q_metier : option string;
  q_page : option Z;
  q_limit : option Z
}.

(** [req.body] of PUT /api/prestataires/profile. *)
Record profile_body := mkProfileBody {
  pb_metier : option string;
  pb_description : option string;
  pb_annees_experience : option Z;
  pb_tarif_horaire : option Z;
  pb_zone_intervention : option string;
  pb_adresse : option string;
  pb_portfolio : option string;
  pb_disponibilites : option string
}.

(** [req.body] of POST /api/services. *)
Record service_body := mkServiceBody {
  sb_nom_service : option string;
  sb_description : option string;
  sb_prix : option Z;
  sb_duree_estimee : option Z;
  sb_categorie : option string
}.

(** [req.body] of POST /api/bookings. *)
Record booking_body := mkBookingBody {
  bb_prestataire_id : option Z;
  bb_service_id : option Z;
  bb_date_reservation : option Z;
  bb_adresse_prestation : option string;
  bb_notes : option string
}.

(** [req.body] of POST /api/reviews. *)
Record review_body := mkReviewBody {
  rb_booking_id : option Z;
  rb_note : option Z;
  rb_commentaire : option string
}.

(** [req.body] of POST /api/messages. *)
Record message_body := mkMessageBody {
  mb_booking_id : option Z;
  mb_message : option string
}.

(** The [user] object of the register response. *)
Record registered_user := mkRegisteredUser {
  ru_id : Z;
  ru_email : string;
  ru_full_name : string;
  ru_role : string;
  ru_ville : option string;
  ru_secteur : option string
}.

(** The [user] object of the login response. *)
Record logged_user := mkLoggedUser {
  lu_id : Z;
  lu_email : string;
  lu_full_name : string;
  lu_role : string;
  lu_is_verified : option bool;
  lu_is_certified : option bool;
  lu_ville : option string;
  lu_secteur : option string;
  lu_profile_image : option string
}.

(** One row of GET /api/prestataires: the fourteen selected columns, with
    the joined pair it was projected from. *)
Record prestataire_item := mkItem {
  it_id : Z;
  it_full_name : string;
  it_profile_image : option string;
  it_is_verified : option bool;
  it_is_certified : option bool;
  it_metier : string;
  it_description : option string;
  it_note_moyenne : option Z;
  it_nombre_avis : option Z;
  it_zone_intervention : option string;
  it_tarif_horaire : option Z;
  it_annees_experience : option Z;
  it_ville : option string;
  it_secteur : option string
}.

Definition item_of (up : user * profile) : prestataire_item :=
  let (u, p) := up in
  mkItem (u_id u) (u_full_name u) (u_profile_image u) (u_is_verified u)
         (u_is_certified u) (p_metier p) (p_description p) (p_note_moyenne p)
         (p_nombre_avis p) (p_zone_intervention p) (p_tarif_horaire p)
         (p_annees_experience p) (u_ville u) (u_secteur u).

(** One row of the [avis] list: [r.*] with the client's name and image. *)
Record avis_row := mkAvis {
  av_review : review;
  av_client_name : string;
  av_client_image : option string
}.

(** [FROM users u INNER JOIN prestataire_profiles p ON u.id = p.user_id]. *)
Definition users_join_profiles (d : db) : list (user * profile) :=
  flat_map (fun u => map (fun p => (u, p))
                         (filter (fun p => u_id u =? p_user_id p)
                                 (prestataire_profiles d)))
           (users d).

(** [req.user] truthiness of a query parameter: absent or empty is falsy. *)
Definition truthy (v : option string) : option string :=
  match v with
  | Some EmptyString => None
  | _ => v
  end.

(* ================================================================== *)
(** ** The server *)

Section Server.

(** [bcryptjs]: [bcrypt.hash(password, rounds)] with the salt it draws, and
    [bcrypt.compare(password, hash)]. *)
Variable bcrypt_hash : string -> Z -> string -> string.
Variable bcrypt_compare : string -> string -> bool.

(** [jsonwebtoken]: [jwt.sign(payload, secret, { expiresIn })] at a given
    time, [jwt.verify(token, secret)] at a given time. *)
Variable jwt : Type.
Variable jwt_sign : claims -> string -> Z -> Z -> jwt.
Variable jwt_verify : jwt -> string -> Z -> option claims.

(** [process.env.JWT_SECRET]. *)
Variable JWT_SECRET : string.

(** ['24h'] in seconds. *)
Definition expiresIn : Z := 86400.

Inductive body :=
| error_body (error : string)
| register_body_ok (message : string) (token : jwt) (user : registered_user)
| login_body_ok (message : string) (token : jwt) (user : logged_user)
| prestataires_body (prestataires : list prestataire_item) (page limit : Z)
| prestataire_body (prestataire : object) (services : list service)
                   (avis : list avis_row)
| profile_body_ok (message : string) (profile : profile)
| service_body_ok (message : string) (service : service)
| booking_body_ok (message : string) (booking : booking)
| review_body_ok (message : string) (review : review)
| message_body_ok (message : string) (message_data : message_row).

Record response := mkResponse {
  status : Z;
  json : body
}.

(** The [try { ... } catch (error) { res.status(500)... }] around every
    handler body. *)
Definition try_catch (m : M response) : db -> db * response :=
  fun d => match m d with
           | (d', Ok res) => (d', res)
           | (d', Throw _) => (d', mkResponse 500 (error_body "Erreur serveur"))
           end.

(** Middleware [authenticateToken]; [authorization] is the second word of
    the Authorization header. *)
Definition authenticateToken (now : Z) (authorization : option jwt)
    (next : claims -> db -> db * response) : db -> db * response :=
  match authorization with
  | None => fun d => (d, mkResponse 401 (error_body "Token requis"))
  | Some token =>
      match jwt_verify token JWT_SECRET now with
      | None => fun d => (d, mkResponse 403 (error_body "Token invalide"))
      | Some user => next user
      end
  end.

(** [SELECT ... FROM users WHERE email = $1]. *)
Definition users_by_email (d : db) (e : option string) : list user :=
  filter (fun u => sql_eq_text (Some (u_email u)) e) (users d).

(** POST /api/auth/register *)
Definition register (now : Z) (salt : string) (req : register_body)
    : db -> db * response :=
  try_catch (
    d <- get ;;
    match users_by_email d (reg_email req) with
    | _ :: _ => ret (mkResponse 400 (error_body "Email déjà utilisé"))
    | [] =>
        password <- of_option (reg_password req) illegal_arguments ;;
        let hashedPassword := bcrypt_hash password 10 salt in
        newUser <- insert_user now (reg_email req) (Some hashedPassword)
                     (reg_full_name req) (reg_phone req) (reg_role req)
                     (reg_ville req) (reg_secteur req) ;;
        (if opt_eqb String.eqb (reg_role req) (Some "prestataire")
         then insert_profile (u_id newUser) "Général" ;;; ret tt
         else ret tt) ;;;
        let token := jwt_sign (mkClaims (u_id newUser) (reg_email req)
                                        (reg_role req))
                              JWT_SECRET expiresIn now in
        ret (mkResponse 201
               (register_body_ok "Utilisateur créé avec succès" token
                  (mkRegisteredUser (u_id newUser) (u_email newUser)
                     (u_full_name newUser) (u_role newUser)
                     (u_ville newUser) (u_secteur newUser))))
    end).

(** POST /api/auth/login *)
Definition login (now : Z) (req : login_body) : db -> db * response :=
  try_catch (
    d <- get ;;
    match users_by_email d (login_email req) with
    | [] => ret (mkResponse 401 (error_body "Email ou mot de passe incorrect"))
    | user :: _ =>
        password <- of_option (login_password req) illegal_arguments ;;
        if negb (bcrypt_compare password (u_password user)) then
          ret (mkResponse 401 (error_body "Email ou mot de passe incorrect"))
        else
          let token := jwt_sign (mkClaims (u_id user) (Some (u_email user))
                                          (Some (u_role user)))
                                JWT_SECRET expiresIn now in
          ret (mkResponse 200
                 (login_body_ok "Connexion réussie" token
                    (mkLoggedUser (u_id user) (u_email user)
                       (u_full_name user) (u_role user) (u_is_verified user)
                       (u_is_certified user) (u_ville user) (u_secteur user)
                       (u_profile_image user))))
    end).

(** The optional [AND col ILIKE $n] of GET /api/prestataires. *)
Definition ilike_filter (param : option string)
    : M (option (list like_token)) :=
  match truthy param with
  | None => ret None
  | Some v => p <- of_option (like_tokens (percent_wrap v))
                             invalid_escape_sequence ;;
              ret (Some p)
  end.

Definition passes (f : option (list like_token)) (col : option string) : bool :=
  match f with
  | None => true
  | Some p => ilike col p
  end.

(** The WHERE clause of GET /api/prestataires on a joined pair. *)
Definition prestataires_where (fv fm : option (list like_token))
    (up : user * profile) : bool :=
  String.eqb (u_role (fst up)) "prestataire"
  && passes fv (u_ville (fst up))
  && passes fm (Some (p_metier (snd up))).

Definition default (d : Z) (v : option Z) : Z :=
  match v with Some n => n | None => d end.

(** GET /api/prestataires *)
Definition get_prestataires (q : prestataires_query) : db -> db * response :=
  try_catch (
    let page := default 1 (q_page q) in
    let limit := default 10 (q_limit q) in
    let offset := (page - 1) * limit in
    fv <- ilike_filter (q_ville q) ;;
    fm <- ilike_filter (q_metier q) ;;
    d <- get ;;
    let ordered :=
      order_by_desc (fun up => p_note_moyenne (snd up))
                    (filter (prestataires_where fv fm) (users_join_profiles d)) in
    rows <- limit_offset limit offset ordered ;;
    ret (mkResponse 200 (prestataires_body (map item_of rows) page limit))).

(** [rows[0].id] of the joined row. *)
Definition row_id (row : object) : option Z :=
  match obj_get "id" row with
  | Some (JInt n) => Some n
  | _ => None
  end.

(** [SELECT * FROM services WHERE prestataire_id = $1 ORDER BY created_at DESC]. *)
Definition services_of (d : db) (pid : Z) : list service :=
  order_by_desc (fun s => Some (s_created_at s))
                (filter (fun s => s_prestataire_id s =? pid) (services d)).

(** [SELECT r.*, u.full_name, u.profile_image FROM reviews r INNER JOIN
    bookings b ... INNER JOIN users u ... WHERE b.prestataire_id = $1
    ORDER BY r.created_at DESC LIMIT 20]. *)
Definition avis_of (d : db) (pid : Z) : list avis_row :=
  firstn 20
    (order_by_desc (fun a => Some (r_created_at (av_review a)))
       (flat_map
          (fun r =>
             flat_map
               (fun b =>
                  if (r_booking_id r =? b_id b) && (b_prestataire_id b =? pid)
                  then map (fun u => mkAvis r (u_full_name u) (u_profile_image u))
                           (filter (fun u => b_client_id b =? u_id u) (users d))
                  else [])
               (bookings d))
          (reviews d))).

(** GET /api/prestataires/:id; [finish] is what the handler does to
    [rows[0]] before it answers. *)
Definition get_prestataire_with (finish : object -> object) (id : Z)
    : db -> db * response :=
  try_catch (
    d <- get ;;
    match filter (fun up => (u_id (fst up) =? id)
                            && String.eqb (u_role (fst up)) "prestataire")
                 (users_join_profiles d) with
    | [] => ret (mkResponse 404 (error_body "Prestataire non trouvé"))
    | (u, p) :: _ =>
        let row := row_object (user_columns u ++ profile_columns p) in
        pid <- of_option (row_id row) type_error ;;
        ret (mkResponse 200
               (prestataire_body (finish row) (services_of d pid)
                                 (avis_of d pid)))
    end).

(** [server.js] answers with [prestataireResult.rows[0]] itself. *)
Definition get_prestataire : Z -> db -> db * response :=
  get_prestataire_with (fun row => row).

(** The second server file answers with
    [const { password: _, ...prestataireWithoutPassword } = rows[0]]. *)
Definition get_prestataire_without_password : Z -> db -> db * response :=
  get_prestataire_with (obj_without "password").

(** PUT /api/prestataires/profile, after [authenticateToken]. *)
Definition put_profile (user : claims) (req : profile_body)
    : db -> db * response :=
  try_catch (
    rows <- update_profile_fields (pb_metier req) (pb_description req)
              (pb_annees_experience req) (pb_tarif_horaire req)
              (pb_zone_intervention req) (pb_adresse req) (pb_portfolio req)
              (pb_disponibilites req) (userId user) ;;
    match rows with
    | [] => ret (mkResponse 404 (error_body "Profil non trouvé"))
    | p :: _ =>
        ret (mkResponse 200 (profile_body_ok "Profil mis à jour avec succès" p))
    end).

(** POST /api/services, after [authenticateToken]. *)
Definition post_service (now : Z) (user : claims) (req : service_body)
    : db -> db * response :=
  try_catch (
    d <- get ;;
    row <- of_option (hd_error (filter (fun u => u_id u =? userId user) (users d)))
                     type_error ;;
    if negb (String.eqb (u_role row) "prestataire") then
      ret (mkResponse 403 (error_body "Accès réservé aux prestataires"))
    else
      match filter (fun p => p_user_id p =? userId user)
                   (prestataire_profiles d) with
      | [] => ret (mkResponse 404 (error_body "Profil prestataire non trouvé"))
      | p :: _ =>
          let prestataireId := p_id p in
          s <- insert_service now prestataireId (sb_nom_service req)
                 (sb_description req) (sb_prix req) (sb_duree_estimee req)
                 (sb_categorie req) ;;
          ret (mkResponse 201 (service_body_ok "Service créé avec succès" s))
      end).

(** POST /api/bookings, after [authenticateToken]. *)
Definition post_booking (now : Z) (user : claims) (req : booking_body)
    : db -> db * response :=
  try_catch (
    b <- insert_booking now (userId user) (bb_prestataire_id req)
           (bb_service_id req) (bb_date_reservation req)
           (bb_adresse_prestation req) (bb_notes req) ;;
    ret (mkResponse 201 (booking_body_ok "Réservation créée avec succès" b))).

(** PUT /api/bookings/:id/status, after [authenticateToken]. *)
Definition put_booking_status (now : Z) (user : claims) (id : Z)
    (statut : option string) : db -> db * response :=
  try_catch (
    rows <- update_booking_statut now statut id ;;
    match rows with
    | [] => ret (mkResponse 404 (error_body "Réservation non trouvée"))
    | b :: _ =>
        ret (mkResponse 200 (booking_body_ok "Statut mis à jour avec succès" b))
    end).

(** [SELECT * FROM bookings WHERE id = $1 AND client_id = $2 AND statut = $3]
    with [$3 = 'termine']. *)
Definition finished_bookings (d : db) (booking_id : option Z) (client : Z)
    : list booking :=
  filter (fun b => sql_eq_int (Some (b_id b)) booking_id
                   && (b_client_id b =? client)
                   && sql_eq_text (b_statut b) (Some "termine"))
         (bookings d).

(** [SELECT id FROM reviews WHERE booking_id = $1]. *)
Definition reviews_by_booking (d : db) (booking_id : option Z) : list review :=
  filter (fun r => sql_eq_int (Some (r_booking_id r)) booking_id) (reviews d).

(** POST /api/reviews, after [authenticateToken]. *)
Definition post_review (now : Z) (user : claims) (req : review_body)
    : db -> db * response :=
  try_catch (
    d <- get ;;
    match finished_bookings d (rb_booking_id req) (userId user) with
    | [] => ret (mkResponse 403
                   (error_body "Non autorisé ou réservation non terminée"))
    | booking :: _ =>
        match reviews_by_booking d (rb_booking_id req) with
        | _ :: _ =>
            ret (mkResponse 400
                   (error_body "Un avis existe déjà pour cette réservation"))
        | [] =>
            r <- insert_review now (rb_booking_id req) (rb_note req)
                   (rb_commentaire req) ;;
            update_note_moyenne (b_prestataire_id booking) ;;;
            ret (mkResponse 201 (review_body_ok "Avis ajouté avec succès" r))
        end
    end).

(** POST /api/messages, after [authenticateToken]. *)
Definition post_message (now : Z) (user : claims) (req : message_body)
    : db -> db * response :=
  try_catch (
    m <- insert_message now (mb_booking_id req) (userId user) (mb_message req) ;;
    ret (mkResponse 201 (message_body_ok "Message envoyé avec succès" m))).

(** The routes that write to the store.  The GET routes only select. *)
Inductive request :=
| POST_auth_register (salt : string) (req : register_body)
| PUT_prestataires_profile (authorization : option jwt) (req : profile_body)
| POST_services (authorization : option jwt) (req : service_body)
| POST_bookings (authorization : option jwt) (req : booking_body)
| PUT_bookings_status (authorization : option jwt) (id : Z)
                      (statut : option string)
| POST_reviews (authorization : option jwt) (req : review_body)
| POST_messages (authorization : option jwt) (req : message_body).

(** One request served at time [now]. *)
Definition serve (now : Z) (rq : request) : db -> db * response :=
  match rq with
  | POST_auth_register salt req => register now salt req
  | PUT_prestataires_profile a req =>
      authenticateToken now a (fun user => put_profile user req)
  | POST_services a req =>
      authenticateToken now a (fun user => post_service now user req)
  | POST_bookings a req =>
      authenticateToken now a (fun user => post_booking now user req)
  | PUT_bookings_status a id statut =>
      authenticateToken now a (fun user => put_booking_status now user id statut)
  | POST_reviews a req =>
      authenticateToken now a (fun user => post_review now user req)
  | POST_messages a req =>
      authenticateToken now a (fun user => post_message now user req)
  end.

(** The store after a sequence of timed requests. *)
Fixpoint run (trace : list (Z * request)) (d : db) : db :=
  match trace with
  | [] => d
  | (now, rq) :: trace' => run trace' (fst (serve now rq d))
  end.

End Server.

Arguments error_body {jwt} error.
Arguments prestataires_body {jwt} prestataires page limit.
Arguments prestataire_body {jwt} prestataire services avis.
Arguments profile_body_ok {jwt} message profile.
Arguments service_body_ok {jwt} message service.
Arguments booking_body_ok {jwt} message booking.
Arguments review_body_ok {jwt} message review.
Arguments message_body_ok {jwt} message message_data.
Arguments try_catch {jwt} m d.
Arguments get_prestataires {jwt} q d.
Arguments get_prestataire_with {jwt} finish id d.
Arguments get_prestataire {jwt} id d.
Arguments get_prestataire_without_password {jwt} id d.
Arguments put_profile {jwt} user req d.
Arguments post_service {jwt} now user req d.
Arguments post_booking {jwt} now user req d.
Arguments put_booking_status {jwt} now user id statut d.
Arguments post_review {jwt} now user req d.
Arguments post_message {jwt} now user req d.

(* ================================================================== *)
(** ** Store invariants and request predicates used by the statements *)

(** What the [SERIAL] sequences and the foreign key of
    [prestataire_profiles] guarantee about the two account tables. *)
Definition accounts_wf (d : db) : Prop :=
  (forall u, In u (users d) -> u_id u < users_id_seq d)
  /\ (forall p, In p (prestataire_profiles d) ->
        p_id p < prestataire_profiles_id_seq d /\ p_user_id p < users_id_seq d).

(** What the sequence and the [CHECK] of [reviews] guarantee. *)
Definition reviews_wf (d : db) : Prop :=
  (forall r, In r (reviews d) -> r_id r < reviews_id_seq d)
  /\ (forall r, In r (reviews d) -> note_check (r_note r) = true).

Definition fits (n : nat) (v : option string) : bool :=
  match v with
  | None => true
  | Some s => (String.length s <=? n)%nat
  end.

Definition present (v : option string) : bool :=
  match v with Some _ => true | None => false end.

(** A registration body that meets the constraints of [users]: the four
    NOT NULL fields are there, the role is one of the two allowed, and
    every text fits its column. *)
Definition valid_registration (req : register_body) : bool :=
  present (reg_email req) && fits 255 (reg_email req)
  && present (reg_password req)
  && present (reg_full_name req) && fits 255 (reg_full_name req)
  && match reg_role req with Some ro => role_check ro | None => false end
  && fits 20 (reg_phone req) && fits 100 (reg_ville req)
  && fits 100 (reg_secteur req).

(** No LIKE metacharacter. *)
Fixpoint plain (v : string) : bool :=
  match v with
  | EmptyString => true
  | String c v' =>
      negb (Ascii.eqb c "%" || Ascii.eqb c "_" || Ascii.eqb c "\") && plain v'
  end.

(** [s] contains [v] as a case-insensitive substring. *)
Definition contains_ci (v s : string) : Prop :=
  exists a b c, s = a ++ b ++ c /\ lower_string b = lower_string v.

Fixpoint iprefix (v s : string) : bool :=
  match v with
  | EmptyString => true
  | String c v' =>
      match s with
      | EmptyString => false
      | String c' s' => Ascii.eqb (lower c) (lower c') && iprefix v' s'
      end
  end.

(** The decision procedure for [contains_ci]. *)
Fixpoint icontains (v s : string) : bool :=
  iprefix v s
  || match s with
     | EmptyString => false
     | String _ s' => icontains v s'
     end.

Fixpoint literals (v : string) : list like_token :=
  match v with
  | EmptyString => []
  | String c v' => literal c :: literals v'
  end.

(** [x] may come before [y] under [ORDER BY key DESC]. *)
Definition key_desc {A} (key : A -> option Z) (x y : A) : Prop :=
  desc_le (key x) (key y) = true.

(** Rows in the order [ORDER BY p.note_moyenne DESC] asks for. *)
Definition by_note_desc : user * profile -> user * profile -> Prop :=
  key_desc (fun up => p_note_moyenne (snd up)).

(* ================================================================== *)
(** ** Stand-ins for the two libraries, to run the handlers on examples *)

Definition sim_hash (password : string) (rounds : Z) (salt : string) : string :=
  substring 0 60 password.

Definition sim_compare (password hash : string) : bool :=
  String.eqb (substring 0 60 password) hash.

Record sim_jwt := mkSimJwt {
  sj_payload : claims;
  sj_key : string;
  sj_exp : Z
}.

Definition sim_sign (payload : claims) (secret : string) (ttl now : Z) : sim_jwt :=
  mkSimJwt payload secret (now + ttl).

Definition sim_verify (token : sim_jwt) (secret : string) (now : Z)
    : option claims :=
  if String.eqb (sj_key token) secret && (now <? sj_exp token)
  then Some (sj_payload token) else None.

Definition sim_register := register sim_hash sim_sign "secret".
Definition sim_login := login sim_compare sim_sign "secret".

(** Example stores. *)
Definition awa : register_body :=
  mkRegisterBody (Some "awa@gcafo.bf") (Some "s3cret") (Some "Awa")
                 (Some "70000000") (Some "prestataire") (Some "Ouaga") None.

Definition binta : register_body :=
  mkRegisterBody (Some "binta@gcafo.bf") (Some "pa55") (Some "Binta")
                 None (Some "client") (Some "Bobo") None.

(** One provider (user 1, profile 1) registered at time 100. *)
Definition db_provider : db := fst (sim_register 100 "salt1" awa init_db).

(** ... and one client (user 2). *)
Definition db_accounts : db := fst (sim_register 101 "salt2" binta db_provider).

Definition awa_claims : claims :=
  mkClaims 1 (Some "awa@gcafo.bf") (Some "prestataire").
Definition binta_claims : claims :=
  mkClaims 2 (Some "binta@gcafo.bf") (Some "client").

(** ... one service of the provider, booked twice by the client, both
    bookings marked finished. *)
Definition db_booked : db :=
  let d1 := fst (post_service (jwt:=sim_jwt) 102 awa_claims
                   (mkServiceBody (Some "Plomberie") None (Some 500000)
                                  (Some 60) None) db_accounts) in
  let bk := mkBookingBody (Some 1) (Some 1) (Some 200) None None in
  let d2 := fst (post_booking (jwt:=sim_jwt) 103 binta_claims bk d1) in
  let d3 := fst (post_booking (jwt:=sim_jwt) 104 binta_claims bk d2) in
  let d4 := fst (put_booking_status (jwt:=sim_jwt) 105 awa_claims 1
                   (Some "termine") d3) in
  fst (put_booking_status (jwt:=sim_jwt) 106 awa_claims 2 (Some "termine") d4).

(** ... and a first review, rated 4, on booking 1. *)
Definition db_reviewed : db :=
  fst (post_review (jwt:=sim_jwt) 107 binta_claims
         (mkReviewBody (Some 1) (Some 4) (Some "Bien")) db_booked).


(* ================================================================== *)
(** ** Notions the statements are written with *)

Unset Implicit Arguments.

(** The store once [nextval] of a sequence has been taken. *)
Definition after_nextval_users (d : db) : db := fst (nextval_users d).
Definition after_nextval_profiles (d : db) : db := fst (nextval_profiles d).
Definition after_nextval_reviews (d : db) : db := fst (nextval_reviews d).

(** The answers the statements name. *)
Definition bad_credentials (jwt : Type) : response jwt :=
  mkResponse 401 (error_body "Email ou mot de passe incorrect").

Definition server_error (jwt : Type) : response jwt :=
  mkResponse 500 (error_body "Erreur serveur").

(** The 201 answer of [register] for the inserted row [u]. *)
Definition created (jwt : Type) (jwt_sign : claims -> string -> Z -> Z -> jwt)
    (JWT_SECRET : string) (now : Z) (req : register_body) (u : user)
    : response jwt :=
  mkResponse 201
    (register_body_ok "Utilisateur créé avec succès"
       (jwt_sign (mkClaims (u_id u) (reg_email req) (reg_role req))
                 JWT_SECRET expiresIn now)
       (mkRegisteredUser (u_id u) (u_email u) (u_full_name u) (u_role u)
                         (u_ville u) (u_secteur u))).

(** The caller is the client of a finished booking of that id. *)
Definition owns_finished_booking (d : db) (client : Z) (booking_id : option Z)
    : Prop :=
  exists b, In b (bookings d) /\ booking_id = Some (b_id b)
            /\ b_client_id b = client /\ b_statut b = Some "termine".

(** A review of that booking is stored. *)
Definition reviewed (d : db) (booking_id : option Z) : Prop :=
  exists r, In r (reviews d) /\ booking_id = Some (r_booking_id r).

(** [h] is the arithmetic mean of [vals] rounded to two decimals, counted
    in hundredths: no further than half a hundredth from the exact mean. *)
Definition is_rounded_mean (vals : list Z) (h : Z) : Prop :=
  Z.abs (200 * sum_Z vals - 2 * Z.of_nat (List.length vals) * h)
  <= Z.of_nat (List.length vals).

(** Who holds a profile, in table order. *)
Definition profile_owners (d : db) : list Z :=
  map p_user_id (prestataire_profiles d).

(** What a request may do to the two account tables: [users] only grows at
    its end, and [prestataire_profiles] keeps its owners or gains one that
    had no profile. *)
Definition accounts_step (d d' : db) : Prop :=
  (exists l, users d' = (users d ++ l)%list)
  /\ (profile_owners d' = profile_owners d
      \/ exists uid, profile_owners d' = (profile_owners d ++ [uid])%list
                     /\ ~ In uid (profile_owners d)).

(** The pattern a query parameter stands for: none when the parameter is
    absent or empty, the tokens of [%v%] otherwise. *)
Definition pattern_of (param : option string) : option (list like_token) :=
  match truthy param with
  | None => None
  | Some v => like_tokens (percent_wrap v)
  end.

(** What the schema guarantees about a store: ids below their sequences,
    checked notes, unique booking ids. *)
Definition store_wf (d : db) : Prop :=
  accounts_wf d /\ reviews_wf d /\ NoDup (map b_id (bookings d)).

(** Every request keeps whatever each of the nine writing statements
    keeps. *)
Record statement_invariant (P : db -> Prop) : Prop := {
  inv_insert_user :
    forall now e pw fn ph ro vi se d,
      P d -> P (fst (insert_user now e pw fn ph ro vi se d));
  inv_insert_profile :
    forall uid metier d, P d -> P (fst (insert_profile uid metier d));
  inv_insert_service :
    forall now pid nom descr prix duree cat d,
      P d -> P (fst (insert_service now pid nom descr prix duree cat d));
  inv_insert_booking :
    forall now client pid sid date adr notes d,
      P d -> P (fst (insert_booking now client pid sid date adr notes d));
  inv_insert_review :
    forall now bid note text d,
      P d -> P (fst (insert_review now bid note text d));
  inv_insert_message :
    forall now bid sender text d,
      P d -> P (fst (insert_message now bid sender text d));
  inv_update_booking_statut :
    forall now statut id d,
      P d -> P (fst (update_booking_statut now statut id d));
  inv_update_profile_fields :
    forall me de an ta zo ad po di uid d,
      P d -> P (fst (update_profile_fields me de an ta zo ad po di uid d));
  inv_update_note_moyenne :
    forall pid d, P d -> P (fst (update_note_moyenne pid d))
}.

(* ================================================================== *)
(** ** The routes that only select

    GET /api/bookings and GET /api/messages/:booking_id of [server.js] and
    GET /api/services of the second server file, as they run once
    [authenticateToken] has let the request through.  They answer with a
    list of joined rows. *)

(** [x] is listed no later than [y] by [ORDER BY ... ASC] on a column that
    is never NULL. *)
Fixpoint insert_asc {A : Type} (key : A -> Z) (x : A) (l : list A) : list A :=
  match l with
  | [] => [x]
  | y :: l' => if key x <=? key y then x :: y :: l'
               else y :: insert_asc key x l'
  end.

Definition order_by_asc {A : Type} (key : A -> Z) (l : list A) : list A :=
  fold_right (insert_asc key) [] l.

(** One row of GET /api/bookings: [b.*] and the five joined columns. *)
Record booking_item := mkBookingItem {
  bi_booking : booking;
  bi_prestataire_name : string;
  bi_prestataire_image : option string;
  bi_client_name : string;
  bi_nom_service : string;
  bi_service_prix : option Z
}.

(** One row of GET /api/messages/:booking_id. *)
Record message_item := mkMessageItem {
  mi_message : message_row;
  mi_expediteur_name : string;
  mi_expediteur_image : option string
}.

(** One row of GET /api/services. *)
Record service_item := mkServiceItem {
  si_service : service;
  si_prestataire_name : string;
  si_prestataire_image : option string
}.

Inductive listing :=
| listing_error (error : string)
| bookings_listing (rows : list booking_item)
| messages_listing (rows : list message_item)
| services_listing (rows : list service_item).

Record listing_response := mkListing {
  ls_status : Z;
  ls_json : listing
}.

Definition try_catch_listing (m : M listing_response)
    : db -> db * listing_response :=
  fun d => match m d with
           | (d', Ok res) => (d', res)
           | (d', Throw _) =>
               (d', mkListing 500 (listing_error "Erreur serveur"))
           end.

(** [FROM bookings b INNER JOIN users u_presta ON b.prestataire_id =
    u_presta.id INNER JOIN users u_client ON b.client_id = u_client.id
    INNER JOIN services s ON b.service_id = s.id]. *)
Definition bookings_joined (d : db) : list booking_item :=
  flat_map
    (fun b =>
       flat_map
         (fun u_presta =>
            flat_map
              (fun u_client =>
                 map (fun s =>
                        mkBookingItem b (u_full_name u_presta)
                          (u_profile_image u_presta) (u_full_name u_client)
                          (s_nom_service s) (s_prix s))
                     (filter (fun s => b_service_id b =? s_id s) (services d)))
              (filter (fun u => b_client_id b =? u_id u) (users d)))
         (filter (fun u => b_prestataire_id b =? u_id u) (users d)))
    (bookings d).

(** [WHERE (b.client_id = $1 OR b.prestataire_id = $1)] and the optional
    [AND b.statut = $2]. *)
Definition bookings_where (caller : Z) (statut : option string)
    (r : booking_item) : bool :=
  ((b_client_id (bi_booking r) =? caller)
   || (b_prestataire_id (bi_booking r) =? caller))
  && match truthy statut with
     | None => true
     | Some s => sql_eq_text (b_statut (bi_booking r)) (Some s)
     end.

(** GET /api/bookings, after [authenticateToken]. *)
Definition get_bookings (user : claims) (statut : option string)
    : db -> db * listing_response :=
  try_catch_listing (
    d <- get ;;
    ret (mkListing 200
           (bookings_listing
              (order_by_desc (fun r => Some (b_created_at (bi_booking r)))
                 (filter (bookings_where (userId user) statut)
                         (bookings_joined d)))))).

(** GET /api/messages/:booking_id, after [authenticateToken]: [messages m
    INNER JOIN users u ON m.expediteur_id = u.id WHERE m.booking_id = $1
    ORDER BY m.created_at ASC]. *)
Definition get_messages (user : claims) (booking_id : Z)
    : db -> db * listing_response :=
  try_catch_listing (
    d <- get ;;
    ret (mkListing 200
           (messages_listing
              (order_by_asc (fun r => m_created_at (mi_message r))
                 (flat_map
                    (fun m =>
                       if m_booking_id m =? booking_id then
                         map (fun u => mkMessageItem m (u_full_name u)
                                         (u_profile_image u))
                             (filter (fun u => m_expediteur_id m =? u_id u)
                                     (users d))
                       else [])
                    (messages d)))))).


(* ================================================================== *)
(** ** More of what the schema guarantees *)

(** Ids come from their sequences: with [accounts_wf] and [reviews_wf],
    for all six tables. *)
Definition sequences_ok (d : db) : Prop :=
  (forall s, In s (services d) -> s_id s < services_id_seq d)
  /\ (forall b, In b (bookings d) -> b_id b < bookings_id_seq d)
  /\ (forall m, In m (messages d) -> m_id m < messages_id_seq d).

(** PRIMARY KEY and UNIQUE: user ids and emails, profile ids and their
    [user_id], the [booking_id] of reviews. *)
Definition unique_ok (d : db) : Prop :=
  NoDup (map u_id (users d))
  /\ NoDup (map u_email (users d))
  /\ NoDup (map p_id (prestataire_profiles d))
  /\ NoDup (map p_user_id (prestataire_profiles d))
  /\ NoDup (map r_booking_id (reviews d)).

(** REFERENCES: each of the eight foreign keys points at a stored row. *)
Definition links_ok (d : db) : Prop :=
  (forall p, In p (prestataire_profiles d) ->
             has_user_id d (p_user_id p) = true)
  /\ (forall s, In s (services d) ->
                has_profile_id d (s_prestataire_id s) = true)
  /\ (forall b, In b (bookings d) ->
                has_user_id d (b_client_id b) = true
                /\ has_profile_id d (b_prestataire_id b) = true
                /\ has_service_id d (b_service_id b) = true)
  /\ (forall r, In r (reviews d) -> has_booking_id d (r_booking_id r) = true)
  /\ (forall m, In m (messages d) ->
                has_booking_id d (m_booking_id m) = true
                /\ has_user_id d (m_expediteur_id m) = true).

(** CHECK: the role of a user and the status of a booking are among the
    listed values (the range of [note] is in [reviews_wf]). *)
Definition checks_ok (d : db) : Prop :=
  (forall u, In u (users d) -> role_check (u_role u) = true)
  /\ (forall b, In b (bookings d) -> statut_check (b_statut b) = true).

Definition keys_ok (d : db) : Prop :=
  store_wf d /\ sequences_ok d /\ unique_ok d.

Definition schema_ok (d : db) : Prop :=
  keys_ok d /\ links_ok d /\ checks_ok d.

(** Providers and profiles go together: every profile belongs to a stored
    user of role ['prestataire'], and every such user owns a profile. *)
Definition providers_ok (d : db) : Prop :=
  (forall p, In p (prestataire_profiles d) ->
     exists u, In u (users d) /\ u_id u = p_user_id p
               /\ u_role u = "prestataire")
  /\ (forall u, In u (users d) -> u_role u = "prestataire" ->
        exists p, In p (prestataire_profiles d) /\ p_user_id p = u_id u).

(** The bearer token of a request to a protected route: [None] when the
    header is missing, and for the one writing route without
    [authenticateToken]. *)
Definition authorization_of (jwt : Type) (rq : request jwt) : option jwt :=
  match rq with
  | POST_auth_register _ _ _ => None
  | PUT_prestataires_profile a _ => a
  | POST_services a _ => a
  | POST_bookings a _ => a
  | PUT_bookings_status a _ _ => a
  | POST_reviews a _ => a
  | POST_messages a _ => a
  end.

Definition is_register (jwt : Type) (rq : request jwt) : bool :=
  match rq with
  | POST_auth_register _ _ _ => true
  | _ => false
  end.

(** A [DECIMAL(10,2)] parameter within range. *)
Definition decimal_fits (v : option Z) : bool :=
  match v with
  | None => true
  | Some h => Z.abs h <? 10 ^ 10
  end.

(** A profile body whose values fit their columns. *)
Definition profile_body_fits (req : profile_body) : bool :=
  fits 255 (pb_metier req) && decimal_fits (pb_tarif_horaire req)
  && fits 255 (pb_zone_intervention req).

(** A profile body for the examples. *)
Definition awa_profile_body : profile_body :=
  mkProfileBody (Some "Plombier") None (Some 7) (Some 250000) (Some "Ouaga")
                None None None.

(** A second provider (user 3, profile 2), registered once the two bookings
    of [db_booked] are finished; she has no service and no part in them. *)
Definition chantal : register_body :=
  mkRegisterBody (Some "chantal@gcafo.bf") (Some "ch4ntal") (Some "Chantal")
                 None (Some "prestataire") (Some "Koudougou") None.

Definition chantal_claims : claims :=
  mkClaims 3 (Some "chantal@gcafo.bf") (Some "prestataire").

Definition db_three : db := fst (sim_register 108 "salt3" chantal db_booked).

(** ... and the client books her (profile 2) with the service of the first
    provider (booking 3). *)
Definition db_four : db :=
  fst (post_booking (jwt:=sim_jwt) 110 binta_claims
         (mkBookingBody (Some 2) (Some 1) (Some 200) None None) db_three).

(** ... and she writes on booking 1, which is between the client and the
    first provider (message 1). *)
Definition db_five : db :=
  fst (post_message (jwt:=sim_jwt) 111 chantal_claims
         (mkMessageBody (Some 1) (Some "Bonjour")) db_four).

(* ================================================================== *)
(** * Properties *)

(** ** Running the statement monad *)

Ltac unfold_M :=
  repeat progress
    (unfold try_catch, bind, ret, throw, get, put, guard, of_option;
     cbn beta iota).

(** The handlers by name, for the sections that abbreviate them. *)
Ltac unfold_login := unfold login.
Ltac unfold_register := unfold register.
Ltac unfold_created := unfold created.
Ltac simpl_serve := cbn [serve].
Ltac simpl_run := cbn [run].

(** Splits on the first scrutinee of the goal that is not yet a constructor. *)
Ltac case_step :=
  match goal with
  | |- context [match ?x with _ => _ end] =>
      lazymatch x with
      | context [match _ with _ => _ end] => fail
      | _ => destruct x eqn:?
      end
  end.

Lemma sql_eq_text_true (x : string) (e : option string) :
  sql_eq_text (Some x) e = true <-> e = Some x.
Proof.
  destruct e as [y|]; simpl.
  - rewrite String.eqb_eq. split; congruence.
  - split; discriminate.
Qed.

Lemma sql_eq_int_true (x : Z) (e : option Z) :
  sql_eq_int (Some x) e = true <-> e = Some x.
Proof.
  destruct e as [y|]; simpl.
  - rewrite Z.eqb_eq. split; congruence.
  - split; discriminate.
Qed.

Lemma filter_nil_iff {A} (f : A -> bool) (l : list A) :
  filter f l = [] <-> forall x, In x l -> f x = false.
Proof.
  induction l as [|a l IH]; simpl.
  - split; [intros _ x []|reflexivity].
  - destruct (f a) eqn:Fa.
    + split; [discriminate|]. intros H. specialize (H a (or_introl eq_refl)).
      congruence.
    + rewrite IH. split.
      * intros H x [<-|Hx]; auto.
      * intros H x Hx. apply H. now right.
Qed.

Lemma filter_cons_inv {A} (f : A -> bool) (l : list A) x l' :
  filter f l = x :: l' -> In x l /\ f x = true.
Proof.
  intros H. apply filter_In. rewrite H. now left.
Qed.

Lemma existsb_false_iff {A} (f : A -> bool) (l : list A) :
  existsb f l = false <-> forall x, In x l -> f x = false.
Proof.
  induction l as [|a l IH]; simpl.
  - split; [intros _ x []|reflexivity].
  - rewrite orb_false_iff, IH. split.
    + intros [Ha H] x [<-|Hx]; auto.
    + intros H. split; [apply H; now left|]. intros x Hx. apply H. now right.
Qed.

(** ** Objects *)

Lemma has_field_obj_without (k : string) (o : object) :
  has_field k (obj_without k o) = false.
Proof.
  unfold has_field, obj_without. apply existsb_false_iff.
  intros kv Hkv. apply filter_In in Hkv. destruct Hkv as [_ Hk].
  now apply negb_true_iff in Hk.
Qed.

Lemma joined_row_has_password (u : user) (p : profile) :
  obj_get "password" (row_object (user_columns u ++ profile_columns p))
  = Some (JString (u_password u)).
Proof. reflexivity. Qed.

Lemma joined_row_id (u : user) (p : profile) :
  row_id (row_object (user_columns u ++ profile_columns p)) = Some (p_id p).
Proof. reflexivity. Qed.

Section DetailProperties.

Variable jwt : Type.

(** Every 200 answer of the [server.js] handler carries the stored hash
    under the key [password]. *)
Lemma get_prestataire_answers_with_password (id : Z) (d : db) row services avis :
  snd (get_prestataire (jwt:=jwt) id d)
  = mkResponse 200 (prestataire_body row services avis) ->
  exists u, In u (users d) /\ u_id u = id
            /\ obj_get "password" row = Some (JString (u_password u)).
Proof.
  unfold get_prestataire, get_prestataire_with. unfold_M.
  destruct (filter _ (users_join_profiles d)) as [|[u p] rest] eqn:F.
  - discriminate.
  - rewrite joined_row_id. cbn [snd]. intros H. injection H as <- _ _.
    apply filter_cons_inv in F. destruct F as [Hin Hw]. simpl in Hw.
    apply andb_true_iff in Hw. destruct Hw as [Hid _].
    exists u. repeat split.
    + unfold users_join_profiles in Hin. apply in_flat_map in Hin.
      destruct Hin as [u' [Hu' Hp]]. apply in_map_iff in Hp.
      destruct Hp as [p' [E _]]. now inversion E; subst.
    + now apply Z.eqb_eq.
Qed.

(** The handler of the second server file never answers with that key. *)
Lemma get_prestataire_without_password_strips (id : Z) (d : db) row services avis :
  snd (get_prestataire_without_password (jwt:=jwt) id d)
  = mkResponse 200 (prestataire_body row services avis) ->
  has_field "password" row = false.
Proof.
  unfold get_prestataire_without_password, get_prestataire_with. unfold_M.
  destruct (filter _ (users_join_profiles d)) as [|[u p] rest] eqn:F.
  - discriminate.
  - rewrite joined_row_id. cbn [snd]. intros H.
    assert (E : row = obj_without "password"
                        (row_object (user_columns u ++ profile_columns p)))
      by congruence.
    rewrite E. apply has_field_obj_without.
Qed.

End DetailProperties.

(** C1 (fails on [server.js]): GET /api/prestataires/1 on the store
    [db_reviewed] answers 200 with a [prestataire] object whose [password]
    field is the stored hash of user 1; the row is returned as selected. *)
Theorem get_prestataire_exposes_password :
  exists row services avis,
    snd (get_prestataire (jwt:=sim_jwt) 1 db_reviewed)
    = mkResponse 200 (prestataire_body row services avis)
    /\ has_field "password" row = true
    /\ obj_get "password" row = Some (JString (sim_hash "s3cret" 10 "salt1")).
Proof.
  do 3 eexists. split; [vm_compute; reflexivity|]. split; reflexivity.
Qed.

(* ================================================================== *)
(** ** Login *)

Section LoginProperties.

Variable bcrypt_compare : string -> string -> bool.
Variable jwt : Type.
Variable jwt_sign : claims -> string -> Z -> Z -> jwt.
Variable JWT_SECRET : string.

Local Abbreviation login := (login bcrypt_compare jwt_sign JWT_SECRET).

Lemma users_by_email_nil (d : db) (e : option string) :
  (forall u, In u (users d) -> e <> Some (u_email u)) ->
  users_by_email d e = [].
Proof.
  intros H. apply filter_nil_iff. intros u Hu.
  destruct (sql_eq_text (Some (u_email u)) e) eqn:E; [|reflexivity].
  apply sql_eq_text_true in E. now apply H in Hu.
Qed.

Lemma users_by_email_cons (d : db) (e : option string) u l :
  users_by_email d e = u :: l -> In u (users d) /\ e = Some (u_email u).
Proof.
  intros H. apply filter_cons_inv in H. destruct H as [Hu E].
  now apply sql_eq_text_true in E.
Qed.

Local Abbreviation bad_credentials := (bad_credentials jwt).

(** Login with an email that no user has. *)
Lemma login_unknown_email now req d :
  (forall u, In u (users d) -> login_email req <> Some (u_email u)) ->
  login now req d = (d, bad_credentials).
Proof.
  intros H. unfold_login. unfold_M.
  now rewrite (users_by_email_nil d (login_email req) H).
Qed.

(** Login with a registered email and a password that no user of that
    email has. *)
Lemma login_wrong_password now req d pw :
  (exists u, In u (users d) /\ login_email req = Some (u_email u)) ->
  login_password req = Some pw ->
  (forall u, In u (users d) -> login_email req = Some (u_email u) ->
             bcrypt_compare pw (u_password u) = false) ->
  login now req d = (d, bad_credentials).
Proof.
  intros [u0 [Hu0 E0]] Hpw Hcmp. unfold_login. unfold_M.
  destruct (users_by_email d (login_email req)) as [|u l] eqn:F.
  - reflexivity.
  - apply users_by_email_cons in F. destruct F as [Hu E].
    rewrite Hpw. unfold_M. now rewrite (Hcmp u Hu E).
Qed.

(** C6: a login with an email that is not in [users] and a login with a
    registered email and a password that [bcrypt.compare] rejects get the
    same answer, status 401 with the one message, and neither changes the
    store. *)
Theorem login_failures_indistinguishable now1 now2 r1 r2 d pw :
  (forall u, In u (users d) -> login_email r1 <> Some (u_email u)) ->
  (exists u, In u (users d) /\ login_email r2 = Some (u_email u)) ->
  login_password r2 = Some pw ->
  (forall u, In u (users d) -> login_email r2 = Some (u_email u) ->
             bcrypt_compare pw (u_password u) = false) ->
  login now1 r1 d = login now2 r2 d
  /\ snd (login now1 r1 d)
     = mkResponse 401 (error_body "Email ou mot de passe incorrect")
  /\ fst (login now1 r1 d) = d /\ fst (login now2 r2 d) = d.
Proof.
  intros H1 H2 Hpw Hcmp.
  rewrite (login_unknown_email now1 r1 d H1).
  rewrite (login_wrong_password now2 r2 d pw H2 Hpw Hcmp).
  repeat split.
Qed.

End LoginProperties.

Lemma in_users_accounts u :
  In u (users db_accounts) ->
  u_email u = "awa@gcafo.bf" \/ u_email u = "binta@gcafo.bf".
Proof.
  vm_compute. intros [<-|[<-|[]]]; [left|right]; reflexivity.
Qed.

Lemma login_failures_indistinguishable_witness :
  sim_login 300 (mkLoginBody (Some "nobody@gcafo.bf") (Some "x")) db_accounts
  = sim_login 301 (mkLoginBody (Some "awa@gcafo.bf") (Some "wrong")) db_accounts
  /\ snd (sim_login 300 (mkLoginBody (Some "nobody@gcafo.bf") (Some "x"))
                    db_accounts)
     = mkResponse 401 (error_body "Email ou mot de passe incorrect")
  /\ fst (sim_login 300 (mkLoginBody (Some "nobody@gcafo.bf") (Some "x"))
                    db_accounts) = db_accounts
  /\ fst (sim_login 301 (mkLoginBody (Some "awa@gcafo.bf") (Some "wrong"))
                    db_accounts) = db_accounts.
Proof.
  apply (login_failures_indistinguishable sim_compare sim_jwt sim_sign "secret"
           300 301 (mkLoginBody (Some "nobody@gcafo.bf") (Some "x"))
           (mkLoginBody (Some "awa@gcafo.bf") (Some "wrong")) db_accounts
           "wrong").
  - intros u Hu E. apply in_users_accounts in Hu. simpl in E.
    destruct Hu as [Hu|Hu]; rewrite Hu in E; discriminate.
  - exists (mkUser 1 "awa@gcafo.bf" "s3cret" "prestataire" "Awa"
                   (Some "70000000") None (Some false) (Some false)
                   (Some "Ouaga") None 100 100).
    split; [vm_compute; now left|reflexivity].
  - reflexivity.
  - intros u Hu E. vm_compute in Hu. simpl in E.
    destruct Hu as [<-|[<-|[]]]; [reflexivity|discriminate].
Defined.

(* ================================================================== *)
(** ** Booking status *)

Lemma length_substring_0 (n : nat) (s : string) :
  (n <= String.length s)%nat -> String.length (substring 0 n s) = n.
Proof.
  revert s. induction n as [|n IH]; intros s H.
  - now destruct s.
  - destruct s as [|c s]; simpl in *; [lia|]. rewrite IH; [reflexivity|lia].
Qed.

Lemma length_substring_0_le (n : nat) (s : string) :
  (String.length (substring 0 n s) <= n)%nat.
Proof.
  revert s. induction n as [|n IH]; intros s.
  - now destruct s.
  - destruct s as [|c s]; simpl; [lia|]. specialize (IH s). lia.
Qed.

Lemma varchar_fits (n : nat) (s : string) :
  (String.length s <= n)%nat -> varchar n s = Some s.
Proof.
  intros H. unfold varchar. apply Nat.leb_le in H. now rewrite H.
Qed.

Lemma varchar_opt_fits (n : nat) (v : option string) :
  fits n v = true -> varchar_opt n v = Some v.
Proof.
  destruct v as [s|]; simpl; [|reflexivity].
  intros H. apply Nat.leb_le in H. now rewrite (varchar_fits n s H).
Qed.

(** A value that [varchar n] cuts has exactly [n] characters afterwards. *)
Lemma varchar_length (n : nat) (s s' : string) :
  varchar n s = Some s' -> s' = s \/ String.length s' = n.
Proof.
  unfold varchar. destruct (String.length s <=? n)%nat eqn:L.
  - intros H. left. congruence.
  - destruct (all_spaces _); [|discriminate]. intros H. right.
    injection H as <-. apply length_substring_0.
    apply Nat.leb_gt in L. lia.
Qed.







Section StatusProperties.

Variable jwt : Type.


End StatusProperties.


(** The three cases of [put_booking_status_outcome] on the example store. *)
Example put_booking_status_examples :
  snd (put_booking_status (jwt:=sim_jwt) 200 binta_claims 2 (Some "annule")
                          db_booked)
  = mkResponse 200
      (booking_body_ok "Statut mis à jour avec succès"
         (mkBooking 2 2 1 1 200 (Some "annule") None None None 104 200))
  /\ status (snd (put_booking_status (jwt:=sim_jwt) 200 binta_claims 7
                                     (Some "annule") db_booked)) = 404
  /\ status (snd (put_booking_status (jwt:=sim_jwt) 200 binta_claims 7
                                     (Some "en_cours") db_booked)) = 404.
Proof. repeat split; vm_compute; reflexivity. Qed.

(* ================================================================== *)
(** ** Reviews *)

Lemma insert_review_throws now booking_id note commentaire d d' e :
  insert_review now booking_id note commentaire d = (d', Throw e) ->
  d' = after_nextval_reviews d.
Proof.
  unfold insert_review. unfold_M. unfold after_nextval_reviews.
  destruct (nextval_reviews d) as [d1 r1] eqn:N.
  unfold nextval_reviews in N. injection N as <- <-.
  repeat (case_step; unfold_M); intros H; inversion H; reflexivity.
Qed.

Lemma insert_review_ok now booking_id note commentaire d d' r :
  insert_review now booking_id note commentaire d = (d', Ok r) ->
  exists bid,
    booking_id = Some bid
    /\ note_check note = true
    /\ r = mkReview (reviews_id_seq d) bid note commentaire None now
    /\ d' = set_reviews (reviews d ++ [r]) (after_nextval_reviews d).
Proof.
  unfold insert_review. unfold_M. unfold after_nextval_reviews.
  destruct (nextval_reviews d) as [d1 r1] eqn:N.
  unfold nextval_reviews in N. injection N as <- <-.
  destruct booking_id as [bid|]; unfold_M; [|discriminate].
  destruct (note_check note) eqn:C; unfold_M; [|discriminate].
  repeat (case_step; unfold_M); intros H; inversion H.
  exists bid. repeat split.
Qed.


Lemma insert_review_check_fails now bid note commentaire d :
  note_check note = false ->
  exists e, insert_review now (Some bid) note commentaire d
            = (after_nextval_reviews d, Throw e).
Proof.
  intros C. unfold insert_review. unfold_M. unfold after_nextval_reviews.
  destruct (nextval_reviews d) as [d1 r1] eqn:N.
  unfold nextval_reviews in N. injection N as <- <-.
  rewrite C. unfold_M. now exists check_violation.
Qed.

Lemma update_note_moyenne_throws pid d d' e :
  update_note_moyenne pid d = (d', Throw e) -> d' = d.
Proof.
  unfold update_note_moyenne. unfold_M.
  repeat (case_step; unfold_M); intros H; inversion H; reflexivity.
Qed.

Lemma update_note_moyenne_ok pid d d' :
  update_note_moyenne pid d = (d', Ok tt) ->
  (existsb (fun p => p_id p =? pid) (prestataire_profiles d) = false /\ d' = d)
  \/ exists avg,
       avg_note (joined_notes d pid) = Some avg
       /\ d' = set_profiles
                 (map (fun p => if p_id p =? pid
                                then with_aggregate avg
                                       (count_rows (joined_notes d pid)) p
                                else p)
                      (prestataire_profiles d)) d.
Proof.
  unfold update_note_moyenne. unfold_M.
  destruct (existsb _ (prestataire_profiles d)) eqn:X; unfold_M.
  - destruct (avg_note (joined_notes d pid)) as [avg|] eqn:A; unfold_M;
      [|discriminate].
    intros H. injection H as <-. right. now exists avg.
  - intros H. injection H as <-. now left.
Qed.

Section ReviewProperties.

Variable jwt : Type.

Local Abbreviation server_error := (server_error jwt).

(** [post_review] statement by statement. *)
Lemma post_review_unfold now user req d :
  post_review (jwt:=jwt) now user req d =
  match finished_bookings d (rb_booking_id req) (userId user) with
  | [] => (d, mkResponse 403
                (error_body "Non autorisé ou réservation non terminée"))
  | b :: _ =>
      match reviews_by_booking d (rb_booking_id req) with
      | _ :: _ =>
          (d, mkResponse 400
                (error_body "Un avis existe déjà pour cette réservation"))
      | [] =>
          match insert_review now (rb_booking_id req) (rb_note req)
                              (rb_commentaire req) d with
          | (d1, Throw _) => (d1, server_error)
          | (d1, Ok r) =>
              match update_note_moyenne (b_prestataire_id b) d1 with
              | (d2, Throw _) => (d2, server_error)
              | (d2, Ok _) =>
                  (d2, mkResponse 201
                         (review_body_ok "Avis ajouté avec succès" r))
              end
          end
      end
  end.
Proof.
  unfold post_review. unfold_M.
  destruct (finished_bookings _ _ _) as [|b l]; [reflexivity|].
  destruct (reviews_by_booking _ _) as [|r0 l0]; [|reflexivity].
  unfold_M.
  destruct (insert_review _ _ _ _ d) as [d1 [r|e]]; [|reflexivity].
  destruct (update_note_moyenne _ d1) as [d2 [u|e]]; reflexivity.
Qed.

End ReviewProperties.

Lemma finished_bookings_In d booking_id client b :
  In b (finished_bookings d booking_id client) <->
  In b (bookings d) /\ booking_id = Some (b_id b)
  /\ b_client_id b = client /\ b_statut b = Some "termine".
Proof.
  unfold finished_bookings. rewrite filter_In, !andb_true_iff.
  rewrite sql_eq_int_true, Z.eqb_eq.
  destruct (b_statut b) as [s|]; simpl.
  - rewrite String.eqb_eq. split.
    + intros [H [[H1 H2] H3]]. repeat split; congruence.
    + intros [H [H1 [H2 H3]]]. repeat split; congruence.
  - split.
    + intros [_ [_ H]]. discriminate.
    + intros [_ [_ [_ H]]]. discriminate.
Qed.

Lemma finished_bookings_nil d booking_id client :
  finished_bookings d booking_id client = [] <->
  ~ owns_finished_booking d client booking_id.
Proof.
  split.
  - intros E [b Hb]. apply finished_bookings_In in Hb. rewrite E in Hb.
    destruct Hb.
  - intros N. destruct (finished_bookings d booking_id client) as [|b l] eqn:E;
      [reflexivity|].
    exfalso. apply N. exists b. apply finished_bookings_In. rewrite E.
    now left.
Qed.

Lemma reviews_by_booking_In d booking_id r :
  In r (reviews_by_booking d booking_id) <->
  In r (reviews d) /\ booking_id = Some (r_booking_id r).
Proof.
  unfold reviews_by_booking. now rewrite filter_In, sql_eq_int_true.
Qed.

Lemma reviews_by_booking_nil d booking_id :
  reviews_by_booking d booking_id = [] <-> ~ reviewed d booking_id.
Proof.
  split.
  - intros E [r Hr]. apply reviews_by_booking_In in Hr. rewrite E in Hr.
    destruct Hr.
  - intros N. destruct (reviews_by_booking d booking_id) as [|r l] eqn:E;
      [reflexivity|].
    exfalso. apply N. exists r. apply reviews_by_booking_In. rewrite E.
    now left.
Qed.

(** *** The cast of the average never overflows on checked notes *)




(** The rounded mean is within half a hundredth of the exact mean. *)
Lemma round_hundredths_nearest (sum cnt : Z) :
  0 < cnt ->
  Z.abs (200 * sum - 2 * cnt * round_hundredths sum cnt) <= cnt.
Proof.
  intros Hc. unfold round_hundredths.
  assert (D : forall a, 0 <= a ->
            2 * cnt * ((200 * a + cnt) / (2 * cnt)) <= 200 * a + cnt
            < 2 * cnt * ((200 * a + cnt) / (2 * cnt)) + 2 * cnt).
  { intros a Ha. split.
    - apply Z.mul_div_le. lia.
    - assert (M := Z.mod_pos_bound (200 * a + cnt) (2 * cnt)).
      assert (E := Z.div_mod (200 * a + cnt) (2 * cnt)). lia. }
  destruct (Z.sgn_spec sum) as [[P E]|[[P E]|[P E]]]; rewrite E.
  - rewrite (Z.abs_eq sum) by lia. specialize (D sum ltac:(lia)).
    revert D. generalize ((200 * sum + cnt) / (2 * cnt)). intros q D.
    rewrite Z.mul_1_l. apply Z.abs_le. lia.
  - rewrite Z.mul_0_l, Z.mul_0_r. subst sum. simpl. lia.
  - rewrite (Z.abs_neq sum) by lia. specialize (D (- sum) ltac:(lia)).
    revert D. generalize ((200 * - sum + cnt) / (2 * cnt)). intros q D.
    apply Z.abs_le. lia.
Qed.



Lemma filter_unique_booking (l : list booking) (b : booking) :
  NoDup (map b_id l) -> In b l ->
  filter (fun b' => (b_id b =? b_id b')
                    && (b_prestataire_id b' =? b_prestataire_id b)) l = [b].
Proof.
  induction l as [|a l IH]; intros ND Hin; [destruct Hin|].
  cbn [map] in ND. inversion ND as [|x xs Hnotin ND']; subst.
  cbn [filter]. destruct Hin as [->|Hin].
  - rewrite !Z.eqb_refl. cbn [andb]. f_equal.
    apply filter_nil_iff. intros b' Hb'.
    apply andb_false_iff. left. apply Z.eqb_neq. intros E.
    apply Hnotin. rewrite E. now apply in_map.
  - assert (N : b_id b <> b_id a).
    { intros E. apply Hnotin. rewrite <- E. now apply in_map. }
    apply Z.eqb_neq in N. rewrite N. cbn [andb]. now apply IH.
Qed.

(** A review appended for booking [b] adds exactly one row to the join of
    [b]'s provider. *)
Lemma joined_notes_snoc (d d1 : db) (b : booking) (r : review) :
  NoDup (map b_id (bookings d)) -> In b (bookings d) ->
  r_booking_id r = b_id b ->
  bookings d1 = bookings d -> reviews d1 = (reviews d ++ [r])%list ->
  joined_notes d1 (b_prestataire_id b)
  = (joined_notes d (b_prestataire_id b) ++ [r_note r])%list.
Proof.
  intros ND Hb Er Eb Erv. unfold joined_notes.
  rewrite Erv, Eb, flat_map_app. f_equal. cbn [flat_map].
  rewrite app_nil_r, Er, (filter_unique_booking _ b ND Hb). reflexivity.
Qed.

Section ReviewClaims.

Variable jwt : Type.

(** C10: when the caller owns the finished booking, no review of it is
    stored and the [note] breaks the CHECK of [reviews], POST /api/reviews
    answers the generic 500 and leaves [prestataire_profiles] and [reviews]
    as they were; more generally no answer other than 201 comes with a
    change to [prestataire_profiles]. *)
Theorem post_review_error_keeps_aggregate now user req d :
  (owns_finished_booking d (userId user) (rb_booking_id req) ->
   ~ reviewed d (rb_booking_id req) ->
   note_check (rb_note req) = false ->
   snd (post_review (jwt:=jwt) now user req d)
   = mkResponse 500 (error_body "Erreur serveur")
   /\ prestataire_profiles (fst (post_review (jwt:=jwt) now user req d))
      = prestataire_profiles d
   /\ reviews (fst (post_review (jwt:=jwt) now user req d)) = reviews d)
  /\ (status (snd (post_review (jwt:=jwt) now user req d)) <> 201 ->
      prestataire_profiles (fst (post_review (jwt:=jwt) now user req d))
      = prestataire_profiles d).
Proof.
  rewrite post_review_unfold. split.
  - intros Own NoRev C.
    destruct (finished_bookings d (rb_booking_id req) (userId user))
      as [|b l] eqn:F.
    { apply finished_bookings_nil in F. contradiction. }
    apply reviews_by_booking_nil in NoRev. rewrite NoRev.
    assert (Hb : In b (finished_bookings d (rb_booking_id req) (userId user)))
      by (rewrite F; now left).
    apply finished_bookings_In in Hb. destruct Hb as [_ [E _]].
    rewrite E.
    destruct (insert_review_check_fails now (b_id b) (rb_note req)
                (rb_commentaire req) d C) as [e ->].
    repeat split.
  - destruct (finished_bookings _ _ _) as [|b l]; [reflexivity|].
    destruct (reviews_by_booking _ _) as [|r0 l0]; [|reflexivity].
    destruct (insert_review _ _ _ _ d) as [d1 [r|e]] eqn:I.
    + apply insert_review_ok in I. destruct I as [bid [_ [_ [_ ->]]]].
      destruct (update_note_moyenne _ _) as [d2 [u|e]] eqn:U.
      * cbn [snd status]. intros N. now contradiction N.
      * apply update_note_moyenne_throws in U. subst d2. reflexivity.
    + apply insert_review_throws in I. subst d1. reflexivity.
Qed.


(** C3 (as amended): on a store with unique booking ids, a review creation
    answered 201 appends its [note] to the notes joined to the provider of
    the booking and rewrites every profile row of that provider:
    [nombre_avis] is the number N of joined reviews, and [note_moyenne] is
    the mean of the non-NULL notes among them rounded to two decimals, or
    NULL when every note is NULL. *)
Theorem post_review_recomputes_aggregate now user req d d' res :
  NoDup (map b_id (bookings d)) ->
  post_review (jwt:=jwt) now user req d = (d', res) ->
  status res = 201 ->
  exists b,
    In b (bookings d) /\ rb_booking_id req = Some (b_id b)
    /\ joined_notes d' (b_prestataire_id b)
       = (joined_notes d (b_prestataire_id b) ++ [rb_note req])%list
    /\ map p_id (prestataire_profiles d') = map p_id (prestataire_profiles d)
    /\ forall p, In p (prestataire_profiles d') ->
                 p_id p = b_prestataire_id b ->
         p_nombre_avis p
         = Some (Z.of_nat (List.length (joined_notes d' (b_prestataire_id b))))
         /\ match non_null (joined_notes d' (b_prestataire_id b)) with
            | [] => p_note_moyenne p = None
            | vals => exists h, p_note_moyenne p = Some h
                                /\ is_rounded_mean vals h
            end.
Proof.
  intros ND. rewrite post_review_unfold.
  destruct (finished_bookings d (rb_booking_id req) (userId user))
    as [|b l] eqn:F.
  { intros H S. injection H as _ <-. discriminate. }
  destruct (reviews_by_booking _ _) as [|r0 l0].
  2:{ intros H S. injection H as _ <-. discriminate. }
  assert (Hb : In b (finished_bookings d (rb_booking_id req) (userId user)))
    by (rewrite F; now left).
  apply finished_bookings_In in Hb. destruct Hb as [Hb [E _]].
  destruct (insert_review _ _ _ _ d) as [d1 [r|e]] eqn:I.
  2:{ intros H S. injection H as _ <-. discriminate. }
  destruct (update_note_moyenne _ d1) as [d2 [[]|e]] eqn:U.
  2:{ intros H S. injection H as _ <-. discriminate. }
  intros H _. injection H as -> _.
  apply insert_review_ok in I. destruct I as [bid [Ebid [_ [Er Ed1]]]].
  assert (bid = b_id b) by congruence. subst bid.
  assert (J1 : joined_notes d1 (b_prestataire_id b)
               = (joined_notes d (b_prestataire_id b) ++ [rb_note req])%list).
  { replace (rb_note req) with (r_note r) by (rewrite Er; reflexivity).
    apply joined_notes_snoc; try assumption.
    - rewrite Er. reflexivity.
    - rewrite Ed1. reflexivity.
    - rewrite Ed1. reflexivity. }
  assert (P1 : prestataire_profiles d1 = prestataire_profiles d)
    by (rewrite Ed1; reflexivity).
  exists b. split; [exact Hb|]. split; [exact E|].
  apply update_note_moyenne_ok in U. destruct U as [[X ->]|[avg [A ->]]].
  - split; [exact J1|]. split; [now rewrite P1|].
    intros p Hp Ep. exfalso. rewrite existsb_false_iff in X.
    specialize (X p Hp). apply Z.eqb_neq in X. contradiction.
  - assert (J2 : forall l, joined_notes (set_profiles l d1) (b_prestataire_id b)
                           = joined_notes d1 (b_prestataire_id b))
      by reflexivity.
    rewrite J2. split; [exact J1|]. split.
    + cbn [prestataire_profiles set_profiles]. rewrite map_map, <- P1.
      apply map_ext. intros p. now destruct (p_id p =? b_prestataire_id b).
    + cbn [prestataire_profiles set_profiles]. intros p Hp Ep.
      apply in_map_iff in Hp. destruct Hp as [p0 [Hp0 _]].
      destruct (p_id p0 =? b_prestataire_id b) eqn:X.
      * subst p. cbn [with_aggregate p_nombre_avis p_note_moyenne].
        split; [reflexivity|].
        unfold avg_note in A.
        destruct (non_null (joined_notes d1 (b_prestataire_id b)))
          as [|v vals] eqn:NN.
        -- now injection A as <-.
        -- destruct (numeric_3_2 _) as [h|] eqn:C; [|discriminate].
           injection A as <-. exists h. split; [reflexivity|].
           unfold numeric_3_2 in C. destruct (Z.abs _ <? 1000); [|discriminate].
           injection C as <-. unfold is_rounded_mean.
           apply round_hundredths_nearest. simpl List.length. lia.
      * subst p. apply Z.eqb_neq in X. contradiction.
Qed.

End ReviewClaims.

(** *** The review properties on the example stores *)


Lemma db_booked_unique_ids : NoDup (map b_id (bookings db_booked)).
Proof.
  vm_compute. repeat constructor; simpl; intuition discriminate.
Qed.

(** C3 (as stated) fails on a review without a rating: after a second
    review, posted with no [note], the profile shows [nombre_avis = 2] next
    to [note_moyenne = 4.00], the mean of the single rating there is; and a
    first review posted with no [note] leaves [note_moyenne] NULL with
    [nombre_avis = 1]. *)
Lemma post_review_null_note_skews_aggregate :
  (status (snd (post_review (jwt:=sim_jwt) 108 binta_claims
                            (mkReviewBody (Some 2) None None) db_reviewed))
   = 201
   /\ joined_notes (fst (post_review (jwt:=sim_jwt) 108 binta_claims
                           (mkReviewBody (Some 2) None None) db_reviewed)) 1
      = [Some 4; None]
   /\ map (fun p => (p_note_moyenne p, p_nombre_avis p))
          (prestataire_profiles
             (fst (post_review (jwt:=sim_jwt) 108 binta_claims
                     (mkReviewBody (Some 2) None None) db_reviewed)))
      = [(Some 400, Some 2)])
  /\ (status (snd (post_review (jwt:=sim_jwt) 108 binta_claims
                               (mkReviewBody (Some 1) None None) db_booked))
      = 201
      /\ map (fun p => (p_note_moyenne p, p_nombre_avis p))
             (prestataire_profiles
                (fst (post_review (jwt:=sim_jwt) 108 binta_claims
                        (mkReviewBody (Some 1) None None) db_booked)))
         = [(None, Some 1)]).
Proof. repeat split; vm_compute; reflexivity. Qed.

Lemma post_review_recomputes_aggregate_witness :
  exists b,
    In b (bookings db_booked) /\ Some 1 = Some (b_id b)
    /\ joined_notes db_reviewed (b_prestataire_id b)
       = (joined_notes db_booked (b_prestataire_id b) ++ [Some 4])%list
    /\ map p_id (prestataire_profiles db_reviewed)
       = map p_id (prestataire_profiles db_booked)
    /\ forall p, In p (prestataire_profiles db_reviewed) ->
                 p_id p = b_prestataire_id b ->
         p_nombre_avis p
         = Some (Z.of_nat (List.length (joined_notes db_reviewed
                                                     (b_prestataire_id b))))
         /\ match non_null (joined_notes db_reviewed (b_prestataire_id b)) with
            | [] => p_note_moyenne p = None
            | vals => exists h, p_note_moyenne p = Some h
                                /\ is_rounded_mean vals h
            end.
Proof.
  apply (post_review_recomputes_aggregate sim_jwt 107 binta_claims
           (mkReviewBody (Some 1) (Some 4) (Some "Bien")) db_booked db_reviewed
           (mkResponse 201
              (review_body_ok "Avis ajouté avec succès"
                 (mkReview 1 1 (Some 4) (Some "Bien") None 107)))).
  - exact db_booked_unique_ids.
  - vm_compute. reflexivity.
  - reflexivity.
Defined.


Lemma db_reviewed_owns_2 :
  owns_finished_booking db_reviewed (userId binta_claims) (Some 2).
Proof.
  exists (mkBooking 2 2 1 1 200 (Some "termine") None None None 104 106).
  split; [vm_compute; right; now left|].
  split; [reflexivity|]. split; reflexivity.
Qed.

Lemma db_reviewed_not_reviewed_2 : ~ reviewed db_reviewed (Some 2).
Proof.
  intros [r [Hr E]]. vm_compute in Hr. destruct Hr as [<-|[]]. discriminate.
Qed.


(** The failing insert of C10 on the example store: sequence value 2 is
    spent, and the aggregate of profile 1 still reads 4.00 over 1 review. *)
Lemma post_review_error_keeps_aggregate_witness :
  snd (post_review (jwt:=sim_jwt) 108 binta_claims
                   (mkReviewBody (Some 2) (Some 0) None) db_reviewed)
  = mkResponse 500 (error_body "Erreur serveur")
  /\ map (fun p => (p_note_moyenne p, p_nombre_avis p))
         (prestataire_profiles
            (fst (post_review (jwt:=sim_jwt) 108 binta_claims
                    (mkReviewBody (Some 2) (Some 0) None) db_reviewed)))
     = [(Some 400, Some 1)]
  /\ reviews_id_seq (fst (post_review (jwt:=sim_jwt) 108 binta_claims
                            (mkReviewBody (Some 2) (Some 0) None) db_reviewed))
     = 3.
Proof.
  destruct (proj1 (post_review_error_keeps_aggregate sim_jwt 108 binta_claims
                     (mkReviewBody (Some 2) (Some 0) None) db_reviewed)
              db_reviewed_owns_2 db_reviewed_not_reviewed_2 eq_refl)
    as [R [P _]].
  split; [exact R|]. split; [rewrite P|]; vm_compute; reflexivity.
Defined.

(* ================================================================== *)
(** ** What each statement leaves alone *)

Ltac frame :=
  intros; unfold_M;
  repeat (case_step; unfold_M);
  cbn; repeat split; reflexivity.

Lemma insert_service_accounts now pid nom descr prix duree cat d :
  users (fst (insert_service now pid nom descr prix duree cat d)) = users d
  /\ prestataire_profiles (fst (insert_service now pid nom descr prix duree cat d))
     = prestataire_profiles d.
Proof. unfold insert_service, nextval_services. frame. Qed.

Lemma insert_booking_accounts now client pid sid date adr notes d :
  users (fst (insert_booking now client pid sid date adr notes d)) = users d
  /\ prestataire_profiles (fst (insert_booking now client pid sid date adr notes d))
     = prestataire_profiles d.
Proof. unfold insert_booking, nextval_bookings. frame. Qed.

Lemma insert_message_accounts now bid sender text d :
  users (fst (insert_message now bid sender text d)) = users d
  /\ prestataire_profiles (fst (insert_message now bid sender text d))
     = prestataire_profiles d.
Proof. unfold insert_message, nextval_messages. frame. Qed.

Lemma insert_review_accounts now bid note text d :
  users (fst (insert_review now bid note text d)) = users d
  /\ prestataire_profiles (fst (insert_review now bid note text d))
     = prestataire_profiles d.
Proof. unfold insert_review, nextval_reviews. frame. Qed.

Lemma update_booking_statut_accounts now statut id d :
  users (fst (update_booking_statut now statut id d)) = users d
  /\ prestataire_profiles (fst (update_booking_statut now statut id d))
     = prestataire_profiles d.
Proof. unfold update_booking_statut. frame. Qed.

Lemma map_user_id_rewritten (hit : profile -> bool) (g : profile -> profile)
    (l : list profile) :
  (forall p, p_user_id (g p) = p_user_id p) ->
  map p_user_id (map (fun p => if hit p then g p else p) l) = map p_user_id l.
Proof.
  intros H. rewrite map_map. apply map_ext. intros p.
  destruct (hit p); [apply H|reflexivity].
Qed.

Lemma update_note_moyenne_accounts pid d :
  users (fst (update_note_moyenne pid d)) = users d
  /\ map p_user_id (prestataire_profiles (fst (update_note_moyenne pid d)))
     = map p_user_id (prestataire_profiles d).
Proof.
  unfold update_note_moyenne. unfold_M.
  repeat (case_step; unfold_M); cbn; split; try reflexivity.
  now apply map_user_id_rewritten.
Qed.

Lemma update_profile_fields_accounts me de an ta zo ad po di uid d :
  users (fst (update_profile_fields me de an ta zo ad po di uid d)) = users d
  /\ map p_user_id
         (prestataire_profiles
            (fst (update_profile_fields me de an ta zo ad po di uid d)))
     = map p_user_id (prestataire_profiles d).
Proof.
  unfold update_profile_fields. unfold_M.
  repeat (case_step; unfold_M); cbn; split; try reflexivity.
  now apply map_user_id_rewritten.
Qed.

(** *** [INSERT INTO users] and [INSERT INTO prestataire_profiles] *)

Lemma insert_user_throws now e pw fn ph ro vi se d d' x :
  insert_user now e pw fn ph ro vi se d = (d', Throw x) ->
  d' = d \/ d' = after_nextval_users d.
Proof.
  unfold insert_user, nextval_users, after_nextval_users. unfold_M.
  repeat (case_step; unfold_M); intros H; inversion H; auto.
Qed.

Lemma insert_user_ok now e pw fn ph ro vi se d d' u :
  insert_user now e pw fn ph ro vi se d = (d', Ok u) ->
  d' = set_users (users d ++ [u]) (after_nextval_users d)
  /\ u_id u = users_id_seq d
  /\ varchar_opt 255 e = Some (Some (u_email u))
  /\ varchar_opt 20 ro = Some (Some (u_role u))
  /\ role_check (u_role u) = true
  /\ (forall u0, In u0 (users d) -> u_email u0 <> u_email u).
Proof.
  unfold insert_user, nextval_users, after_nextval_users. unfold_M.
  repeat (case_step; unfold_M); intros H; inversion H; subst; clear H.
  cbn [users] in *. cbn. do 4 (split; [reflexivity|]).
  split; [assumption|]. intros u0 Hu0 E.
  match goal with
  | X : negb (existsb (fun u => (u_email u =? _)%string) _) = true |- _ =>
      apply negb_true_iff in X; rewrite existsb_false_iff in X;
      specialize (X u0 Hu0); apply String.eqb_neq in X
  end.
  contradiction.
Qed.

Lemma role_check_length (ro : string) :
  role_check ro = true -> (String.length ro <= 20)%nat.
Proof.
  unfold role_check. rewrite orb_true_iff, !String.eqb_eq.
  intros [->| ->]; simpl; lia.
Qed.

Lemma insert_user_succeeds now e pw fn ph ro vi se d :
  (String.length e <= 255)%nat ->
  (String.length pw <= 255)%nat ->
  (String.length fn <= 255)%nat ->
  fits 20 ph = true -> role_check ro = true ->
  fits 100 vi = true -> fits 100 se = true ->
  (forall u, In u (users d) -> u_id u < users_id_seq d) ->
  (forall u, In u (users d) -> u_email u <> e) ->
  insert_user now (Some e) (Some pw) (Some fn) ph (Some ro) vi se d
  = (set_users
       (users d ++ [mkUser (users_id_seq d) e pw ro fn ph None (Some false)
                           (Some false) vi se now now])
       (after_nextval_users d),
     Ok (mkUser (users_id_seq d) e pw ro fn ph None (Some false) (Some false)
                vi se now now)).
Proof.
  intros Le Lpw Lfn Fph C Fvi Fse Hseq Huniq.
  unfold insert_user. cbn [varchar_opt].
  rewrite (varchar_fits 255 e Le), (varchar_fits 255 pw Lpw),
    (varchar_fits 255 fn Lfn), (varchar_fits 20 ro (role_check_length ro C)),
    (varchar_opt_fits 20 ph Fph), (varchar_opt_fits 100 vi Fvi),
    (varchar_opt_fits 100 se Fse).
  cbn [option_map]. unfold_M. unfold nextval_users, after_nextval_users.
  unfold_M. rewrite C. unfold_M. unfold has_user_id. cbn [users fst].
  assert (E1 : existsb (fun u => u_id u =? users_id_seq d) (users d) = false).
  { apply existsb_false_iff. intros u Hu. apply Z.eqb_neq.
    specialize (Hseq u Hu). lia. }
  assert (E2 : existsb (fun u => (u_email u =? e)%string) (users d) = false).
  { apply existsb_false_iff. intros u Hu. apply String.eqb_neq.
    now apply Huniq. }
  rewrite E1, E2. reflexivity.
Qed.

Lemma insert_profile_throws uid metier d d' x :
  insert_profile uid metier d = (d', Throw x) ->
  d' = d \/ d' = after_nextval_profiles d.
Proof.
  unfold insert_profile, nextval_profiles, after_nextval_profiles. unfold_M.
  repeat (case_step; unfold_M); intros H; inversion H; auto.
Qed.

Lemma insert_profile_ok uid metier d d' p :
  insert_profile uid metier d = (d', Ok p) ->
  d' = set_profiles (prestataire_profiles d ++ [p]) (after_nextval_profiles d)
  /\ p_user_id p = uid
  /\ varchar 255 metier = Some (p_metier p)
  /\ p_note_moyenne p = Some 0 /\ p_nombre_avis p = Some 0
  /\ (forall p0, In p0 (prestataire_profiles d) -> p_user_id p0 <> uid).
Proof.
  unfold insert_profile, nextval_profiles, after_nextval_profiles. unfold_M.
  repeat (case_step; unfold_M); intros H; inversion H; subst; clear H.
  cbn [prestataire_profiles] in *. cbn. do 5 (split; [reflexivity|]).
  intros p0 Hp0 E.
  match goal with
  | X : negb (existsb (fun p => p_user_id p =? _) _) = true |- _ =>
      apply negb_true_iff in X; rewrite existsb_false_iff in X;
      specialize (X p0 Hp0); apply Z.eqb_neq in X
  end.
  contradiction.
Qed.

Lemma insert_profile_succeeds uid metier d :
  (String.length metier <= 255)%nat ->
  (forall p, In p (prestataire_profiles d) ->
             p_id p < prestataire_profiles_id_seq d) ->
  (forall p, In p (prestataire_profiles d) -> p_user_id p <> uid) ->
  (exists u, In u (users d) /\ u_id u = uid) ->
  insert_profile uid metier d
  = (set_profiles
       (prestataire_profiles d
        ++ [mkProfile (prestataire_profiles_id_seq d) uid metier None None
                      None None None None None (Some 0) (Some 0)])
       (after_nextval_profiles d),
     Ok (mkProfile (prestataire_profiles_id_seq d) uid metier None None None
                   None None None None (Some 0) (Some 0))).
Proof.
  intros L Hseq Huniq [u [Hu Eu]].
  unfold insert_profile. rewrite (varchar_fits 255 metier L).
  unfold_M. unfold nextval_profiles, after_nextval_profiles. unfold_M.
  unfold has_profile_id, has_user_id. cbn [prestataire_profiles users fst].
  assert (E1 : existsb (fun p => p_id p =? prestataire_profiles_id_seq d)
                       (prestataire_profiles d) = false).
  { apply existsb_false_iff. intros p Hp. apply Z.eqb_neq.
    specialize (Hseq p Hp). lia. }
  assert (E2 : existsb (fun p => p_user_id p =? uid) (prestataire_profiles d)
               = false).
  { apply existsb_false_iff. intros p Hp. apply Z.eqb_neq. now apply Huniq. }
  assert (E3 : existsb (fun u => u_id u =? uid) (users d) = true).
  { apply existsb_exists. exists u. split; [exact Hu|now apply Z.eqb_eq]. }
  rewrite E1, E2, E3. reflexivity.
Qed.

Section RegisterProperties.

Variable bcrypt_hash : string -> Z -> string -> string.
Variable jwt : Type.
Variable jwt_sign : claims -> string -> Z -> Z -> jwt.
Variable JWT_SECRET : string.

Local Abbreviation register := (register bcrypt_hash jwt_sign JWT_SECRET).

Local Abbreviation created := (created jwt jwt_sign JWT_SECRET).

(** [register] statement by statement. *)
Lemma register_unfold now salt req d :
  register now salt req d =
  match users_by_email d (reg_email req) with
  | _ :: _ => (d, mkResponse 400 (error_body "Email déjà utilisé"))
  | [] =>
      match reg_password req with
      | None => (d, mkResponse 500 (error_body "Erreur serveur"))
      | Some password =>
          match insert_user now (reg_email req)
                  (Some (bcrypt_hash password 10 salt)) (reg_full_name req)
                  (reg_phone req) (reg_role req) (reg_ville req)
                  (reg_secteur req) d with
          | (d1, Throw _) => (d1, mkResponse 500 (error_body "Erreur serveur"))
          | (d1, Ok newUser) =>
              if opt_eqb String.eqb (reg_role req) (Some "prestataire") then
                match insert_profile (u_id newUser) "Général" d1 with
                | (d2, Throw _) =>
                    (d2, mkResponse 500 (error_body "Erreur serveur"))
                | (d2, Ok _) => (d2, created now req newUser)
                end
              else (d1, created now req newUser)
          end
      end
  end.
Proof.
  unfold_register; unfold_created. unfold_M.
  destruct (users_by_email d (reg_email req)) as [|u0 l]; [|reflexivity].
  destruct (reg_password req) as [password|]; unfold_M; [|reflexivity].
  destruct (insert_user _ _ _ _ _ _ _ _ d) as [d1 [newUser|e]]; [|reflexivity].
  destruct (opt_eqb String.eqb (reg_role req) (Some "prestataire")).
  - unfold_M. destruct (insert_profile _ _ d1) as [d2 [p|e]]; reflexivity.
  - reflexivity.
Qed.

End RegisterProperties.

Lemma opt_eqb_string_true (r : option string) (s : string) :
  opt_eqb String.eqb r (Some s) = true <-> r = Some s.
Proof.
  destruct r as [x|]; simpl.
  - rewrite String.eqb_eq. split; congruence.
  - split; discriminate.
Qed.

Lemma valid_registration_inv (req : register_body) :
  valid_registration req = true ->
  exists e pw fn ro,
    reg_email req = Some e /\ (String.length e <= 255)%nat
    /\ reg_password req = Some pw
    /\ reg_full_name req = Some fn /\ (String.length fn <= 255)%nat
    /\ reg_role req = Some ro /\ role_check ro = true
    /\ fits 20 (reg_phone req) = true
    /\ fits 100 (reg_ville req) = true
    /\ fits 100 (reg_secteur req) = true.
Proof.
  unfold valid_registration. rewrite !andb_true_iff.
  intros [[[[[[[[He Le] Hpw] Hfn] Lfn] Hro] Fph] Fvi] Fse].
  destruct (reg_email req) as [e|]; [|discriminate].
  destruct (reg_password req) as [pw|]; [|discriminate].
  destruct (reg_full_name req) as [fn|]; [|discriminate].
  destruct (reg_role req) as [ro|]; [|discriminate].
  exists e, pw, fn, ro. simpl in Le, Lfn.
  apply Nat.leb_le in Le. apply Nat.leb_le in Lfn. repeat split; assumption.
Qed.

Lemma accounts_step_same (d d' : db) :
  users d' = users d -> profile_owners d' = profile_owners d ->
  accounts_step d d'.
Proof.
  intros U P. split; [exists []; now rewrite app_nil_r|now left].
Qed.

Lemma accounts_step_refl (d : db) : accounts_step d d.
Proof. now apply accounts_step_same. Qed.


Section RegisterClaims.

Variable bcrypt_hash : string -> Z -> string -> string.
Variable jwt : Type.
Variable jwt_sign : claims -> string -> Z -> Z -> jwt.
Variable JWT_SECRET : string.

(** A bcrypt hash is 60 characters long; all that matters here is that it
    fits [password VARCHAR(255)]. *)
Hypothesis bcrypt_hash_length :
  forall password rounds salt,
    (String.length (bcrypt_hash password rounds salt) <= 255)%nat.

Local Abbreviation register := (register bcrypt_hash jwt_sign JWT_SECRET).
Local Abbreviation created := (created jwt jwt_sign JWT_SECRET).

Lemma register_conflict now salt req d u :
  In u (users d) -> reg_email req = Some (u_email u) ->
  register now salt req d
  = (d, mkResponse 400 (error_body "Email déjà utilisé")).
Proof.
  intros Hu E. rewrite register_unfold.
  destruct (users_by_email d (reg_email req)) as [|u0 l] eqn:F; [|reflexivity].
  exfalso. unfold users_by_email in F. rewrite filter_nil_iff in F.
  specialize (F u Hu). rewrite E in F. simpl in F.
  now rewrite String.eqb_refl in F.
Qed.

Lemma register_succeeds now salt req d :
  accounts_wf d -> valid_registration req = true ->
  (forall u, In u (users d) -> reg_email req <> Some (u_email u)) ->
  exists u d',
    register now salt req d = (d', created now req u)
    /\ u_id u = users_id_seq d
    /\ reg_email req = Some (u_email u)
    /\ users d' = (users d ++ [u])%list
    /\ users_id_seq d' = users_id_seq d + 1
    /\ accounts_wf d'.
Proof.
  intros [Wu Wp] V Hnew.
  destruct (valid_registration_inv req V)
    as [e [pw [fn [ro [Ee [Le [Epw [Efn [Lfn [Ero [C [Fph [Fvi Fse]]]]]]]]]]]]].
  rewrite register_unfold.
  rewrite (users_by_email_nil d (reg_email req) Hnew).
  rewrite Epw, Ee, Efn, Ero.
  rewrite (insert_user_succeeds now e (bcrypt_hash pw 10 salt) fn
             (reg_phone req) ro (reg_ville req) (reg_secteur req) d Le
             (bcrypt_hash_length pw 10 salt) Lfn Fph C Fvi Fse Wu).
  2:{ intros u Hu E. apply (Hnew u Hu). rewrite Ee. now f_equal. }
  set (u := mkUser (users_id_seq d) e (bcrypt_hash pw 10 salt) ro fn
                   (reg_phone req) None (Some false) (Some false)
                   (reg_ville req) (reg_secteur req) now now).
  set (d1 := set_users (users d ++ [u]) (after_nextval_users d)).
  assert (W1 : accounts_wf d1).
  { split.
    - intros x Hx. cbn in Hx. cbn. apply in_app_iff in Hx.
      destruct Hx as [Hx|[<-|[]]]; [specialize (Wu x Hx); lia|cbn; lia].
    - intros p Hp. cbn in Hp. cbn. specialize (Wp p Hp). lia. }
  exists u. cbn [opt_eqb].
  destruct (String.eqb ro "prestataire") eqn:R.
  - rewrite (insert_profile_succeeds (u_id u) "Général" d1).
    + eexists. split; [reflexivity|]. repeat split.
      * intros x Hx. cbn in Hx. cbn. apply in_app_iff in Hx.
        destruct Hx as [Hx|[<-|[]]]; [specialize (Wu x Hx); lia|cbn; lia].
      * cbn in H. cbn. apply in_app_iff in H.
        destruct H as [H|[<-|[]]]; [specialize (Wp p H); lia|cbn; lia].
      * cbn in H. cbn. apply in_app_iff in H.
        destruct H as [H|[<-|[]]]; [specialize (Wp p H); lia|cbn; lia].
    + simpl. lia.
    + intros p Hp. apply (proj2 W1 p Hp).
    + intros p Hp E. cbn in Hp. specialize (Wp p Hp). cbn in E. lia.
    + exists u. split; [|reflexivity]. cbn. apply in_app_iff. right. now left.
  - exists d1. split; [reflexivity|]. do 4 (split; [reflexivity|]). exact W1.
Qed.

(** C5 (as amended): a registration whose email a stored user already has
    is answered 400 and leaves the whole store, hence [users], unchanged;
    and two registrations that meet the constraints of [users], with
    emails distinct from each other and from those stored, are both
    answered 201, with distinct user ids. *)
Theorem register_conflict_and_distinct_ids :
  (forall now salt req d u,
      In u (users d) -> reg_email req = Some (u_email u) ->
      register now salt req d
      = (d, mkResponse 400 (error_body "Email déjà utilisé")))
  /\ (forall now1 salt1 r1 now2 salt2 r2 d,
        accounts_wf d ->
        valid_registration r1 = true -> valid_registration r2 = true ->
        reg_email r1 <> reg_email r2 ->
        (forall u, In u (users d) ->
                   reg_email r1 <> Some (u_email u)
                   /\ reg_email r2 <> Some (u_email u)) ->
        exists d1 token1 user1 d2 token2 user2,
          register now1 salt1 r1 d
          = (d1, mkResponse 201
                   (register_body_ok "Utilisateur créé avec succès"
                                     token1 user1))
          /\ register now2 salt2 r2 d1
             = (d2, mkResponse 201
                      (register_body_ok "Utilisateur créé avec succès"
                                        token2 user2))
          /\ ru_id user1 <> ru_id user2).
Proof.
  split; [exact register_conflict|].
  intros now1 salt1 r1 now2 salt2 r2 d W V1 V2 Ne Hnew.
  destruct (register_succeeds now1 salt1 r1 d W V1 (fun u Hu => proj1 (Hnew u Hu)))
    as [u1 [d1 [R1 [I1 [E1 [U1 [S1 W1]]]]]]].
  destruct (register_succeeds now2 salt2 r2 d1 W1 V2) as
    [u2 [d2 [R2 [I2 _]]]].
  { intros u Hu. rewrite U1 in Hu. apply in_app_iff in Hu.
    destruct Hu as [Hu|[<-|[]]]; [exact (proj2 (Hnew u Hu))|].
    rewrite <- E1. auto. }
  exists d1. eexists. eexists. exists d2. eexists. eexists.
  split; [exact R1|]. split; [exact R2|]. cbn. lia.
Qed.

End RegisterClaims.

Lemma sim_hash_length password rounds salt :
  (String.length (sim_hash password rounds salt) <= 255)%nat.
Proof.
  unfold sim_hash. assert (H := length_substring_0_le 60 password). lia.
Qed.

Lemma init_db_wf : accounts_wf init_db.
Proof. split; intros x []. Qed.

Lemma register_conflict_and_distinct_ids_witness :
  exists d1 token1 user1 d2 token2 user2,
    sim_register 100 "salt1" awa init_db
    = (d1, mkResponse 201
             (register_body_ok "Utilisateur créé avec succès" token1 user1))
    /\ sim_register 101 "salt2" binta d1
       = (d2, mkResponse 201
                (register_body_ok "Utilisateur créé avec succès" token2 user2))
    /\ ru_id user1 <> ru_id user2.
Proof.
  apply (proj2 (register_conflict_and_distinct_ids sim_hash sim_jwt sim_sign
                  "secret" sim_hash_length)
               100 "salt1" awa 101 "salt2" binta init_db).
  - exact init_db_wf.
  - reflexivity.
  - reflexivity.
  - discriminate.
  - intros u [].
Defined.

(** C5 (as stated) fails: the email is new and differs from the stored
    one, yet a registration with a role outside the CHECK of [users] is
    answered 500 and creates no user. *)
Lemma register_rejects_other_roles :
  status (snd (sim_register 100 "salt1" awa init_db)) = 201
  /\ snd (sim_register 101 "salt2"
            (mkRegisterBody (Some "carine@gcafo.bf") (Some "pa55")
                            (Some "Carine") None (Some "admin") None None)
            db_provider)
     = mkResponse 500 (error_body "Erreur serveur")
  /\ map u_email
         (users (fst (sim_register 101 "salt2"
                        (mkRegisterBody (Some "carine@gcafo.bf") (Some "pa55")
                                        (Some "Carine") None (Some "admin")
                                        None None)
                        db_provider)))
     = ["awa@gcafo.bf"].
Proof. repeat split; vm_compute; reflexivity. Qed.

(* ================================================================== *)
(** ** The account tables under every request *)

Section AccountProperties.

Variable bcrypt_hash : string -> Z -> string -> string.
Variable jwt : Type.
Variable jwt_sign : claims -> string -> Z -> Z -> jwt.
Variable jwt_verify : jwt -> string -> Z -> option claims.
Variable JWT_SECRET : string.

Local Abbreviation register := (register bcrypt_hash jwt_sign JWT_SECRET).
Local Abbreviation created := (created jwt jwt_sign JWT_SECRET).
Local Abbreviation serve :=
  (serve bcrypt_hash jwt_sign jwt_verify JWT_SECRET).
Local Abbreviation run := (run bcrypt_hash jwt_sign jwt_verify JWT_SECRET).

(** The four ways a registration can end, by what it did to the account
    tables. *)
Lemma register_cases now salt req d :
  let d' := fst (register now salt req d) in
  let res := snd (register now salt req d) in
  (status res <> 201 /\ users d' = users d
   /\ prestataire_profiles d' = prestataire_profiles d)
  \/ (exists u,
        status res = 500 /\ users d' = (users d ++ [u])%list
        /\ prestataire_profiles d' = prestataire_profiles d
        /\ reg_role req = Some "prestataire")
  \/ (exists u,
        res = created now req u /\ users d' = (users d ++ [u])%list
        /\ prestataire_profiles d' = prestataire_profiles d
        /\ reg_role req <> Some "prestataire")
  \/ (exists u p,
        res = created now req u /\ users d' = (users d ++ [u])%list
        /\ prestataire_profiles d' = (prestataire_profiles d ++ [p])%list
        /\ reg_role req = Some "prestataire"
        /\ p_user_id p = u_id u /\ p_metier p = "Général"
        /\ (forall p0, In p0 (prestataire_profiles d) ->
                       p_user_id p0 <> u_id u)).
Proof.
  cbn zeta. rewrite register_unfold.
  destruct (users_by_email d (reg_email req)) as [|u0 l].
  2:{ left. cbn. repeat split. discriminate. }
  destruct (reg_password req) as [pw|].
  2:{ left. cbn. repeat split. discriminate. }
  destruct (insert_user _ _ _ _ _ _ _ _ d) as [d1 [u|e]] eqn:I.
  2:{ left. apply insert_user_throws in I. cbn [fst snd status].
      split; [discriminate|]. destruct I as [->| ->]; split; reflexivity. }
  apply insert_user_ok in I. destruct I as [E1 _].
  destruct (opt_eqb String.eqb (reg_role req) (Some "prestataire")) eqn:R.
  - apply opt_eqb_string_true in R.
    destruct (insert_profile (u_id u) "Général" d1) as [d2 [p|e]] eqn:P.
    + right. right. right. exists u, p. apply insert_profile_ok in P.
      destruct P as [E2 [Eu [Em [_ [_ Huniq]]]]].
      cbn [fst snd]. split; [reflexivity|]. subst d2 d1. cbn.
      do 4 (split; [assumption || reflexivity|]).
      split; [now injection Em|exact Huniq].
    + right. left. exists u. apply insert_profile_throws in P.
      cbn [fst snd status]. split; [reflexivity|].
      destruct P as [->| ->]; subst d1; repeat split; assumption.
  - right. right. left. exists u. cbn [fst snd]. subst d1.
    repeat split. intros E. apply opt_eqb_string_true in E. congruence.
Qed.

Lemma register_accounts_step now salt req d :
  accounts_step d (fst (register now salt req d)).
Proof.
  destruct (register_cases now salt req d)
    as [[_ [U P]]|[[u [_ [U [P _]]]]|[[u [_ [U [P _]]]]|[u [p H]]]]];
    unfold accounts_step, profile_owners.
  - rewrite U, P. split; [exists []; now rewrite app_nil_r|now left].
  - rewrite U, P. split; [now exists [u]|now left].
  - rewrite U, P. split; [now exists [u]|now left].
  - destruct H as [_ [U [P [_ [Eu [_ Huniq]]]]]]. rewrite U, P.
    split; [now exists [u]|]. right. exists (u_id u).
    rewrite map_app. cbn [map]. rewrite Eu. split; [reflexivity|].
    intros Hin. apply in_map_iff in Hin. destruct Hin as [p0 [E Hp0]].
    exact (Huniq p0 Hp0 E).
Qed.

Lemma put_profile_accounts_step user req d :
  accounts_step d (fst (put_profile (jwt:=jwt) user req d)).
Proof.
  unfold put_profile. unfold_M.
  destruct (update_profile_fields_accounts (pb_metier req) (pb_description req)
              (pb_annees_experience req) (pb_tarif_horaire req)
              (pb_zone_intervention req) (pb_adresse req) (pb_portfolio req)
              (pb_disponibilites req) (userId user) d) as [U P].
  destruct (update_profile_fields _ _ _ _ _ _ _ _ _ d) as [d1 [[|p l]|e]];
    cbn [fst] in U, P; unfold_M; cbn [fst];
    apply accounts_step_same; unfold profile_owners; congruence.
Qed.

Lemma post_service_accounts_step now user req d :
  accounts_step d (fst (post_service (jwt:=jwt) now user req d)).
Proof.
  unfold post_service. unfold_M.
  destruct (hd_error _) as [row|]; unfold_M; [|apply accounts_step_refl].
  destruct (negb _); unfold_M; [apply accounts_step_refl|].
  destruct (filter _ (prestataire_profiles d)) as [|p l];
    [apply accounts_step_refl|].
  unfold_M.
  destruct (insert_service_accounts now (p_id p) (sb_nom_service req)
              (sb_description req) (sb_prix req) (sb_duree_estimee req)
              (sb_categorie req) d) as [U P].
  destruct (insert_service _ _ _ _ _ _ _ d) as [d1 [s|e]];
    cbn [fst] in U, P; unfold_M; cbn [fst];
    apply accounts_step_same; unfold profile_owners; congruence.
Qed.

Lemma post_booking_accounts_step now user req d :
  accounts_step d (fst (post_booking (jwt:=jwt) now user req d)).
Proof.
  unfold post_booking. unfold_M.
  destruct (insert_booking_accounts now (userId user) (bb_prestataire_id req)
              (bb_service_id req) (bb_date_reservation req)
              (bb_adresse_prestation req) (bb_notes req) d) as [U P].
  destruct (insert_booking _ _ _ _ _ _ _ d) as [d1 [b|e]];
    cbn [fst] in U, P; unfold_M; cbn [fst];
    apply accounts_step_same; unfold profile_owners; congruence.
Qed.

Lemma put_booking_status_accounts_step now user id statut d :
  accounts_step d (fst (put_booking_status (jwt:=jwt) now user id statut d)).
Proof.
  unfold put_booking_status. unfold_M.
  destruct (update_booking_statut_accounts now statut id d) as [U P].
  destruct (update_booking_statut _ _ _ d) as [d1 [[|b l]|e]];
    cbn [fst] in U, P; unfold_M; cbn [fst];
    apply accounts_step_same; unfold profile_owners; congruence.
Qed.

Lemma post_review_accounts_step now user req d :
  accounts_step d (fst (post_review (jwt:=jwt) now user req d)).
Proof.
  rewrite post_review_unfold.
  destruct (finished_bookings _ _ _) as [|b l]; [apply accounts_step_refl|].
  destruct (reviews_by_booking _ _) as [|r0 l0]; [|apply accounts_step_refl].
  destruct (insert_review_accounts now (rb_booking_id req) (rb_note req)
              (rb_commentaire req) d) as [U P].
  destruct (insert_review _ _ _ _ d) as [d1 [r|e]]; cbn [fst] in U, P.
  - destruct (update_note_moyenne_accounts (b_prestataire_id b) d1) as [U2 P2].
    destruct (update_note_moyenne _ d1) as [d2 [x|e]]; cbn [fst] in *;
      (apply accounts_step_same;
       [now rewrite U2|unfold profile_owners; now rewrite P2, P]).
  - cbn [fst]. apply accounts_step_same;
      [exact U|unfold profile_owners; now rewrite P].
Qed.

Lemma post_message_accounts_step now user req d :
  accounts_step d (fst (post_message (jwt:=jwt) now user req d)).
Proof.
  unfold post_message. unfold_M.
  destruct (insert_message_accounts now (mb_booking_id req) (userId user)
              (mb_message req) d) as [U P].
  destruct (insert_message _ _ _ _ d) as [d1 [m|e]];
    cbn [fst] in U, P; unfold_M; cbn [fst];
    apply accounts_step_same; unfold profile_owners; congruence.
Qed.

Lemma authenticateToken_accounts_step now authorization next d :
  (forall user, accounts_step d (fst (next user d))) ->
  accounts_step d
    (fst (authenticateToken jwt_verify JWT_SECRET now authorization next d)).
Proof.
  intros H. unfold authenticateToken.
  destruct authorization as [token|]; [|apply accounts_step_refl].
  destruct (jwt_verify token JWT_SECRET now) as [user|];
    [apply H|apply accounts_step_refl].
Qed.

Lemma serve_accounts_step now rq d : accounts_step d (fst (serve now rq d)).
Proof.
  destruct rq; simpl_serve;
    try (apply authenticateToken_accounts_step; intros user).
  - apply register_accounts_step.
  - apply put_profile_accounts_step.
  - apply post_service_accounts_step.
  - apply post_booking_accounts_step.
  - apply put_booking_status_accounts_step.
  - apply post_review_accounts_step.
  - apply post_message_accounts_step.
Qed.

(** [users] only ever grows at its end. *)
Lemma run_users trace d : exists l, users (run trace d) = (users d ++ l)%list.
Proof.
  revert d. induction trace as [|[now rq] trace IH]; intros d.
  - exists []. cbn. now rewrite app_nil_r.
  - simpl_run.
    destruct (serve_accounts_step now rq d) as [[l1 E1] _].
    destruct (IH (fst (serve now rq d))) as [l2 E2].
    exists (l1 ++ l2)%list. now rewrite E2, E1, app_assoc.
Qed.


End AccountProperties.


(* ================================================================== *)
(** ** Register, then login *)

Lemma insert_user_password now e pw fn ph ro vi se d d' u :
  insert_user now e pw fn ph ro vi se d = (d', Ok u) ->
  varchar_opt 255 pw = Some (Some (u_password u)).
Proof.
  unfold insert_user, nextval_users. unfold_M.
  repeat (case_step; unfold_M); intros H; inversion H; subst; reflexivity.
Qed.

Lemma role_check_short (ro : string) :
  role_check ro = true -> (String.length ro <= 11)%nat.
Proof.
  unfold role_check. rewrite orb_true_iff, !String.eqb_eq.
  intros [->| ->]; simpl; lia.
Qed.

Lemma varchar_opt_some_fits (n : nat) (v : option string) (s : string) :
  varchar_opt n v = Some (Some s) -> (String.length s < n)%nat -> v = Some s.
Proof.
  destruct v as [x|]; simpl; [|discriminate].
  destruct (varchar n x) as [s'|] eqn:V; simpl; [|discriminate].
  intros E L. injection E as ->.
  destruct (varchar_length n x s V) as [->|L']; [reflexivity|lia].
Qed.

Lemma users_by_email_first (d : db) (l0 l : list user) (u : user) :
  users d = ((l0 ++ [u]) ++ l)%list ->
  (forall u0, In u0 l0 -> u_email u0 <> u_email u) ->
  exists l', users_by_email d (Some (u_email u)) = u :: l'.
Proof.
  intros E H. unfold users_by_email. rewrite E, !filter_app.
  replace (filter _ l0) with (@nil user).
  - cbn. rewrite String.eqb_refl. eexists. reflexivity.
  - symmetry. apply filter_nil_iff. intros u0 Hu0. cbn.
    apply String.eqb_neq. now apply H.
Qed.

Section RoundTrip.

Variable bcrypt_hash : string -> Z -> string -> string.
Variable bcrypt_compare : string -> string -> bool.
Variable jwt : Type.
Variable jwt_sign : claims -> string -> Z -> Z -> jwt.
Variable jwt_verify : jwt -> string -> Z -> option claims.
Variable JWT_SECRET : string.

(** [bcrypt.compare] accepts the password a hash was made from. *)
Hypothesis bcrypt_compare_hash :
  forall password rounds salt,
    bcrypt_compare password (bcrypt_hash password rounds salt) = true.

(** A bcrypt hash fits [password VARCHAR(255)]. *)
Hypothesis bcrypt_hash_length :
  forall password rounds salt,
    (String.length (bcrypt_hash password rounds salt) <= 255)%nat.

(** [jwt.verify] with the signing secret gives the payload back until the
    token expires. *)
Hypothesis jwt_verify_sign :
  forall payload secret ttl iat t,
    t < iat + ttl ->
    jwt_verify (jwt_sign payload secret ttl iat) secret t = Some payload.

Local Abbreviation register := (register bcrypt_hash jwt_sign JWT_SECRET).
Local Abbreviation login := (login bcrypt_compare jwt_sign JWT_SECRET).
Local Abbreviation run := (run bcrypt_hash jwt_sign jwt_verify JWT_SECRET).

(** C7: after a registration answered 201, and after any further requests,
    a login with the recorded email and the registration's password is
    answered 200 with a token that [jwt.verify] decodes, with the signing
    secret and at any time before the token's 24-hour expiry, to the
    claims [{userId, email, role}] of the id, email and role recorded at
    registration.  The recorded role is the one of the request, and so is
    the recorded email when it fits the column. *)
Theorem login_token_round_trip now salt req d d1 token user password
    trace now' t :
  register now salt req d
  = (d1, mkResponse 201
           (register_body_ok "Utilisateur créé avec succès" token user)) ->
  reg_password req = Some password ->
  t < now' + expiresIn ->
  (exists token' user',
     login now' (mkLoginBody (Some (ru_email user)) (Some password))
           (run trace d1)
     = (run trace d1,
        mkResponse 200 (login_body_ok "Connexion réussie" token' user'))
     /\ jwt_verify token' JWT_SECRET t
        = Some (mkClaims (ru_id user) (Some (ru_email user))
                         (Some (ru_role user)))
     /\ lu_id user' = ru_id user)
  /\ reg_role req = Some (ru_role user)
  /\ (fits 255 (reg_email req) = true -> reg_email req = Some (ru_email user)).
Proof.
  intros R Hpw Ht. rewrite register_unfold in R.
  destruct (users_by_email d (reg_email req)) as [|u0 l0]; [|discriminate].
  rewrite Hpw in R.
  destruct (insert_user _ _ _ _ _ _ _ _ d) as [d0 [u|e]] eqn:I;
    [|discriminate].
  assert (Ipw := insert_user_password _ _ _ _ _ _ _ _ _ _ _ I).
  apply insert_user_ok in I.
  destruct I as [Ed0 [_ [Ve [Vr [C Huniq]]]]].
  assert (Res : mkResponse 201
                  (register_body_ok "Utilisateur créé avec succès" token user)
                = created jwt jwt_sign JWT_SECRET now req u
                /\ users d1 = (users d ++ [u])%list).
  { destruct (opt_eqb String.eqb (reg_role req) (Some "prestataire")).
    - destruct (insert_profile (u_id u) "Général" d0) as [d2 [p|e]] eqn:P;
        [|discriminate].
      injection R as <- <- <-. split; [reflexivity|].
      apply insert_profile_ok in P. destruct P as [-> _]. now subst d0.
    - injection R as <- <- <-. split; [reflexivity|]. now subst d0. }
  destruct Res as [Res U1]. unfold created in Res.
  injection Res as -> ->. cbn [ru_id ru_email ru_role].
  assert (Epw : u_password u = bcrypt_hash password 10 salt).
  { cbn [varchar_opt] in Ipw.
    rewrite (varchar_fits 255 _ (bcrypt_hash_length password 10 salt)) in Ipw.
    cbn in Ipw. congruence. }
  split; [|split].
  - destruct (run_users bcrypt_hash jwt jwt_sign jwt_verify JWT_SECRET trace d1)
      as [l El]. rewrite U1 in El.
    destruct (users_by_email_first (run trace d1) (users d) l u El Huniq)
      as [l' F].
    unfold_login. unfold_M. cbn [login_email login_password].
    rewrite F. unfold_M. rewrite Epw, bcrypt_compare_hash. cbn [negb].
    eexists. eexists. split; [reflexivity|]. split; [|reflexivity].
    now apply jwt_verify_sign.
  - apply varchar_opt_some_fits with (n := 20%nat); [exact Vr|].
    apply role_check_short in C. lia.
  - intros F. rewrite (varchar_opt_fits 255 (reg_email req) F) in Ve.
    congruence.
Qed.

End RoundTrip.

Lemma sim_compare_hash password rounds salt :
  sim_compare password (sim_hash password rounds salt) = true.
Proof. unfold sim_compare, sim_hash. apply String.eqb_refl. Qed.

Lemma sim_verify_sign payload secret ttl iat t :
  t < iat + ttl ->
  sim_verify (sim_sign payload secret ttl iat) secret t = Some payload.
Proof.
  intros H. unfold sim_verify, sim_sign. cbn.
  rewrite String.eqb_refl. apply Z.ltb_lt in H. now rewrite H.
Qed.

(** The provider of [db_provider] logs in once the whole example has run,
    and the token is checked one hour later. *)
Lemma login_token_round_trip_witness :
  (exists token' user',
     sim_login 5000 (mkLoginBody (Some "awa@gcafo.bf") (Some "s3cret"))
               db_accounts
     = (db_accounts,
        mkResponse 200 (login_body_ok "Connexion réussie" token' user'))
     /\ sim_verify token' "secret" 8600
        = Some (mkClaims 1 (Some "awa@gcafo.bf") (Some "prestataire"))
     /\ lu_id user' = 1)
  /\ reg_role awa = Some "prestataire"
  /\ (fits 255 (reg_email awa) = true -> reg_email awa = Some "awa@gcafo.bf").
Proof.
  exact (login_token_round_trip sim_hash sim_compare sim_jwt sim_sign
           sim_verify "secret" sim_compare_hash sim_hash_length
           sim_verify_sign 100 "salt1" awa init_db db_provider
           (sim_sign (mkClaims 1 (Some "awa@gcafo.bf") (Some "prestataire"))
                     "secret" 86400 100)
           (mkRegisteredUser 1 "awa@gcafo.bf" "Awa" "prestataire"
                             (Some "Ouaga") None)
           "s3cret"
           [(101, POST_auth_register sim_jwt "salt2" binta)] 5000 8600
           eq_refl eq_refl eq_refl).
Defined.

(* ================================================================== *)
(** ** The provider list *)

(** *** [ILIKE '%v%'] on a value without metacharacters *)

Lemma like_tokens_plain_char (c : ascii) (p : string) :
  Ascii.eqb c "%" = false -> Ascii.eqb c "_" = false ->
  Ascii.eqb c "\" = false ->
  like_tokens (String c p) = option_map (cons (literal c)) (like_tokens p).
Proof.
  destruct c as [[] [] [] [] [] [] [] []]; cbn; intros; try discriminate;
    reflexivity.
Qed.

Lemma like_tokens_plain (v : string) :
  plain v = true ->
  like_tokens (v ++ "%") = Some (literals v ++ [any_string])%list.
Proof.
  induction v as [|c v IH]; intros P.
  - reflexivity.
  - cbn [plain] in P. apply andb_true_iff in P. destruct P as [Pc Pv].
    apply negb_true_iff in Pc. rewrite !orb_false_iff in Pc.
    destruct Pc as [[P1 P2] P3].
    cbn [append]. rewrite (like_tokens_plain_char c (v ++ "%") P1 P2 P3).
    rewrite (IH Pv). reflexivity.
Qed.

Lemma like_tokens_percent_wrap (v : string) :
  plain v = true ->
  like_tokens (percent_wrap v)
  = Some (any_string :: literals v ++ [any_string])%list.
Proof.
  intros P. unfold percent_wrap. cbn [append like_tokens].
  now rewrite (like_tokens_plain v P).
Qed.

Lemma ilike_match_any_string (p : list like_token) (s : string) :
  ilike_match (any_string :: p) s
  = ilike_match p s
    || match s with
       | EmptyString => false
       | String _ s' => ilike_match (any_string :: p) s'
       end.
Proof. destruct s; reflexivity. Qed.

Lemma ilike_match_tail_any (s : string) : ilike_match [any_string] s = true.
Proof.
  induction s as [|c s IH]; rewrite ilike_match_any_string.
  - reflexivity.
  - rewrite IH. apply orb_true_r.
Qed.

Lemma ilike_match_literals (v s : string) :
  ilike_match (literals v ++ [any_string]) s = iprefix v s.
Proof.
  revert s. induction v as [|c v IH]; intros s.
  - apply ilike_match_tail_any.
  - cbn [literals app ilike_match iprefix]. destruct s as [|c' s];
      [reflexivity|]. now rewrite IH.
Qed.

Lemma ilike_match_contains (v s : string) :
  ilike_match (any_string :: literals v ++ [any_string]) s = icontains v s.
Proof.
  induction s as [|c s IH]; rewrite ilike_match_any_string, ilike_match_literals.
  - reflexivity.
  - cbn [icontains]. now rewrite IH.
Qed.

(** *** [icontains] decides [contains_ci] *)

Lemma iprefix_spec (v s : string) :
  iprefix v s = true <->
  exists b c, s = b ++ c /\ lower_string b = lower_string v.
Proof.
  revert s. induction v as [|x v IH]; intros s.
  - split; [|reflexivity]. intros _. exists "", s. split; reflexivity.
  - destruct s as [|y s]; cbn [iprefix].
    + split; [discriminate|]. intros [b [c [E L]]].
      destruct b; [discriminate L|discriminate E].
    + rewrite andb_true_iff, Ascii.eqb_eq, IH. split.
      * intros [Exy [b [c [-> L]]]]. exists (String y b), c.
        split; [reflexivity|]. cbn. now rewrite L, Exy.
      * intros [b [c [E L]]]. destruct b as [|y' b]; [discriminate L|].
        cbn in E, L. injection E as <- ->. injection L as L1 L2.
        split; [now symmetry|]. now exists b, c.
Qed.

Lemma icontains_spec (v s : string) :
  icontains v s = true <-> contains_ci v s.
Proof.
  unfold contains_ci. induction s as [|y s IH]; cbn [icontains].
  - rewrite orb_false_r, iprefix_spec. split.
    + intros [b [c [E L]]]. now exists "", b, c.
    + intros [a [b [c [E L]]]]. destruct a; [|discriminate E].
      now exists b, c.
  - rewrite orb_true_iff, iprefix_spec, IH. split.
    + intros [[b [c [E L]]]|[a [b [c [E L]]]]].
      * now exists "", b, c.
      * exists (String y a), b, c. split; [|exact L]. cbn. now rewrite E.
    + intros [a [b [c [E L]]]]. destruct a as [|y' a].
      * left. now exists b, c.
      * right. cbn in E. injection E as <- ->. now exists a, b, c.
Qed.

(** *** [ORDER BY ... DESC] *)

Lemma desc_le_total (x y : option Z) :
  desc_le x y = false -> desc_le y x = true.
Proof.
  destruct x as [a|], y as [b|]; cbn; try discriminate; try reflexivity.
  intros H. apply Z.leb_gt in H. apply Z.leb_le. lia.
Qed.

Lemma desc_le_trans (x y z : option Z) :
  desc_le x y = true -> desc_le y z = true -> desc_le x z = true.
Proof.
  destruct x as [a|], y as [b|], z as [c|]; cbn; try discriminate;
    try reflexivity.
  rewrite !Z.leb_le. lia.
Qed.

Section OrderBy.

Variable A : Type.
Variable key : A -> option Z.

Local Abbreviation key_desc := (key_desc key).

Lemma insert_desc_perm (x : A) (l : list A) :
  Permutation (insert_desc key x l) (x :: l).
Proof.
  induction l as [|y l IH]; cbn [insert_desc].
  - apply Permutation_refl.
  - destruct (desc_le (key x) (key y)).
    + apply Permutation_refl.
    + apply perm_trans with (y :: x :: l);
        [now apply perm_skip|apply perm_swap].
Qed.

Lemma order_by_desc_perm (l : list A) : Permutation (order_by_desc key l) l.
Proof.
  induction l as [|x l IH]; cbn.
  - apply perm_nil.
  - apply perm_trans with (x :: order_by_desc key l).
    + apply insert_desc_perm.
    + now apply perm_skip.
Qed.

Lemma insert_desc_sorted (x : A) (l : list A) :
  StronglySorted key_desc l -> StronglySorted key_desc (insert_desc key x l).
Proof.
  induction l as [|y l IH]; intros S; cbn [insert_desc].
  - repeat constructor.
  - destruct (desc_le (key x) (key y)) eqn:C.
    + constructor; [exact S|]. constructor; [exact C|].
      inversion S as [|? ? _ Hall]; subst.
      apply Forall_forall. intros z Hz. rewrite Forall_forall in Hall.
      exact (desc_le_trans _ _ _ C (Hall z Hz)).
    + inversion S as [|? ? S' Hall]; subst.
      constructor; [now apply IH|].
      apply Forall_forall. intros z Hz.
      apply (Permutation_in _ (insert_desc_perm x l)) in Hz.
      destruct Hz as [<-|Hz].
      * now apply desc_le_total.
      * rewrite Forall_forall in Hall. now apply Hall.
Qed.

Lemma order_by_desc_sorted (l : list A) :
  StronglySorted key_desc (order_by_desc key l).
Proof.
  induction l as [|x l IH]; cbn.
  - constructor.
  - now apply insert_desc_sorted.
Qed.

End OrderBy.

Lemma ilike_filter_ok param d d' f :
  ilike_filter param d = (d', Ok f) -> d' = d /\ f = pattern_of param.
Proof.
  unfold ilike_filter, pattern_of.
  destruct (truthy param) as [v|]; unfold_M.
  - destruct (like_tokens (percent_wrap v)) as [p|]; unfold_M;
      intros H; inversion H; split; reflexivity.
  - intros H; inversion H; split; reflexivity.
Qed.

Lemma ilike_filter_throws param d d' e :
  ilike_filter param d = (d', Throw e) -> d' = d.
Proof.
  unfold ilike_filter.
  destruct (truthy param) as [v|]; unfold_M.
  - destruct (like_tokens (percent_wrap v)) as [p|]; unfold_M;
      intros H; inversion H; reflexivity.
  - discriminate.
Qed.

Lemma users_join_profiles_In d u p :
  In (u, p) (users_join_profiles d) ->
  In u (users d) /\ In p (prestataire_profiles d) /\ p_user_id p = u_id u.
Proof.
  unfold users_join_profiles. intros H. apply in_flat_map in H.
  destruct H as [u' [Hu' H]]. apply in_map_iff in H.
  destruct H as [p' [E Hp']]. injection E as -> ->.
  apply filter_In in Hp'. destruct Hp' as [Hp' J]. apply Z.eqb_eq in J.
  repeat split; auto.
Qed.

Section ListClaims.

Variable jwt : Type.

(** C9 (as amended): a provider list answered 200 leaves the store alone
    and echoes [page] and [limit] (defaults 1 and 10); its rows are the
    window of at most [limit] rows that starts at offset
    [(page - 1) * limit] in the rows selected by the query, put in
    descending order of [note_moyenne] (NULLs first).  The selected rows
    are the user-profile pairs with role ['prestataire'] whose city matches
    [%ville%] and whose trade matches [%metier%] under ILIKE.  For a
    [ville] without the LIKE metacharacters [%], [_] and [\] that is:
    the city contains [ville] as a case-insensitive substring. *)
Theorem get_prestataires_page q d d' items page limit :
  get_prestataires (jwt:=jwt) q d
  = (d', mkResponse 200 (prestataires_body items page limit)) ->
  d' = d
  /\ page = default 1 (q_page q) /\ limit = default 10 (q_limit q)
  /\ 0 <= limit /\ 0 <= (page - 1) * limit
  /\ exists sorted,
       Permutation sorted
         (filter (prestataires_where (pattern_of (q_ville q))
                                     (pattern_of (q_metier q)))
                 (users_join_profiles d))
       /\ StronglySorted by_note_desc sorted
       /\ items = map item_of
                    (firstn (Z.to_nat limit)
                            (skipn (Z.to_nat ((page - 1) * limit)) sorted))
       /\ Z.of_nat (List.length items) <= limit
       /\ forall u p, In (u, p) sorted ->
            In u (users d) /\ In p (prestataire_profiles d)
            /\ p_user_id p = u_id u
            /\ u_role u = "prestataire"
            /\ forall v, truthy (q_ville q) = Some v -> plain v = true ->
                 exists city, u_ville u = Some city /\ contains_ci v city.
Proof.
  unfold get_prestataires. unfold_M.
  destruct (ilike_filter (q_ville q) d) as [d1 [fv|e]] eqn:Fv; [|discriminate].
  apply ilike_filter_ok in Fv. destruct Fv as [-> ->].
  destruct (ilike_filter (q_metier q) d) as [d2 [fm|e]] eqn:Fm; [|discriminate].
  apply ilike_filter_ok in Fm. destruct Fm as [-> ->].
  unfold limit_offset. unfold_M.
  destruct (0 <=? default 10 (q_limit q)) eqn:L; unfold_M; [|discriminate].
  destruct (0 <=? (default 1 (q_page q) - 1) * default 10 (q_limit q)) eqn:O;
    unfold_M; [|discriminate].
  intros H. injection H as <- <- <- <-.
  apply Z.leb_le in L. apply Z.leb_le in O.
  do 5 (split; [assumption || reflexivity|]).
  set (rows := filter _ (users_join_profiles d)).
  exists (order_by_desc (fun up => p_note_moyenne (snd up)) rows).
  split; [apply order_by_desc_perm|].
  split; [apply (order_by_desc_sorted _ (fun up => p_note_moyenne (snd up)))|].
  split; [reflexivity|]. split.
  - rewrite length_map.
    assert (B := firstn_le_length (Z.to_nat (default 10 (q_limit q)))
                   (skipn (Z.to_nat ((default 1 (q_page q) - 1)
                                     * default 10 (q_limit q)))
                          (order_by_desc (fun up => p_note_moyenne (snd up))
                                         rows))).
    lia.
  - intros u p Hin.
    apply (Permutation_in _ (order_by_desc_perm _ _ rows)) in Hin.
    unfold rows in Hin. apply filter_In in Hin. destruct Hin as [Hj W].
    apply users_join_profiles_In in Hj. destruct Hj as [Hu [Hp J]].
    unfold prestataires_where in W. cbn [fst snd] in W.
    apply andb_true_iff in W. destruct W as [W _].
    apply andb_true_iff in W. destruct W as [R V].
    apply String.eqb_eq in R. do 4 (split; [assumption|]).
    intros v Tv Pv. unfold pattern_of in V. rewrite Tv in V.
    rewrite (like_tokens_percent_wrap v Pv) in V.
    destruct (u_ville u) as [city|]; cbn [passes ilike] in V; [|discriminate].
    exists city. split; [reflexivity|].
    rewrite ilike_match_contains in V. now apply icontains_spec.
Qed.

End ListClaims.

(** C9 (as stated) fails on a filter that holds a LIKE metacharacter:
    [ville = "_"] lists the provider of Ouaga, whose city does not
    contain ["_"]. *)
Lemma get_prestataires_wildcard_city :
  exists item,
    snd (get_prestataires (jwt:=sim_jwt)
           (mkPrestatairesQuery (Some "_") None None None) db_reviewed)
    = mkResponse 200 (prestataires_body [item] 1 10)
    /\ it_ville item = Some "Ouaga"
    /\ icontains "_" "Ouaga" = false.
Proof.
  eexists. split; [vm_compute; reflexivity|]. split; reflexivity.
Qed.

Lemma get_prestataires_page_witness :
  db_reviewed = db_reviewed
  /\ 1 = default 1 None /\ 10 = default 10 None
  /\ 0 <= 10 /\ 0 <= (1 - 1) * 10
  /\ exists sorted,
       Permutation sorted
         (filter (prestataires_where (pattern_of (Some "oua"))
                                     (pattern_of None))
                 (users_join_profiles db_reviewed))
       /\ StronglySorted by_note_desc sorted
       /\ [mkItem 1 "Awa" None (Some false) (Some false) "Général" None
                  (Some 400) (Some 1) None None None (Some "Ouaga") None]
          = map item_of
              (firstn (Z.to_nat 10) (skipn (Z.to_nat ((1 - 1) * 10)) sorted))
       /\ Z.of_nat 1 <= 10
       /\ forall u p, In (u, p) sorted ->
            In u (users db_reviewed)
            /\ In p (prestataire_profiles db_reviewed)
            /\ p_user_id p = u_id u
            /\ u_role u = "prestataire"
            /\ forall v, truthy (Some "oua") = Some v -> plain v = true ->
                 exists city, u_ville u = Some city /\ contains_ci v city.
Proof.
  exact (get_prestataires_page sim_jwt
           (mkPrestatairesQuery (Some "oua") None None None) db_reviewed
           db_reviewed
           [mkItem 1 "Awa" None (Some false) (Some false) "Général" None
                   (Some 400) (Some 1) None None None (Some "Ouaga") None]
           1 10 eq_refl).
Defined.

(* ================================================================== *)
(** ** Invariants of the store *)

Section ServeInvariant.

Variable bcrypt_hash : string -> Z -> string -> string.
Variable jwt : Type.
Variable jwt_sign : claims -> string -> Z -> Z -> jwt.
Variable jwt_verify : jwt -> string -> Z -> option claims.
Variable JWT_SECRET : string.

Variable P : db -> Prop.
Hypothesis HP : statement_invariant P.

Local Abbreviation register := (register bcrypt_hash jwt_sign JWT_SECRET).
Local Abbreviation serve :=
  (serve bcrypt_hash jwt_sign jwt_verify JWT_SECRET).
Local Abbreviation run := (run bcrypt_hash jwt_sign jwt_verify JWT_SECRET).

Lemma register_invariant now salt req d :
  P d -> P (fst (register now salt req d)).
Proof.
  intros Hd. rewrite register_unfold.
  destruct (users_by_email d (reg_email req)) as [|u0 l]; [|exact Hd].
  destruct (reg_password req) as [pw|]; [|exact Hd].
  assert (H1 := inv_insert_user P HP now (reg_email req)
                  (Some (bcrypt_hash pw 10 salt)) (reg_full_name req)
                  (reg_phone req) (reg_role req) (reg_ville req)
                  (reg_secteur req) d Hd).
  destruct (insert_user _ _ _ _ _ _ _ _ d) as [d1 [u|e]]; cbn [fst] in H1;
    [|exact H1].
  destruct (opt_eqb String.eqb (reg_role req) (Some "prestataire"));
    [|exact H1].
  assert (H2 := inv_insert_profile P HP (u_id u) "Général" d1 H1).
  destruct (insert_profile _ _ d1) as [d2 [p|e]]; exact H2.
Qed.

Lemma put_profile_invariant user req d :
  P d -> P (fst (put_profile (jwt:=jwt) user req d)).
Proof.
  intros Hd. unfold put_profile. unfold_M.
  assert (H1 := inv_update_profile_fields P HP (pb_metier req)
                  (pb_description req) (pb_annees_experience req)
                  (pb_tarif_horaire req) (pb_zone_intervention req)
                  (pb_adresse req) (pb_portfolio req) (pb_disponibilites req)
                  (userId user) d Hd).
  destruct (update_profile_fields _ _ _ _ _ _ _ _ _ d) as [d1 [[|p l]|e]];
    exact H1.
Qed.

Lemma post_service_invariant now user req d :
  P d -> P (fst (post_service (jwt:=jwt) now user req d)).
Proof.
  intros Hd. unfold post_service. unfold_M.
  destruct (hd_error _) as [row|]; unfold_M; [|exact Hd].
  destruct (negb _); unfold_M; [exact Hd|].
  destruct (filter _ (prestataire_profiles d)) as [|p l]; [exact Hd|].
  unfold_M.
  assert (H1 := inv_insert_service P HP now (p_id p) (sb_nom_service req)
                  (sb_description req) (sb_prix req) (sb_duree_estimee req)
                  (sb_categorie req) d Hd).
  destruct (insert_service _ _ _ _ _ _ _ d) as [d1 [s|e]]; exact H1.
Qed.

Lemma post_booking_invariant now user req d :
  P d -> P (fst (post_booking (jwt:=jwt) now user req d)).
Proof.
  intros Hd. unfold post_booking. unfold_M.
  assert (H1 := inv_insert_booking P HP now (userId user)
                  (bb_prestataire_id req) (bb_service_id req)
                  (bb_date_reservation req) (bb_adresse_prestation req)
                  (bb_notes req) d Hd).
  destruct (insert_booking _ _ _ _ _ _ _ d) as [d1 [b|e]]; exact H1.
Qed.

Lemma put_booking_status_invariant now user id statut d :
  P d -> P (fst (put_booking_status (jwt:=jwt) now user id statut d)).
Proof.
  intros Hd. unfold put_booking_status. unfold_M.
  assert (H1 := inv_update_booking_statut P HP now statut id d Hd).
  destruct (update_booking_statut _ _ _ d) as [d1 [[|b l]|e]]; exact H1.
Qed.

Lemma post_review_invariant now user req d :
  P d -> P (fst (post_review (jwt:=jwt) now user req d)).
Proof.
  intros Hd. rewrite post_review_unfold.
  destruct (finished_bookings _ _ _) as [|b l]; [exact Hd|].
  destruct (reviews_by_booking _ _) as [|r0 l0]; [|exact Hd].
  assert (H1 := inv_insert_review P HP now (rb_booking_id req) (rb_note req)
                  (rb_commentaire req) d Hd).
  destruct (insert_review _ _ _ _ d) as [d1 [r|e]]; cbn [fst] in H1;
    [|exact H1].
  assert (H2 := inv_update_note_moyenne P HP (b_prestataire_id b) d1 H1).
  destruct (update_note_moyenne _ d1) as [d2 [x|e]]; exact H2.
Qed.

Lemma post_message_invariant now user req d :
  P d -> P (fst (post_message (jwt:=jwt) now user req d)).
Proof.
  intros Hd. unfold post_message. unfold_M.
  assert (H1 := inv_insert_message P HP now (mb_booking_id req) (userId user)
                  (mb_message req) d Hd).
  destruct (insert_message _ _ _ _ d) as [d1 [m|e]]; exact H1.
Qed.

Lemma serve_invariant now rq d : P d -> P (fst (serve now rq d)).
Proof.
  intros Hd. destruct rq; simpl_serve;
    try (unfold authenticateToken;
         match goal with
         | |- context [match ?a with Some _ => _ | None => _ end] =>
             destruct a as [token|]; [|exact Hd]
         end;
         destruct (jwt_verify token JWT_SECRET now) as [user|]; [|exact Hd]).
  - now apply register_invariant.
  - now apply put_profile_invariant.
  - now apply post_service_invariant.
  - now apply post_booking_invariant.
  - now apply put_booking_status_invariant.
  - now apply post_review_invariant.
  - now apply post_message_invariant.
Qed.

Lemma run_invariant trace d : P d -> P (run trace d).
Proof.
  revert d. induction trace as [|[now rq] trace IH]; intros d Hd.
  - exact Hd.
  - simpl_run. apply IH. now apply serve_invariant.
Qed.

End ServeInvariant.

Lemma NoDup_snoc {A} (l : list A) (x : A) :
  NoDup l -> ~ In x l -> NoDup (l ++ [x]).
Proof.
  intros ND N. apply NoDup_app; [exact ND|repeat constructor; intros []|].
  intros y Hy [<-|[]]. contradiction.
Qed.

Lemma In_snoc {A} (l : list A) (x y : A) :
  In y (l ++ [x]) -> In y l \/ y = x.
Proof.
  intros H. apply in_app_iff in H. destruct H as [H|[<-|[]]]; auto.
Qed.

Lemma has_user_id_lt (d : db) (id : Z) :
  (forall u, In u (users d) -> u_id u < users_id_seq d) ->
  has_user_id d id = true -> id < users_id_seq d.
Proof.
  intros W H. unfold has_user_id in H. apply existsb_exists in H.
  destruct H as [u [Hu E]]. apply Z.eqb_eq in E. subst id. now apply W.
Qed.

Ltac wf_cases :=
  unfold_M; repeat (case_step; unfold_M); cbn [fst]; try assumption.

Ltac wf_split :=
  match goal with
  | Hd : store_wf _ |- store_wf _ =>
      destruct Hd as [[Wu Wp] [[Wr Wn] Wb]];
      unfold store_wf, accounts_wf, reviews_wf; cbn;
      repeat match goal with |- _ /\ _ => split end
  end.

Ltac wf_In :=
  intros;
  repeat match goal with
         | H : In _ (_ ++ [_]) |- _ => apply In_snoc in H; destruct H as [H| ->]
         end;
  cbn;
  first
    [ assumption
    | lia
    | match goal with
      | W : forall x, In x ?l -> _, H : In ?y ?l |- _ =>
          let F := fresh in
          assert (F := W y H); cbn in F; solve [lia | exact F | intuition lia]
      end
    | idtac ].

Lemma store_wf_insert_user now e pw fn ph ro vi se d :
  store_wf d -> store_wf (fst (insert_user now e pw fn ph ro vi se d)).
Proof.
  intros Hd. unfold insert_user, nextval_users. wf_cases; wf_split; wf_In.
Qed.

Lemma store_wf_insert_profile uid metier d :
  store_wf d -> store_wf (fst (insert_profile uid metier d)).
Proof.
  intros Hd. unfold insert_profile, nextval_profiles. wf_cases; wf_split; wf_In.
  split; [lia|].
  match goal with
  | H : has_user_id _ uid = true |- _ =>
      unfold has_user_id in H; cbn in H; apply existsb_exists in H;
      destruct H as [u [Hu E]]; apply Z.eqb_eq in E; subst uid
  end.
  now apply Wu.
Qed.

Lemma store_wf_insert_service now pid nom descr prix duree cat d :
  store_wf d ->
  store_wf (fst (insert_service now pid nom descr prix duree cat d)).
Proof.
  intros Hd. unfold insert_service, nextval_services. wf_cases; wf_split; wf_In.
Qed.

Lemma store_wf_insert_booking now client pid sid date adr notes d :
  store_wf d ->
  store_wf (fst (insert_booking now client pid sid date adr notes d)).
Proof.
  intros Hd. unfold insert_booking, nextval_bookings. wf_cases; wf_split; wf_In.
  rewrite map_app. cbn [map b_id]. apply NoDup_snoc; [exact Wb|].
  intros Hin. apply in_map_iff in Hin. destruct Hin as [b [E Hb]].
  match goal with
  | H : negb (has_booking_id _ _) = true |- _ =>
      apply negb_true_iff in H; unfold has_booking_id in H; cbn in H;
      rewrite existsb_false_iff in H; specialize (H b Hb);
      apply Z.eqb_neq in H
  end.
  contradiction.
Qed.

Lemma store_wf_insert_review now bid note text d :
  store_wf d -> store_wf (fst (insert_review now bid note text d)).
Proof.
  intros Hd. unfold insert_review, nextval_reviews. wf_cases; wf_split; wf_In.
Qed.

Lemma store_wf_insert_message now bid sender text d :
  store_wf d -> store_wf (fst (insert_message now bid sender text d)).
Proof.
  intros Hd. unfold insert_message, nextval_messages. wf_cases; wf_split; wf_In.
Qed.

Lemma store_wf_update_booking_statut now statut id d :
  store_wf d -> store_wf (fst (update_booking_statut now statut id d)).
Proof.
  intros Hd. unfold update_booking_statut. wf_cases; wf_split; wf_In.
  all: rewrite map_map;
    erewrite map_ext; [exact Wb|];
    intros b; now destruct (b_id b =? id).
Qed.

Lemma In_rewritten {A} (hit : A -> bool) (g : A -> A) (l : list A) (y : A) :
  In y (map (fun x => if hit x then g x else x) l) ->
  exists x, In x l /\ (y = x \/ y = g x).
Proof.
  intros H. apply in_map_iff in H. destruct H as [x [E Hx]].
  exists x. split; [exact Hx|]. destruct (hit x); auto.
Qed.

Lemma store_wf_update_profile_fields me de an ta zo ad po di uid d :
  store_wf d ->
  store_wf (fst (update_profile_fields me de an ta zo ad po di uid d)).
Proof.
  intros Hd. unfold update_profile_fields. wf_cases; wf_split; wf_In.
  match goal with
  | H : In _ (map _ _) |- _ =>
      apply In_rewritten in H; destruct H as [x [Hx [->| ->]]]
  end; exact (Wp x Hx).
Qed.

Lemma store_wf_update_note_moyenne pid d :
  store_wf d -> store_wf (fst (update_note_moyenne pid d)).
Proof.
  intros Hd. unfold update_note_moyenne. wf_cases; wf_split; wf_In.
  match goal with
  | H : In _ (map _ _) |- _ =>
      apply In_rewritten in H; destruct H as [x [Hx [->| ->]]]
  end; exact (Wp x Hx).
Qed.

Lemma store_wf_statements : statement_invariant store_wf.
Proof.
  constructor.
  - exact store_wf_insert_user.
  - exact store_wf_insert_profile.
  - exact store_wf_insert_service.
  - exact store_wf_insert_booking.
  - exact store_wf_insert_review.
  - exact store_wf_insert_message.
  - exact store_wf_update_booking_statut.
  - exact store_wf_update_profile_fields.
  - exact store_wf_update_note_moyenne.
Qed.

Lemma store_wf_init : store_wf init_db.
Proof.
  split; [exact init_db_wf|]. split; [split; intros r []|constructor].
Qed.

Section Reachable.

Variable bcrypt_hash : string -> Z -> string -> string.
Variable jwt : Type.
Variable jwt_sign : claims -> string -> Z -> Z -> jwt.
Variable jwt_verify : jwt -> string -> Z -> option claims.
Variable JWT_SECRET : string.

(** Every store the API can build from the empty database meets the
    hypotheses the review and registration properties are stated under. *)
Lemma store_wf_reachable (trace : list (Z * request jwt)) :
  store_wf (run bcrypt_hash jwt_sign jwt_verify JWT_SECRET trace init_db).
Proof.
  apply run_invariant; [exact store_wf_statements|exact store_wf_init].
Qed.

End Reachable.

(* ================================================================== *)
(** ** Tokens and the protected routes *)

Section TokenProperties.

Variable bcrypt_compare : string -> string -> bool.
Variable jwt : Type.
Variable jwt_sign : claims -> string -> Z -> Z -> jwt.
Variable jwt_verify : jwt -> string -> Z -> option claims.
Variable JWT_SECRET : string.

Hypothesis jwt_verify_sign :
  forall payload secret ttl iat t,
    t < iat + ttl ->
    jwt_verify (jwt_sign payload secret ttl iat) secret t = Some payload.

Local Abbreviation login := (login bcrypt_compare jwt_sign JWT_SECRET).

(** A login is answered 200 only for a stored user of that email whose
    hash [bcrypt.compare] accepts; the store is left alone, the answer
    describes that user, and until it expires the token lets a request
    through [authenticateToken] with that user's id, email and role as
    [req.user]. *)
Theorem login_token_authenticates now req d d' res :
  login now req d = (d', res) ->
  status res = 200 ->
  d' = d
  /\ exists u password token,
       In u (users d)
       /\ login_email req = Some (u_email u)
       /\ login_password req = Some password
       /\ bcrypt_compare password (u_password u) = true
       /\ res = mkResponse 200
                  (login_body_ok "Connexion réussie" token
                     (mkLoggedUser (u_id u) (u_email u) (u_full_name u)
                        (u_role u) (u_is_verified u) (u_is_certified u)
                        (u_ville u) (u_secteur u) (u_profile_image u)))
       /\ forall now' next d0,
            now' < now + expiresIn ->
            authenticateToken jwt_verify JWT_SECRET now' (Some token) next d0
            = next (mkClaims (u_id u) (Some (u_email u)) (Some (u_role u))) d0.
Proof.
  unfold_login. unfold_M.
  destruct (users_by_email d (login_email req)) as [|u l] eqn:F.
  { intros H S. injection H as _ <-. discriminate. }
  apply users_by_email_cons in F. destruct F as [Hu E].
  destruct (login_password req) as [password|]; unfold_M.
  2:{ intros H S. injection H as _ <-. discriminate. }
  destruct (bcrypt_compare password (u_password u)) eqn:C; cbn [negb]; unfold_M.
  2:{ intros H S. injection H as _ <-. discriminate. }
  intros H _. injection H as <- <-. split; [reflexivity|].
  exists u, password. eexists. do 4 (split; [assumption || reflexivity|]).
  split; [reflexivity|].
  intros now' next d0 Ht. unfold authenticateToken.
  now rewrite (jwt_verify_sign _ _ _ _ _ Ht).
Qed.

End TokenProperties.

Section GateProperties.

Variable bcrypt_hash : string -> Z -> string -> string.
Variable jwt : Type.
Variable jwt_sign : claims -> string -> Z -> Z -> jwt.
Variable jwt_verify : jwt -> string -> Z -> option claims.
Variable JWT_SECRET : string.

Local Abbreviation serve :=
  (serve bcrypt_hash jwt_sign jwt_verify JWT_SECRET).

(** No writing route other than the registration does anything without a
    token that [jwt.verify] accepts: with no token the answer is 401
    ['Token requis'], with a refused token 403 ['Token invalide'], and the
    store is as it was. *)
Theorem serve_needs_a_valid_token now rq d :
  is_register jwt rq = false ->
  (authorization_of jwt rq = None ->
   serve now rq d = (d, mkResponse 401 (error_body "Token requis")))
  /\ (forall token,
        authorization_of jwt rq = Some token ->
        jwt_verify token JWT_SECRET now = None ->
        serve now rq d = (d, mkResponse 403 (error_body "Token invalide"))).
Proof.
  intros R. destruct rq; try discriminate R; simpl_serve;
    cbn [authorization_of]; unfold authenticateToken;
    (split;
     [intros ->; reflexivity
     |intros token -> V; now rewrite V]).
Qed.

End GateProperties.

Lemma sim_login_awa :
  sim_login 5000 (mkLoginBody (Some "awa@gcafo.bf") (Some "s3cret")) db_accounts
  = (db_accounts,
     mkResponse 200
       (login_body_ok "Connexion réussie"
          (sim_sign (mkClaims 1 (Some "awa@gcafo.bf") (Some "prestataire"))
                    "secret" 86400 5000)
          (mkLoggedUser 1 "awa@gcafo.bf" "Awa" "prestataire" (Some false)
                        (Some false) (Some "Ouaga") None None))).
Proof. vm_compute. reflexivity. Qed.

Lemma login_token_authenticates_witness :
  db_accounts = db_accounts
  /\ exists u password token,
       In u (users db_accounts)
       /\ Some "awa@gcafo.bf" = Some (u_email u)
       /\ Some "s3cret" = Some password
       /\ sim_compare password (u_password u) = true
       /\ mkResponse 200
            (login_body_ok "Connexion réussie"
               (sim_sign (mkClaims 1 (Some "awa@gcafo.bf") (Some "prestataire"))
                         "secret" 86400 5000)
               (mkLoggedUser 1 "awa@gcafo.bf" "Awa" "prestataire" (Some false)
                             (Some false) (Some "Ouaga") None None))
          = mkResponse 200
              (login_body_ok "Connexion réussie" token
                 (mkLoggedUser (u_id u) (u_email u) (u_full_name u)
                    (u_role u) (u_is_verified u) (u_is_certified u)
                    (u_ville u) (u_secteur u) (u_profile_image u)))
       /\ forall now' next d0,
            now' < 5000 + expiresIn ->
            authenticateToken sim_verify "secret" now' (Some token) next d0
            = next (mkClaims (u_id u) (Some (u_email u)) (Some (u_role u))) d0.
Proof.
  exact (login_token_authenticates sim_compare sim_jwt sim_sign sim_verify
           "secret" sim_verify_sign 5000
           (mkLoginBody (Some "awa@gcafo.bf") (Some "s3cret")) db_accounts
           db_accounts _ sim_login_awa eq_refl).
Defined.

Lemma serve_needs_a_valid_token_witness :
  serve sim_hash sim_sign sim_verify "secret" 300
    (POST_bookings (jwt:=sim_jwt) None
       (mkBookingBody (Some 1) (Some 1) (Some 200) None None)) db_accounts
  = (db_accounts, mkResponse 401 (error_body "Token requis")).
Proof.
  exact (proj1 (serve_needs_a_valid_token sim_hash sim_jwt sim_sign sim_verify
                  "secret" 300
                  (POST_bookings (jwt:=sim_jwt) None
                     (mkBookingBody (Some 1) (Some 1) (Some 200) None None))
                  db_accounts eq_refl)
               eq_refl).
Defined.

(* ================================================================== *)
(** ** The provider page *)

Lemma obj_get_obj_without (k k' : string) (o : object) :
  k <> k' -> obj_get k (obj_without k' o) = obj_get k o.
Proof.
  intros N. unfold obj_get, obj_without. f_equal.
  induction o as [|[k0 v0] o IH]; [reflexivity|].
  cbn [filter find fst]. destruct (String.eqb k0 k') eqn:E; cbn [negb].
  - apply String.eqb_eq in E. subst k0.
    destruct (String.eqb k' k) eqn:E2; [|exact IH].
    apply String.eqb_eq in E2. congruence.
  - cbn [find fst]. destruct (String.eqb k0 k); [reflexivity|exact IH].
Qed.

Lemma In_firstn {A} (n : nat) (l : list A) (x : A) :
  In x (firstn n l) -> In x l.
Proof.
  intros H. rewrite <- (firstn_skipn n l). apply in_app_iff. now left.
Qed.

Lemma StronglySorted_firstn {A} (R : A -> A -> Prop) (n : nat) (l : list A) :
  StronglySorted R l -> StronglySorted R (firstn n l).
Proof.
  revert l. induction n as [|n IH]; intros l S; [constructor|].
  destruct l as [|x l]; [constructor|].
  inversion S as [|? ? S' Hall]; subst. cbn [firstn].
  constructor; [now apply IH|].
  apply Forall_forall. intros y Hy. rewrite Forall_forall in Hall.
  apply Hall. exact (In_firstn n l y Hy).
Qed.

(** The pairs GET /api/prestataires/:id selects. *)
Lemma provider_pairs_In id d u p :
  In (u, p)
     (filter (fun up => (u_id (fst up) =? id)
                        && String.eqb (u_role (fst up)) "prestataire")
             (users_join_profiles d))
  <-> In u (users d) /\ In p (prestataire_profiles d)
      /\ p_user_id p = u_id u /\ u_id u = id /\ u_role u = "prestataire".
Proof.
  rewrite filter_In. cbn [fst]. rewrite andb_true_iff, Z.eqb_eq, String.eqb_eq.
  split.
  - intros [J [E R]]. apply users_join_profiles_In in J.
    destruct J as [Hu [Hp Ep]]. repeat split; assumption.
  - intros [Hu [Hp [Ep [E R]]]]. split; [|split; assumption].
    unfold users_join_profiles. apply in_flat_map. exists u.
    split; [exact Hu|]. apply in_map. apply filter_In.
    split; [exact Hp|]. apply Z.eqb_eq. now symmetry.
Qed.

Lemma avis_of_In d pid a :
  In a (avis_of d pid) ->
  exists r b c,
    In r (reviews d) /\ In b (bookings d) /\ In c (users d)
    /\ r_booking_id r = b_id b /\ b_prestataire_id b = pid
    /\ b_client_id b = u_id c
    /\ a = mkAvis r (u_full_name c) (u_profile_image c).
Proof.
  unfold avis_of. intros H. apply In_firstn in H.
  apply (Permutation_in _ (order_by_desc_perm _ _ _)) in H.
  apply in_flat_map in H. destruct H as [r [Hr H]].
  apply in_flat_map in H. destruct H as [b [Hb H]].
  destruct ((r_booking_id r =? b_id b) && (b_prestataire_id b =? pid)) eqn:J;
    [|destruct H].
  apply andb_true_iff in J. destruct J as [J1 J2].
  apply Z.eqb_eq in J1. apply Z.eqb_eq in J2.
  apply in_map_iff in H. destruct H as [c [E Hc]].
  apply filter_In in Hc. destruct Hc as [Hc J3]. apply Z.eqb_eq in J3.
  exists r, b, c. repeat split; auto.
Qed.

Section PageProperties.

Variable jwt : Type.

(** [get_prestataire_with] statement by statement: the id read back from
    the joined row is the profile's. *)
Lemma get_prestataire_with_unfold finish id d :
  get_prestataire_with (jwt:=jwt) finish id d =
  match filter (fun up => (u_id (fst up) =? id)
                          && String.eqb (u_role (fst up)) "prestataire")
               (users_join_profiles d) with
  | [] => (d, mkResponse 404 (error_body "Prestataire non trouvé"))
  | (u, p) :: _ =>
      (d, mkResponse 200
            (prestataire_body
               (finish (row_object (user_columns u ++ profile_columns p)))
               (services_of d (p_id p)) (avis_of d (p_id p))))
  end.
Proof.
  unfold get_prestataire_with. unfold_M.
  destruct (filter _ (users_join_profiles d)) as [|[u p] l]; [reflexivity|].
  rewrite joined_row_id. reflexivity.
Qed.


(** What a 200 answer of GET /api/prestataires/:id holds: the joined row
    of a provider pair, whose [id] field is the profile's id and no longer
    the user's; the services of that profile, all of them, newest first;
    and at most 20 reviews, newest first, each one a review of a booking of
    that profile with the name and image of the booking's client. *)
Theorem get_prestataire_page id d row svcs avis :
  snd (get_prestataire (jwt:=jwt) id d)
  = mkResponse 200 (prestataire_body row svcs avis) ->
  exists u p,
    In u (users d) /\ In p (prestataire_profiles d)
    /\ p_user_id p = u_id u /\ u_id u = id /\ u_role u = "prestataire"
    /\ row = row_object (user_columns u ++ profile_columns p)
    /\ obj_get "id" row = Some (JInt (p_id p))
    /\ obj_get "user_id" row = Some (JInt (u_id u))
    /\ Permutation svcs
         (filter (fun s => s_prestataire_id s =? p_id p) (services d))
    /\ StronglySorted (key_desc (fun s => Some (s_created_at s))) svcs
    /\ (List.length avis <= 20)%nat
    /\ StronglySorted (key_desc (fun a => Some (r_created_at (av_review a))))
                      avis
    /\ forall a, In a avis ->
         exists r b c,
           In r (reviews d) /\ In b (bookings d) /\ In c (users d)
           /\ r_booking_id r = b_id b /\ b_prestataire_id b = p_id p
           /\ b_client_id b = u_id c
           /\ a = mkAvis r (u_full_name c) (u_profile_image c).
Proof.
  unfold get_prestataire. rewrite get_prestataire_with_unfold.
  destruct (filter _ (users_join_profiles d)) as [|[u p] l] eqn:F;
    cbn [snd]; [discriminate|].
  intros H. injection H as <- <- <-.
  assert (Hin : In (u, p)
                   (filter (fun up => (u_id (fst up) =? id)
                                      && String.eqb (u_role (fst up))
                                                    "prestataire")
                           (users_join_profiles d)))
    by (rewrite F; now left).
  apply provider_pairs_In in Hin.
  destruct Hin as [Hu [Hp [Ep [Ei R]]]].
  exists u, p. do 5 (split; [assumption|]).
  split; [reflexivity|]. split; [reflexivity|]. split.
  { cbn. now rewrite Ep. }
  split; [apply order_by_desc_perm|].
  split; [apply order_by_desc_sorted|].
  split; [apply firstn_le_length|].
  split; [apply StronglySorted_firstn, order_by_desc_sorted|].
  apply avis_of_In.
Qed.

(** The detail handler of the second server file answers as the one of
    [server.js] does, with the [password] key taken out of the row and
    every other key left as it was. *)
Theorem get_prestataire_without_password_same_but_password id d :
  fst (get_prestataire_without_password (jwt:=jwt) id d)
  = fst (get_prestataire (jwt:=jwt) id d)
  /\ (status (snd (get_prestataire (jwt:=jwt) id d)) = 404 ->
      snd (get_prestataire_without_password (jwt:=jwt) id d)
      = snd (get_prestataire (jwt:=jwt) id d))
  /\ forall row svcs avis,
       snd (get_prestataire (jwt:=jwt) id d)
       = mkResponse 200 (prestataire_body row svcs avis) ->
       snd (get_prestataire_without_password (jwt:=jwt) id d)
       = mkResponse 200
           (prestataire_body (obj_without "password" row) svcs avis)
       /\ has_field "password" (obj_without "password" row) = false
       /\ forall k, k <> "password" ->
            obj_get k (obj_without "password" row) = obj_get k row.
Proof.
  unfold get_prestataire, get_prestataire_without_password.
  rewrite !get_prestataire_with_unfold.
  destruct (filter _ (users_join_profiles d)) as [|[u p] l];
    cbn [fst snd status].
  - split; [reflexivity|]. split; [reflexivity|]. discriminate.
  - split; [reflexivity|]. split; [discriminate|].
    intros row svcs avis H. injection H as <- <- <-.
    split; [reflexivity|]. split; [apply has_field_obj_without|].
    intros k N. now apply obj_get_obj_without.
Qed.

End PageProperties.

Lemma get_prestataire_page_witness :
  exists u p,
    In u (users db_reviewed) /\ In p (prestataire_profiles db_reviewed)
    /\ p_user_id p = u_id u /\ u_id u = 1 /\ u_role u = "prestataire"
    /\ row_object
         (user_columns
            (mkUser 1 "awa@gcafo.bf" "s3cret" "prestataire" "Awa"
                    (Some "70000000") None (Some false) (Some false)
                    (Some "Ouaga") None 100 100)
          ++ profile_columns
               (mkProfile 1 1 "Général" None None None None None None None
                          (Some 400) (Some 1)))
       = row_object (user_columns u ++ profile_columns p)
    /\ obj_get "id"
         (row_object
            (user_columns
               (mkUser 1 "awa@gcafo.bf" "s3cret" "prestataire" "Awa"
                       (Some "70000000") None (Some false) (Some false)
                       (Some "Ouaga") None 100 100)
             ++ profile_columns
                  (mkProfile 1 1 "Général" None None None None None None None
                             (Some 400) (Some 1))))
       = Some (JInt (p_id p))
    /\ obj_get "user_id"
         (row_object
            (user_columns
               (mkUser 1 "awa@gcafo.bf" "s3cret" "prestataire" "Awa"
                       (Some "70000000") None (Some false) (Some false)
                       (Some "Ouaga") None 100 100)
             ++ profile_columns
                  (mkProfile 1 1 "Général" None None None None None None None
                             (Some 400) (Some 1))))
       = Some (JInt (u_id u))
    /\ Permutation (services_of db_reviewed 1)
         (filter (fun s => s_prestataire_id s =? p_id p) (services db_reviewed))
    /\ StronglySorted (key_desc (fun s => Some (s_created_at s)))
                      (services_of db_reviewed 1)
    /\ (List.length (avis_of db_reviewed 1) <= 20)%nat
    /\ StronglySorted (key_desc (fun a => Some (r_created_at (av_review a))))
                      (avis_of db_reviewed 1)
    /\ forall a, In a (avis_of db_reviewed 1) ->
         exists r b c,
           In r (reviews db_reviewed) /\ In b (bookings db_reviewed)
           /\ In c (users db_reviewed)
           /\ r_booking_id r = b_id b /\ b_prestataire_id b = p_id p
           /\ b_client_id b = u_id c
           /\ a = mkAvis r (u_full_name c) (u_profile_image c).
Proof.
  apply (get_prestataire_page sim_jwt 1 db_reviewed).
  vm_compute. reflexivity.
Defined.

(* ================================================================== *)
(** ** The profile of the caller *)

Lemma numeric_10_2_fits (v : option Z) :
  decimal_fits v = true -> numeric_10_2 v = Some v.
Proof.
  destruct v as [h|]; cbn; [|reflexivity]. now intros ->.
Qed.

Lemma existsb_owner_true (uid : Z) (l : list profile) :
  existsb (fun p => p_user_id p =? uid) l = true
  <-> exists p, In p l /\ p_user_id p = uid.
Proof.
  rewrite existsb_exists. split; intros [p [Hp E]]; exists p; split; auto.
  - now apply Z.eqb_eq.
  - now apply Z.eqb_eq.
Qed.

(** [UPDATE prestataire_profiles ... WHERE user_id = $9] on values that fit
    their columns. *)
Lemma update_profile_fields_run req uid d :
  profile_body_fits req = true ->
  update_profile_fields (pb_metier req) (pb_description req)
    (pb_annees_experience req) (pb_tarif_horaire req)
    (pb_zone_intervention req) (pb_adresse req) (pb_portfolio req)
    (pb_disponibilites req) uid d
  = if existsb (fun p => p_user_id p =? uid) (prestataire_profiles d) then
      match pb_metier req with
      | None => (d, Throw not_null_violation)
      | Some me =>
          let upd := with_fields me (pb_description req)
                       (pb_annees_experience req) (pb_tarif_horaire req)
                       (pb_zone_intervention req) (pb_adresse req)
                       (pb_portfolio req) (pb_disponibilites req) in
          (set_profiles
             (map (fun p => if p_user_id p =? uid then upd p else p)
                  (prestataire_profiles d)) d,
           Ok (map upd (filter (fun p => p_user_id p =? uid)
                               (prestataire_profiles d))))
      end
    else (d, Ok []).
Proof.
  intros F. unfold profile_body_fits in F. rewrite !andb_true_iff in F.
  destruct F as [[Fm Ft] Fz]. unfold update_profile_fields.
  rewrite (varchar_opt_fits 255 _ Fm), (numeric_10_2_fits _ Ft),
    (varchar_opt_fits 255 _ Fz).
  unfold_M. destruct (existsb _ (prestataire_profiles d)); [|reflexivity].
  destruct (pb_metier req) as [me|]; reflexivity.
Qed.

Section ProfileProperties.

Variable jwt : Type.

(** PUT /api/prestataires/profile replaces, it does not patch: when the
    caller has a profile and the body names a [metier], every profile row
    of the caller gets the eight fields of the body, an omitted one
    becoming NULL, and keeps its id, owner and review aggregate; the rows
    of other users are untouched, and the answer is 200 with the first
    rewritten row. *)
Theorem put_profile_replaces user req d metier :
  profile_body_fits req = true ->
  pb_metier req = Some metier ->
  (exists p, In p (prestataire_profiles d) /\ p_user_id p = userId user) ->
  exists p0,
    In p0 (prestataire_profiles d) /\ p_user_id p0 = userId user
    /\ snd (put_profile (jwt:=jwt) user req d)
       = mkResponse 200
           (profile_body_ok "Profil mis à jour avec succès"
              (mkProfile (p_id p0) (p_user_id p0) metier (pb_description req)
                 (pb_annees_experience req) (pb_tarif_horaire req)
                 (pb_zone_intervention req) (pb_adresse req)
                 (pb_portfolio req) (pb_disponibilites req)
                 (p_note_moyenne p0) (p_nombre_avis p0)))
    /\ prestataire_profiles (fst (put_profile (jwt:=jwt) user req d))
       = map (fun p =>
                if p_user_id p =? userId user then
                  mkProfile (p_id p) (p_user_id p) metier (pb_description req)
                    (pb_annees_experience req) (pb_tarif_horaire req)
                    (pb_zone_intervention req) (pb_adresse req)
                    (pb_portfolio req) (pb_disponibilites req)
                    (p_note_moyenne p) (p_nombre_avis p)
                else p)
             (prestataire_profiles d)
    /\ users (fst (put_profile (jwt:=jwt) user req d)) = users d
    /\ bookings (fst (put_profile (jwt:=jwt) user req d)) = bookings d
    /\ reviews (fst (put_profile (jwt:=jwt) user req d)) = reviews d.
Proof.
  intros F Em Own. unfold put_profile. unfold_M.
  rewrite (update_profile_fields_run req (userId user) d F).
  rewrite (proj2 (existsb_owner_true _ _) Own), Em. cbn zeta.
  destruct (filter (fun p => p_user_id p =? userId user)
                   (prestataire_profiles d)) as [|p0 l] eqn:E.
  { exfalso. destruct Own as [p [Hp Ep]]. rewrite filter_nil_iff in E.
    specialize (E p Hp). apply Z.eqb_neq in E. contradiction. }
  apply filter_cons_inv in E. destruct E as [Hp0 E0]. apply Z.eqb_eq in E0.
  exists p0. cbn [map fst snd]. repeat split; assumption || reflexivity.
Qed.

(** What PUT /api/prestataires/profile refuses: a caller without a profile
    row gets 404 whatever the body; a caller with one who leaves [metier]
    out gets the generic 500, the column being NOT NULL.  The store is
    unchanged in both cases. *)
Theorem put_profile_refusals user req d :
  profile_body_fits req = true ->
  ((forall p, In p (prestataire_profiles d) -> p_user_id p <> userId user) ->
   put_profile (jwt:=jwt) user req d
   = (d, mkResponse 404 (error_body "Profil non trouvé")))
  /\ ((exists p, In p (prestataire_profiles d) /\ p_user_id p = userId user) ->
      pb_metier req = None ->
      put_profile (jwt:=jwt) user req d
      = (d, mkResponse 500 (error_body "Erreur serveur"))).
Proof.
  intros F. unfold put_profile. unfold_M.
  rewrite (update_profile_fields_run req (userId user) d F). split.
  - intros N.
    replace (existsb _ (prestataire_profiles d)) with false; [reflexivity|].
    symmetry. apply existsb_false_iff. intros p Hp. apply Z.eqb_neq.
    now apply N.
  - intros Own Em. rewrite (proj2 (existsb_owner_true _ _) Own), Em.
    reflexivity.
Qed.

End ProfileProperties.

Lemma put_profile_replaces_witness :
  exists p0,
    In p0 (prestataire_profiles db_reviewed) /\ p_user_id p0 = 1
    /\ snd (put_profile (jwt:=sim_jwt) awa_claims awa_profile_body db_reviewed)
       = mkResponse 200
           (profile_body_ok "Profil mis à jour avec succès"
              (mkProfile (p_id p0) (p_user_id p0) "Plombier" None (Some 7)
                 (Some 250000) (Some "Ouaga") None None None
                 (p_note_moyenne p0) (p_nombre_avis p0)))
    /\ prestataire_profiles
         (fst (put_profile (jwt:=sim_jwt) awa_claims awa_profile_body
                           db_reviewed))
       = map (fun p =>
                if p_user_id p =? 1 then
                  mkProfile (p_id p) (p_user_id p) "Plombier" None (Some 7)
                    (Some 250000) (Some "Ouaga") None None None
                    (p_note_moyenne p) (p_nombre_avis p)
                else p)
             (prestataire_profiles db_reviewed)
    /\ users (fst (put_profile (jwt:=sim_jwt) awa_claims awa_profile_body
                               db_reviewed)) = users db_reviewed
    /\ bookings (fst (put_profile (jwt:=sim_jwt) awa_claims awa_profile_body
                                  db_reviewed)) = bookings db_reviewed
    /\ reviews (fst (put_profile (jwt:=sim_jwt) awa_claims awa_profile_body
                                 db_reviewed)) = reviews db_reviewed.
Proof.
  apply (put_profile_replaces sim_jwt awa_claims awa_profile_body db_reviewed
           "Plombier" eq_refl eq_refl).
  exists (mkProfile 1 1 "Général" None None None None None None None
                    (Some 400) (Some 1)).
  split; [vm_compute; now left|reflexivity].
Defined.

Lemma put_profile_refusals_witness :
  put_profile (jwt:=sim_jwt) binta_claims awa_profile_body db_reviewed
  = (db_reviewed, mkResponse 404 (error_body "Profil non trouvé"))
  /\ put_profile (jwt:=sim_jwt) awa_claims
       (mkProfileBody None (Some "Dix ans de métier") None None None None
                      None None) db_reviewed
     = (db_reviewed, mkResponse 500 (error_body "Erreur serveur")).
Proof.
  split.
  - apply (proj1 (put_profile_refusals sim_jwt binta_claims awa_profile_body
                    db_reviewed eq_refl)).
    intros p Hp. vm_compute in Hp. destruct Hp as [<-|[]]. discriminate.
  - apply (proj2 (put_profile_refusals sim_jwt awa_claims
                    (mkProfileBody None (Some "Dix ans de métier") None None
                                   None None None None)
                    db_reviewed eq_refl)); [|reflexivity].
    exists (mkProfile 1 1 "Général" None None None None None None None
                      (Some 400) (Some 1)).
    split; [vm_compute; now left|reflexivity].
Defined.

(* ================================================================== *)
(** ** Services, bookings and messages *)

Lemma existsb_Z_true {A} (f : A -> Z) (v : Z) (l : list A) :
  existsb (fun x => f x =? v) l = true <-> exists x, In x l /\ f x = v.
Proof.
  rewrite existsb_exists. split; intros [x [Hx E]]; exists x; split; auto.
  - now apply Z.eqb_eq.
  - now apply Z.eqb_eq.
Qed.

Lemma existsb_Z_false {A} (f : A -> Z) (v : Z) (l : list A) :
  existsb (fun x => f x =? v) l = false <-> forall x, In x l -> f x <> v.
Proof.
  rewrite existsb_false_iff. split; intros H x Hx.
  - apply Z.eqb_neq. now apply H.
  - apply Z.eqb_neq. now apply H.
Qed.

(** [INSERT INTO services]: either the row is stored, with the next id of
    the sequence, under a stored profile, or the statement throws and the
    table is as it was. *)
Lemma insert_service_outcome now pid nom descr prix duree cat d :
  (exists s,
      insert_service now pid nom descr prix duree cat d
      = (set_services (services d ++ [s]) (fst (nextval_services d)), Ok s)
      /\ s_id s = services_id_seq d /\ s_prestataire_id s = pid
      /\ varchar_opt 255 nom = Some (Some (s_nom_service s))
      /\ s_description s = descr /\ numeric_10_2 prix = Some (s_prix s)
      /\ s_duree_estimee s = duree
      /\ varchar_opt 100 cat = Some (s_categorie s)
      /\ s_created_at s = now
      /\ has_profile_id d pid = true)
  \/ (exists e,
        insert_service now pid nom descr prix duree cat d = (d, Throw e)
        \/ insert_service now pid nom descr prix duree cat d
           = (fst (nextval_services d), Throw e)).
Proof.
  unfold insert_service, nextval_services. unfold_M.
  repeat (case_step; unfold_M);
    try (right; eexists; (left; reflexivity) || (right; reflexivity)).
  left. eexists. split; [reflexivity|]. cbn. repeat split; assumption.
Qed.

(** [INSERT INTO bookings], likewise. *)
Lemma insert_booking_outcome now client pid sid date adr notes d :
  (exists b p s t,
      insert_booking now client pid sid date adr notes d
      = (set_bookings (bookings d ++ [b]) (fst (nextval_bookings d)), Ok b)
      /\ pid = Some p /\ sid = Some s /\ date = Some t
      /\ b = mkBooking (bookings_id_seq d) client p s t (Some "en_attente")
                       adr None notes now now
      /\ has_booking_id d (bookings_id_seq d) = false
      /\ has_user_id d client = true
      /\ has_profile_id d p = true
      /\ has_service_id d s = true)
  \/ (exists e,
        insert_booking now client pid sid date adr notes d
        = (fst (nextval_bookings d), Throw e)).
Proof.
  unfold insert_booking, nextval_bookings. unfold_M.
  repeat (case_step; unfold_M);
    try (right; eexists; reflexivity).
  left. do 4 eexists. split; [reflexivity|]. cbn.
  do 4 (split; [reflexivity|]).
  match goal with
  | H : negb (has_booking_id _ _) = true |- _ => apply negb_true_iff in H
  end.
  repeat split; assumption.
Qed.

(** [INSERT INTO messages], likewise. *)
Lemma insert_message_outcome now bid sender text d :
  (exists m b t,
      insert_message now bid sender text d
      = (set_messages (messages d ++ [m]) (fst (nextval_messages d)), Ok m)
      /\ bid = Some b /\ text = Some t
      /\ m = mkMessage (messages_id_seq d) b sender t (Some false) now
      /\ has_booking_id d b = true
      /\ has_user_id d sender = true)
  \/ (exists e,
        insert_message now bid sender text d
        = (fst (nextval_messages d), Throw e)).
Proof.
  unfold insert_message, nextval_messages. unfold_M.
  repeat (case_step; unfold_M);
    try (right; eexists; reflexivity).
  left. do 3 eexists. split; [reflexivity|]. cbn. repeat split; assumption.
Qed.

Section WriteProperties.

Variable jwt : Type.

(** A service is only ever created for the caller's own profile: POST
    /api/services is answered 201 only when the caller is a stored user of
    role ['prestataire'] with a profile row, and the one row it appends to
    [services] is that of the service in the answer, filed under that
    profile's id.  Nothing else is written. *)
Theorem post_service_created now user req d d' res :
  post_service (jwt:=jwt) now user req d = (d', res) ->
  status res = 201 ->
  exists u p s,
    In u (users d) /\ u_id u = userId user /\ u_role u = "prestataire"
    /\ In p (prestataire_profiles d) /\ p_user_id p = userId user
    /\ s_prestataire_id s = p_id p
    /\ s_id s = services_id_seq d
    /\ res = mkResponse 201 (service_body_ok "Service créé avec succès" s)
    /\ services d' = (services d ++ [s])%list
    /\ users d' = users d
    /\ prestataire_profiles d' = prestataire_profiles d
    /\ bookings d' = bookings d /\ reviews d' = reviews d.
Proof.
  unfold post_service. unfold_M.
  destruct (filter (fun u => u_id u =? userId user) (users d)) as [|u l] eqn:Fu;
    cbn [hd_error]; unfold_M.
  { intros H S. injection H as _ <-. discriminate. }
  apply filter_cons_inv in Fu. destruct Fu as [Hu Eu]. apply Z.eqb_eq in Eu.
  destruct (String.eqb (u_role u) "prestataire") eqn:R; cbn [negb]; unfold_M.
  2:{ intros H S. injection H as _ <-. discriminate. }
  apply String.eqb_eq in R.
  destruct (filter (fun p => p_user_id p =? userId user)
                   (prestataire_profiles d)) as [|p lp] eqn:Fp.
  { intros H S. injection H as _ <-. discriminate. }
  apply filter_cons_inv in Fp. destruct Fp as [Hp Ep]. apply Z.eqb_eq in Ep.
  unfold_M.
  destruct (insert_service_outcome now (p_id p) (sb_nom_service req)
              (sb_description req) (sb_prix req) (sb_duree_estimee req)
              (sb_categorie req) d)
    as [[s [-> [Is [Ps _]]]]|[e [-> | ->]]].
  - intros H _. injection H as <- <-. exists u, p, s. cbn.
    repeat split; assumption.
  - intros H S. injection H as _ <-. discriminate.
  - intros H S. injection H as _ <-. discriminate.
Qed.

(** What POST /api/services refuses before it writes: a caller whose id no
    user row has gets the generic 500 (the handler reads the role of a row
    that is not there); a caller who is not a ['prestataire'] gets 403; a
    ['prestataire'] without a profile row gets 404.  The store is unchanged
    each time. *)
Theorem post_service_refusals now user req d :
  ((forall u, In u (users d) -> u_id u <> userId user) ->
   post_service (jwt:=jwt) now user req d
   = (d, mkResponse 500 (error_body "Erreur serveur")))
  /\ ((exists u, In u (users d) /\ u_id u = userId user) ->
      (forall u, In u (users d) -> u_id u = userId user ->
                 u_role u <> "prestataire") ->
      post_service (jwt:=jwt) now user req d
      = (d, mkResponse 403 (error_body "Accès réservé aux prestataires")))
  /\ ((exists u, In u (users d) /\ u_id u = userId user) ->
      (forall u, In u (users d) -> u_id u = userId user ->
                 u_role u = "prestataire") ->
      (forall p, In p (prestataire_profiles d) ->
                 p_user_id p <> userId user) ->
      post_service (jwt:=jwt) now user req d
      = (d, mkResponse 404 (error_body "Profil prestataire non trouvé"))).
Proof.
  unfold post_service. unfold_M. split; [|split].
  - intros N.
    assert (Fu : filter (fun u => u_id u =? userId user) (users d) = []).
    { apply filter_nil_iff. intros u Hu. apply Z.eqb_neq. now apply N. }
    now rewrite Fu.
  - intros [u0 [Hu0 E0]] N.
    destruct (filter (fun u => u_id u =? userId user) (users d))
      as [|u l] eqn:Fu.
    { rewrite filter_nil_iff in Fu. specialize (Fu u0 Hu0).
      apply Z.eqb_neq in Fu. contradiction. }
    apply filter_cons_inv in Fu. destruct Fu as [Hu Eu]. apply Z.eqb_eq in Eu.
    cbn [hd_error]. unfold_M.
    specialize (N u Hu Eu). apply String.eqb_neq in N. now rewrite N.
  - intros [u0 [Hu0 E0]] R N.
    destruct (filter (fun u => u_id u =? userId user) (users d))
      as [|u l] eqn:Fu.
    { rewrite filter_nil_iff in Fu. specialize (Fu u0 Hu0).
      apply Z.eqb_neq in Fu. contradiction. }
    apply filter_cons_inv in Fu. destruct Fu as [Hu Eu]. apply Z.eqb_eq in Eu.
    cbn [hd_error]. unfold_M.
    rewrite (proj2 (String.eqb_eq _ _) (R u Hu Eu)). cbn [negb]. unfold_M.
    assert (Fp : filter (fun p => p_user_id p =? userId user)
                        (prestataire_profiles d) = []).
    { apply filter_nil_iff. intros p Hp. apply Z.eqb_neq. now apply N. }
    now rewrite Fp.
Qed.

End WriteProperties.

Lemma post_service_created_witness :
  exists u p s,
    In u (users db_accounts) /\ u_id u = 1 /\ u_role u = "prestataire"
    /\ In p (prestataire_profiles db_accounts) /\ p_user_id p = 1
    /\ s_prestataire_id s = p_id p
    /\ s_id s = services_id_seq db_accounts
    /\ snd (post_service (jwt:=sim_jwt) 102 awa_claims
              (mkServiceBody (Some "Plomberie") None (Some 500000) (Some 60)
                             None) db_accounts)
       = mkResponse 201 (service_body_ok "Service créé avec succès" s)
    /\ services (fst (post_service (jwt:=sim_jwt) 102 awa_claims
                        (mkServiceBody (Some "Plomberie") None (Some 500000)
                                       (Some 60) None) db_accounts))
       = (services db_accounts ++ [s])%list
    /\ users (fst (post_service (jwt:=sim_jwt) 102 awa_claims
                     (mkServiceBody (Some "Plomberie") None (Some 500000)
                                    (Some 60) None) db_accounts))
       = users db_accounts
    /\ prestataire_profiles
         (fst (post_service (jwt:=sim_jwt) 102 awa_claims
                 (mkServiceBody (Some "Plomberie") None (Some 500000)
                                (Some 60) None) db_accounts))
       = prestataire_profiles db_accounts
    /\ bookings (fst (post_service (jwt:=sim_jwt) 102 awa_claims
                        (mkServiceBody (Some "Plomberie") None (Some 500000)
                                       (Some 60) None) db_accounts))
       = bookings db_accounts
    /\ reviews (fst (post_service (jwt:=sim_jwt) 102 awa_claims
                       (mkServiceBody (Some "Plomberie") None (Some 500000)
                                      (Some 60) None) db_accounts))
       = reviews db_accounts.
Proof.
  apply (post_service_created sim_jwt 102 awa_claims
           (mkServiceBody (Some "Plomberie") None (Some 500000) (Some 60) None)
           db_accounts).
  - apply surjective_pairing.
  - vm_compute. reflexivity.
Defined.

Lemma post_service_refusals_witness :
  post_service (jwt:=sim_jwt) 102 (mkClaims 9 None None)
    (mkServiceBody (Some "Plomberie") None (Some 500000) (Some 60) None)
    db_accounts
  = (db_accounts, mkResponse 500 (error_body "Erreur serveur"))
  /\ post_service (jwt:=sim_jwt) 102 binta_claims
       (mkServiceBody (Some "Plomberie") None (Some 500000) (Some 60) None)
       db_accounts
     = (db_accounts,
        mkResponse 403 (error_body "Accès réservé aux prestataires"))
  /\ post_service (jwt:=sim_jwt) 102 awa_claims
       (mkServiceBody (Some "Plomberie") None (Some 500000) (Some 60) None)
       (set_profiles [] db_accounts)
     = (set_profiles [] db_accounts,
        mkResponse 404 (error_body "Profil prestataire non trouvé")).
Proof.
  split; [|split].
  - apply (post_service_refusals sim_jwt 102 (mkClaims 9 None None)
             (mkServiceBody (Some "Plomberie") None (Some 500000) (Some 60)
                            None) db_accounts).
    intros u Hu. vm_compute in Hu.
    destruct Hu as [<-|[<-|[]]]; vm_compute; discriminate.
  - apply (post_service_refusals sim_jwt 102 binta_claims
             (mkServiceBody (Some "Plomberie") None (Some 500000) (Some 60)
                            None) db_accounts).
    + eexists. split; [right; left; reflexivity|reflexivity].
    + intros u Hu. vm_compute in Hu.
      destruct Hu as [<-|[<-|[]]]; vm_compute; intros E; discriminate.
  - apply (post_service_refusals sim_jwt 102 awa_claims
             (mkServiceBody (Some "Plomberie") None (Some 500000) (Some 60)
                            None) (set_profiles [] db_accounts)).
    + eexists. split; [left; reflexivity|reflexivity].
    + intros u Hu. vm_compute in Hu.
      destruct Hu as [<-|[<-|[]]]; vm_compute; intros E;
        try reflexivity; discriminate.
    + intros p [].
Defined.

(* ================================================================== *)
(** ** The constraints of the schema, on every store the API builds *)

Lemma statement_invariant_and (P Q : db -> Prop) :
  statement_invariant P -> statement_invariant Q ->
  statement_invariant (fun d => P d /\ Q d).
Proof.
  intros HP HQ. constructor; intros; split;
    first [ now apply HP | now apply HQ ].
Qed.

Ltac unfold_statements :=
  unfold insert_user, insert_profile, insert_service, insert_booking,
    insert_review, insert_message, update_booking_statut,
    update_profile_fields, update_note_moyenne,
    nextval_users, nextval_profiles, nextval_services, nextval_bookings,
    nextval_reviews, nextval_messages.

Lemma sequences_ok_statements : statement_invariant sequences_ok.
Proof.
  constructor; intros; unfold_statements; wf_cases.
  all: match goal with
       | H : sequences_ok _ |- _ => destruct H as [Ws [Wb Wm]]
       end.
  all: unfold sequences_ok; cbn; repeat split; wf_In.
  apply In_rewritten in H. destruct H as [x [Hx [->| ->]]]; exact (Wb x Hx).
Qed.

Lemma map_key_rewritten {A B} (key : A -> B) (hit : A -> bool) (g : A -> A)
    (l : list A) :
  (forall x, key (g x) = key x) ->
  map key (map (fun x => if hit x then g x else x) l) = map key l.
Proof.
  intros K. rewrite map_map. apply map_ext. intros x.
  destruct (hit x); [apply K|reflexivity].
Qed.

Lemma existsb_key_rewritten {A} (key : A -> Z) (hit : A -> bool) (g : A -> A)
    (l : list A) (v : Z) :
  (forall x, key (g x) = key x) ->
  existsb (fun x => key x =? v) (map (fun x => if hit x then g x else x) l)
  = existsb (fun x => key x =? v) l.
Proof.
  intros K. induction l as [|a l IH]; [reflexivity|].
  cbn [map existsb]. rewrite IH. f_equal.
  destruct (hit a); [now rewrite K|reflexivity].
Qed.

Lemma existsb_snoc_true {A} (f : A -> bool) (l : list A) (x : A) :
  existsb f l = true -> existsb f (l ++ [x]) = true.
Proof.
  intros H. rewrite existsb_app, H. reflexivity.
Qed.

Lemma not_In_map_Z {A} (key : A -> Z) (l : list A) (v : Z) :
  negb (existsb (fun x => key x =? v) l) = true -> ~ In v (map key l).
Proof.
  intros H Hin. apply negb_true_iff in H. rewrite existsb_false_iff in H.
  apply in_map_iff in Hin. destruct Hin as [x [E Hx]].
  specialize (H x Hx). apply Z.eqb_neq in H. contradiction.
Qed.

Lemma not_In_map_string {A} (key : A -> string) (l : list A) (v : string) :
  negb (existsb (fun x => String.eqb (key x) v) l) = true ->
  ~ In v (map key l).
Proof.
  intros H Hin. apply negb_true_iff in H. rewrite existsb_false_iff in H.
  apply in_map_iff in Hin. destruct Hin as [x [E Hx]].
  specialize (H x Hx). apply String.eqb_neq in H. contradiction.
Qed.

Lemma unique_ok_statements : statement_invariant unique_ok.
Proof.
  constructor; intros; unfold_statements; wf_cases.
  all: match goal with
       | H : unique_ok _ |- _ => destruct H as [Ui [Ue [Pi [Pu Rb]]]]
       end.
  all: unfold unique_ok; cbn; repeat split; try assumption.
  all: try (rewrite map_app; cbn [map]; apply NoDup_snoc; [assumption|]).
  all: try (rewrite map_key_rewritten; [assumption|reflexivity]).
  all: cbn;
    first [ apply not_In_map_Z | apply not_In_map_string ];
    unfold has_user_id, has_profile_id in *; cbn in *; assumption.
Qed.

Ltac links_has :=
  unfold has_user_id, has_profile_id, has_service_id, has_booking_id in *;
  cbn in *;
  repeat rewrite existsb_key_rewritten by reflexivity;
  first [ assumption
        | apply existsb_snoc_true; assumption
        | idtac ].

Lemma links_ok_statements : statement_invariant links_ok.
Proof.
  constructor; intros; unfold_statements; wf_cases.
  all: match goal with
       | H : links_ok _ |- _ => destruct H as [Lp [Ls [Lb [Lr Lm]]]]
       end.
  all: unfold links_ok; cbn; repeat split; intros.
  all: repeat match goal with
         | H : In _ (_ ++ [_]) |- _ =>
             apply In_snoc in H; destruct H as [H| ->]
         | H : In _ (map (fun x => if _ then _ else _) _) |- _ =>
             apply In_rewritten in H; destruct H as [? [H [->| ->]]]
         end.
  all: cbn.
  all: try match goal with
         | H : In ?x (prestataire_profiles _) |- _ => specialize (Lp x H)
         | H : In ?x (services _) |- _ => specialize (Ls x H)
         | H : In ?x (bookings _) |- _ =>
             destruct (Lb x H) as [? [? ?]]
         | H : In ?x (reviews _) |- _ => specialize (Lr x H)
         | H : In ?x (messages _) |- _ => destruct (Lm x H) as [? ?]
         end.
  all: links_has.
Qed.

Lemma In_rewritten_hit {A} (hit : A -> bool) (g : A -> A) (l : list A)
    (y : A) :
  In y (map (fun x => if hit x then g x else x) l) ->
  In y l \/ exists x, In x l /\ hit x = true /\ y = g x.
Proof.
  intros H. apply in_map_iff in H. destruct H as [x [E Hx]].
  destruct (hit x) eqn:Hh.
  - right. exists x. auto.
  - left. now subst y.
Qed.

Lemma checks_ok_statements : statement_invariant checks_ok.
Proof.
  constructor; intros; unfold_statements; wf_cases.
  all: match goal with
       | H : checks_ok _ |- _ => destruct H as [Cu Cb]
       end.
  all: unfold checks_ok; cbn; split; intros; try (solve [auto]).
  all: repeat match goal with
         | H : In _ (_ ++ [_]) |- _ =>
             apply In_snoc in H; destruct H as [H| ->]
         end; try (solve [auto]).
  - apply In_rewritten_hit in H. destruct H as [H|[x [Hx [Hh ->]]]];
      [now apply Cb|].
    cbn. apply orb_true_iff in Heqb. destruct Heqb as [N|C]; [|exact C].
    apply negb_true_iff in N. rewrite existsb_false_iff in N.
    rewrite (N x Hx) in Hh. discriminate.
Qed.

Lemma schema_ok_statements : statement_invariant schema_ok.
Proof.
  apply (statement_invariant_and keys_ok
           (fun d => links_ok d /\ checks_ok d)).
  - apply (statement_invariant_and store_wf
             (fun d => sequences_ok d /\ unique_ok d));
      [exact store_wf_statements|].
    apply (statement_invariant_and sequences_ok unique_ok).
    + exact sequences_ok_statements.
    + exact unique_ok_statements.
  - apply (statement_invariant_and links_ok checks_ok).
    + exact links_ok_statements.
    + exact checks_ok_statements.
Qed.

Lemma schema_ok_init : schema_ok init_db.
Proof.
  split; [split; [exact store_wf_init|split]|split].
  - split; [|split]; intros x [].
  - do 4 (split; [constructor|]). constructor.
  - do 4 (split; [intros x []|]). intros x [].
  - split; intros x [].
Qed.

Section SchemaReachable.

Variable bcrypt_hash : string -> Z -> string -> string.
Variable jwt : Type.
Variable jwt_sign : claims -> string -> Z -> Z -> jwt.
Variable jwt_verify : jwt -> string -> Z -> option claims.
Variable JWT_SECRET : string.

(** Whatever requests are served, in whatever order and with whatever
    bodies, the store they build from the empty database meets every
    constraint of the schema: ids below their sequences and unique, one
    user per email, one profile per user, one review per booking, every
    foreign key pointing at a stored row, roles and statuses among the
    listed values, notes in range.  Requests that fail halfway (there is no
    transaction) do not break any of it. *)
Theorem schema_ok_reachable (trace : list (Z * request jwt)) :
  schema_ok (run bcrypt_hash jwt_sign jwt_verify JWT_SECRET trace init_db).
Proof.
  apply run_invariant; [exact schema_ok_statements|exact schema_ok_init].
Qed.

End SchemaReachable.

(* ================================================================== *)
(** ** Bookings and messages *)

Lemma fresh_id {A} (key : A -> Z) (l : list A) (seq : Z) :
  (forall x, In x l -> key x < seq) ->
  existsb (fun x => key x =? seq) l = false.
Proof.
  intros W. apply existsb_false_iff. intros x Hx. apply Z.eqb_neq.
  specialize (W x Hx). lia.
Qed.

Section BookingProperties.

Variable jwt : Type.

(** POST /api/bookings is answered 201 only for a booking the caller is the
    client of: the row appended to [bookings] carries the caller's id, the
    status ['en_attente'], no final price, and a profile and a service that
    are stored; it is the booking of the answer, and no other table is
    written. *)
Theorem post_booking_created now user req d d' res :
  post_booking (jwt:=jwt) now user req d = (d', res) ->
  status res = 201 ->
  exists p s t,
    bb_prestataire_id req = Some p /\ bb_service_id req = Some s
    /\ bb_date_reservation req = Some t
    /\ has_user_id d (userId user) = true
    /\ has_profile_id d p = true /\ has_service_id d s = true
    /\ res = mkResponse 201
               (booking_body_ok "Réservation créée avec succès"
                  (mkBooking (bookings_id_seq d) (userId user) p s t
                     (Some "en_attente") (bb_adresse_prestation req) None
                     (bb_notes req) now now))
    /\ bookings d'
       = (bookings d
          ++ [mkBooking (bookings_id_seq d) (userId user) p s t
                (Some "en_attente") (bb_adresse_prestation req) None
                (bb_notes req) now now])%list
    /\ users d' = users d
    /\ prestataire_profiles d' = prestataire_profiles d
    /\ services d' = services d /\ reviews d' = reviews d
    /\ messages d' = messages d.
Proof.
  unfold post_booking. unfold_M.
  destruct (insert_booking_outcome now (userId user) (bb_prestataire_id req)
              (bb_service_id req) (bb_date_reservation req)
              (bb_adresse_prestation req) (bb_notes req) d)
    as [[b [p [s [t [-> [Ep [Es [Et [-> [_ [Hu [Hp Hs]]]]]]]]]]]]|[e ->]].
  - intros H _. injection H as <- <-. exists p, s, t. cbn.
    repeat split; assumption.
  - intros H S. injection H as _ <-. discriminate.
Qed.

(** The converse, for a store whose ids come from their sequences: a stored
    caller who names a stored profile, a stored service and a date gets the
    booking.  Nothing relates the service to the profile: the service of
    one provider can be booked with another. *)
Theorem post_booking_accepts now user req d p s t :
  sequences_ok d ->
  has_user_id d (userId user) = true ->
  has_profile_id d p = true -> has_service_id d s = true ->
  bb_prestataire_id req = Some p -> bb_service_id req = Some s ->
  bb_date_reservation req = Some t ->
  status (snd (post_booking (jwt:=jwt) now user req d)) = 201.
Proof.
  intros [_ [Wb _]] Hu Hp Hs Ep Es Et.
  unfold post_booking, insert_booking, nextval_bookings. unfold_M.
  rewrite Ep, Es, Et. unfold_M.
  unfold has_booking_id, has_user_id, has_profile_id, has_service_id in *.
  cbn. rewrite (fresh_id b_id (bookings d) (bookings_id_seq d) Wb).
  cbn. rewrite Hu. cbn. rewrite Hp. cbn. rewrite Hs. reflexivity.
Qed.

(** Every other request to POST /api/bookings gets the generic 500, whatever
    went wrong (a missing field, an unknown profile or service), and leaves
    the tables as they were; the id it would have taken is used up. *)
Theorem post_booking_refused now user req d :
  status (snd (post_booking (jwt:=jwt) now user req d)) <> 201 ->
  post_booking (jwt:=jwt) now user req d
  = (fst (nextval_bookings d), mkResponse 500 (error_body "Erreur serveur")).
Proof.
  unfold post_booking. unfold_M.
  destruct (insert_booking_outcome now (userId user) (bb_prestataire_id req)
              (bb_service_id req) (bb_date_reservation req)
              (bb_adresse_prestation req) (bb_notes req) d)
    as [[b [p [s [t [-> _]]]]]|[e ->]].
  - intros N. cbn in N. contradiction.
  - reflexivity.
Qed.

(** POST /api/messages is answered 201 only for a message the caller is the
    sender of, on a stored booking; the row is appended unread. *)
Theorem post_message_created now user req d d' res :
  post_message (jwt:=jwt) now user req d = (d', res) ->
  status res = 201 ->
  exists b t,
    mb_booking_id req = Some b /\ mb_message req = Some t
    /\ has_booking_id d b = true /\ has_user_id d (userId user) = true
    /\ res = mkResponse 201
               (message_body_ok "Message envoyé avec succès"
                  (mkMessage (messages_id_seq d) b (userId user) t
                             (Some false) now))
    /\ messages d'
       = (messages d
          ++ [mkMessage (messages_id_seq d) b (userId user) t (Some false)
                        now])%list
    /\ users d' = users d /\ bookings d' = bookings d.
Proof.
  unfold post_message. unfold_M.
  destruct (insert_message_outcome now (mb_booking_id req) (userId user)
              (mb_message req) d)
    as [[m [b [t [-> [Eb [Et [-> [Hb Hu]]]]]]]]|[e ->]].
  - intros H _. injection H as <- <-. exists b, t. cbn.
    repeat split; assumption.
  - intros H S. injection H as _ <-. discriminate.
Qed.

(** Any stored user may write on any stored booking: the handler asks for
    no part in the booking, neither as its client nor as its provider. *)
Theorem post_message_accepts now user req d b t :
  sequences_ok d ->
  has_user_id d (userId user) = true ->
  has_booking_id d b = true ->
  mb_booking_id req = Some b -> mb_message req = Some t ->
  post_message (jwt:=jwt) now user req d
  = (set_messages
       (messages d
        ++ [mkMessage (messages_id_seq d) b (userId user) t (Some false) now])
       (fst (nextval_messages d)),
     mkResponse 201
       (message_body_ok "Message envoyé avec succès"
          (mkMessage (messages_id_seq d) b (userId user) t (Some false) now))).
Proof.
  intros [_ [_ Wm]] Hu Hb Eb Et.
  unfold post_message, insert_message, nextval_messages. unfold_M.
  rewrite Eb, Et. unfold_M.
  unfold has_booking_id, has_user_id in *.
  cbn. rewrite (fresh_id m_id (messages d) (messages_id_seq d) Wm).
  cbn. rewrite Hb. cbn. rewrite Hu. reflexivity.
Qed.

End BookingProperties.

Lemma db_three_sequences_ok : sequences_ok db_three.
Proof.
  split; [|split]; intros x Hx; vm_compute in Hx;
    repeat (destruct Hx as [<-|Hx]; [vm_compute; reflexivity|]);
    destruct Hx.
Qed.

Lemma post_booking_created_witness :
  exists p s t,
    Some 1 = Some p /\ Some 1 = Some s /\ Some 200 = Some t
    /\ has_user_id db_three 2 = true
    /\ has_profile_id db_three p = true /\ has_service_id db_three s = true
    /\ snd (post_booking (jwt:=sim_jwt) 110 binta_claims
              (mkBookingBody (Some 1) (Some 1) (Some 200) None None) db_three)
       = mkResponse 201
           (booking_body_ok "Réservation créée avec succès"
              (mkBooking 3 2 p s t (Some "en_attente") None None None 110 110))
    /\ bookings (fst (post_booking (jwt:=sim_jwt) 110 binta_claims
                        (mkBookingBody (Some 1) (Some 1) (Some 200) None None)
                        db_three))
       = (bookings db_three
          ++ [mkBooking 3 2 p s t (Some "en_attente") None None None 110 110])
         %list
    /\ users (fst (post_booking (jwt:=sim_jwt) 110 binta_claims
                     (mkBookingBody (Some 1) (Some 1) (Some 200) None None)
                     db_three))
       = users db_three
    /\ prestataire_profiles
         (fst (post_booking (jwt:=sim_jwt) 110 binta_claims
                 (mkBookingBody (Some 1) (Some 1) (Some 200) None None)
                 db_three))
       = prestataire_profiles db_three
    /\ services (fst (post_booking (jwt:=sim_jwt) 110 binta_claims
                        (mkBookingBody (Some 1) (Some 1) (Some 200) None None)
                        db_three))
       = services db_three
    /\ reviews (fst (post_booking (jwt:=sim_jwt) 110 binta_claims
                       (mkBookingBody (Some 1) (Some 1) (Some 200) None None)
                       db_three))
       = reviews db_three
    /\ messages (fst (post_booking (jwt:=sim_jwt) 110 binta_claims
                        (mkBookingBody (Some 1) (Some 1) (Some 200) None None)
                        db_three))
       = messages db_three.
Proof.
  apply (post_booking_created sim_jwt 110 binta_claims
           (mkBookingBody (Some 1) (Some 1) (Some 200) None None) db_three).
  - apply surjective_pairing.
  - vm_compute. reflexivity.
Defined.

(** The client books the second provider (profile 2) with the service of
    the first (service 1 belongs to profile 1). *)
Lemma post_booking_accepts_witness :
  map s_prestataire_id (services db_three) = [1]
  /\ status (snd (post_booking (jwt:=sim_jwt) 110 binta_claims
                    (mkBookingBody (Some 2) (Some 1) (Some 200) None None)
                    db_three)) = 201.
Proof.
  split; [vm_compute; reflexivity|].
  apply (post_booking_accepts sim_jwt 110 binta_claims
           (mkBookingBody (Some 2) (Some 1) (Some 200) None None) db_three
           2 1 200).
  - exact db_three_sequences_ok.
  - vm_compute. reflexivity.
  - vm_compute. reflexivity.
  - vm_compute. reflexivity.
  - reflexivity.
  - reflexivity.
  - reflexivity.
Defined.

Lemma post_booking_refused_witness :
  post_booking (jwt:=sim_jwt) 110 binta_claims
    (mkBookingBody (Some 7) (Some 1) (Some 200) None None) db_three
  = (fst (nextval_bookings db_three),
     mkResponse 500 (error_body "Erreur serveur")).
Proof.
  apply (post_booking_refused sim_jwt 110 binta_claims
           (mkBookingBody (Some 7) (Some 1) (Some 200) None None) db_three).
  vm_compute. discriminate.
Defined.

Lemma post_message_created_witness :
  exists b t,
    Some 1 = Some b /\ Some "Bonjour" = Some t
    /\ has_booking_id db_three b = true /\ has_user_id db_three 2 = true
    /\ snd (post_message (jwt:=sim_jwt) 111 binta_claims
              (mkMessageBody (Some 1) (Some "Bonjour")) db_three)
       = mkResponse 201
           (message_body_ok "Message envoyé avec succès"
              (mkMessage 1 b 2 t (Some false) 111))
    /\ messages (fst (post_message (jwt:=sim_jwt) 111 binta_claims
                        (mkMessageBody (Some 1) (Some "Bonjour")) db_three))
       = (messages db_three ++ [mkMessage 1 b 2 t (Some false) 111])%list
    /\ users (fst (post_message (jwt:=sim_jwt) 111 binta_claims
                     (mkMessageBody (Some 1) (Some "Bonjour")) db_three))
       = users db_three
    /\ bookings (fst (post_message (jwt:=sim_jwt) 111 binta_claims
                        (mkMessageBody (Some 1) (Some "Bonjour")) db_three))
       = bookings db_three.
Proof.
  apply (post_message_created sim_jwt 111 binta_claims
           (mkMessageBody (Some 1) (Some "Bonjour")) db_three).
  - apply surjective_pairing.
  - vm_compute. reflexivity.
Defined.

(** The second provider writes on booking 1, which is between the client
    and the first provider. *)
Lemma post_message_accepts_witness :
  map (fun b => (b_id b, b_client_id b, b_prestataire_id b))
      (bookings db_three) = [(1, 2, 1); (2, 2, 1)]
  /\ map p_user_id (prestataire_profiles db_three) = [1; 3]
  /\ post_message (jwt:=sim_jwt) 111 chantal_claims
       (mkMessageBody (Some 1) (Some "Bonjour")) db_three
     = (set_messages
          (messages db_three ++ [mkMessage 1 1 3 "Bonjour" (Some false) 111])
          (fst (nextval_messages db_three)),
        mkResponse 201
          (message_body_ok "Message envoyé avec succès"
             (mkMessage 1 1 3 "Bonjour" (Some false) 111))).
Proof.
  split; [vm_compute; reflexivity|]. split; [vm_compute; reflexivity|].
  apply (post_message_accepts sim_jwt 111 chantal_claims
           (mkMessageBody (Some 1) (Some "Bonjour")) db_three 1 "Bonjour").
  - exact db_three_sequences_ok.
  - vm_compute. reflexivity.
  - vm_compute. reflexivity.
  - reflexivity.
  - reflexivity.
Defined.

(* ================================================================== *)
(** ** The listings *)

Lemma StronglySorted_impl {A} (R R' : A -> A -> Prop) (l : list A) :
  (forall x y, R x y -> R' x y) ->
  StronglySorted R l -> StronglySorted R' l.
Proof.
  intros I S. induction S as [|x l S IH Hall]; constructor; [exact IH|].
  apply Forall_forall. intros y Hy. rewrite Forall_forall in Hall.
  apply I. now apply Hall.
Qed.

Lemma order_by_desc_Some_sorted {A} (key : A -> Z) (l : list A) :
  StronglySorted (fun x y => key y <= key x)
                 (order_by_desc (fun r => Some (key r)) l).
Proof.
  apply StronglySorted_impl with (R := key_desc (fun r => Some (key r))).
  - intros x y H. unfold key_desc in H. cbn in H. now apply Z.leb_le.
  - apply order_by_desc_sorted.
Qed.





Lemma opt_eqb_string_Some (x : option string) (s : string) :
  opt_eqb String.eqb x (Some s) = true <-> x = Some s.
Proof.
  destruct x as [y|]; cbn.
  - rewrite String.eqb_eq. split; congruence.
  - split; discriminate.
Qed.

Lemma In_bookings_joined (d : db) (r : booking_item) :
  In r (bookings_joined d) <->
  exists u_presta u_client s,
    In (bi_booking r) (bookings d)
    /\ In u_presta (users d) /\ u_id u_presta = b_prestataire_id (bi_booking r)
    /\ In u_client (users d) /\ u_id u_client = b_client_id (bi_booking r)
    /\ In s (services d) /\ s_id s = b_service_id (bi_booking r)
    /\ r = mkBookingItem (bi_booking r) (u_full_name u_presta)
             (u_profile_image u_presta) (u_full_name u_client)
             (s_nom_service s) (s_prix s).
Proof.
  unfold bookings_joined. split.
  - intros H. apply in_flat_map in H. destruct H as [b [Hb H]].
    apply in_flat_map in H. destruct H as [up [Hup H]].
    apply in_flat_map in H. destruct H as [uc [Huc H]].
    apply in_map_iff in H. destruct H as [s [E Hs]].
    apply filter_In in Hup. destruct Hup as [Hup Eup].
    apply filter_In in Huc. destruct Huc as [Huc Euc].
    apply filter_In in Hs. destruct Hs as [Hs Es].
    apply Z.eqb_eq in Eup, Euc, Es. subst r. cbn.
    exists up, uc, s. repeat split; auto.
  - intros [up [uc [s [Hb [Hup [Eup [Huc [Euc [Hs [Es E]]]]]]]]]].
    apply in_flat_map. exists (bi_booking r). split; [exact Hb|].
    apply in_flat_map. exists up. split.
    { apply filter_In. split; [exact Hup|]. apply Z.eqb_eq. now symmetry. }
    apply in_flat_map. exists uc. split.
    { apply filter_In. split; [exact Huc|]. apply Z.eqb_eq. now symmetry. }
    apply in_map_iff. exists s. split; [now symmetry|].
    apply filter_In. split; [exact Hs|]. apply Z.eqb_eq. now symmetry.
Qed.

(** GET /api/bookings never fails and never writes.  Its rows come newest
    first.  The join reads [b.prestataire_id], which is the id of a profile,
    as the id of a user: a stored booking is listed exactly when the
    caller's user id is its [client_id] or equals its [prestataire_id], the
    status filter (if any) matches, and some user's id equals that profile
    id; the name shown as the provider's is that user's. *)
Theorem get_bookings_lists user statut d :
  links_ok d ->
  exists rows,
    get_bookings user statut d = (d, mkListing 200 (bookings_listing rows))
    /\ StronglySorted
         (fun x y => b_created_at (bi_booking y) <= b_created_at (bi_booking x))
         rows
    /\ (forall b, In b (bookings d) ->
          ((exists r, In r rows /\ bi_booking r = b) <->
           (b_client_id b = userId user \/ b_prestataire_id b = userId user)
           /\ match truthy statut with
              | None => True
              | Some s => b_statut b = Some s
              end
           /\ has_user_id d (b_prestataire_id b) = true))
    /\ (forall r, In r rows ->
          In (bi_booking r) (bookings d)
          /\ exists u, In u (users d)
                       /\ u_id u = b_prestataire_id (bi_booking r)
                       /\ bi_prestataire_name r = u_full_name u).
Proof.
  intros [_ [_ [Lb _]]].
  eexists. split; [reflexivity|]. split; [|split].
  - apply (order_by_desc_Some_sorted (fun r => b_created_at (bi_booking r))).
  - intros b Hb. split.
    + intros [r [Hr E]].
      apply (Permutation_in _ (order_by_desc_perm _ _ _)) in Hr.
      apply filter_In in Hr. destruct Hr as [Hj Hw].
      apply In_bookings_joined in Hj.
      destruct Hj as [up [uc [s [_ [Hup [Eup _]]]]]].
      unfold bookings_where in Hw. rewrite E in *.
      apply andb_true_iff in Hw. destruct Hw as [Hc Hs].
      apply orb_true_iff in Hc. rewrite !Z.eqb_eq in Hc.
      split; [exact Hc|]. split.
      * destruct (truthy statut) as [s0|]; [|exact I].
        now apply opt_eqb_string_Some.
      * apply existsb_Z_true. now exists up.
    + intros [Hc [Hs Hp]].
      destruct (Lb b Hb) as [Hu [_ Hsv]].
      apply existsb_Z_true in Hp. destruct Hp as [up [Hup Eup]].
      apply existsb_Z_true in Hu. destruct Hu as [uc [Huc Euc]].
      apply existsb_Z_true in Hsv. destruct Hsv as [s [Hsv Es]].
      exists (mkBookingItem b (u_full_name up) (u_profile_image up)
                (u_full_name uc) (s_nom_service s) (s_prix s)).
      split; [|reflexivity].
      apply (Permutation_in _ (Permutation_sym (order_by_desc_perm _ _ _))).
      apply filter_In. split.
      * apply In_bookings_joined. exists up, uc, s. cbn.
        repeat split; auto.
      * unfold bookings_where. cbn. apply andb_true_iff. split.
        { apply orb_true_iff. now rewrite !Z.eqb_eq. }
        destruct (truthy statut) as [s0|]; [|reflexivity].
        now apply opt_eqb_string_Some.
  - intros r Hr.
    apply (Permutation_in _ (order_by_desc_perm _ _ _)) in Hr.
    apply filter_In in Hr. destruct Hr as [Hj _].
    apply In_bookings_joined in Hj.
    destruct Hj as [up [uc [s [Hb [Hup [Eup [_ [_ [_ [_ E]]]]]]]]]].
    split; [exact Hb|]. exists up. split; [exact Hup|]. split; [exact Eup|].
    rewrite E. reflexivity.
Qed.

Lemma db_four_links_ok : links_ok db_four.
Proof.
  split; [|split; [|split; [|split]]]; intros x Hx; vm_compute in Hx;
    repeat (destruct Hx as [<-|Hx];
            [vm_compute; repeat split; reflexivity|]);
    destruct Hx.
Qed.

Lemma get_bookings_lists_witness :
  exists rows,
    get_bookings chantal_claims None db_four
    = (db_four, mkListing 200 (bookings_listing rows))
    /\ StronglySorted
         (fun x y => b_created_at (bi_booking y) <= b_created_at (bi_booking x))
         rows
    /\ (forall b, In b (bookings db_four) ->
          ((exists r, In r rows /\ bi_booking r = b) <->
           (b_client_id b = 3 \/ b_prestataire_id b = 3)
           /\ True
           /\ has_user_id db_four (b_prestataire_id b) = true))
    /\ (forall r, In r rows ->
          In (bi_booking r) (bookings db_four)
          /\ exists u, In u (users db_four)
                       /\ u_id u = b_prestataire_id (bi_booking r)
                       /\ bi_prestataire_name r = u_full_name u).
Proof.
  apply (get_bookings_lists chantal_claims None db_four).
  exact db_four_links_ok.
Defined.

(** Booking 3 was made with the second provider, user 3 with profile 2: she
    does not see it, and the client sees it with her own name as the
    provider's, user 2 being the client herself. *)
Example get_bookings_profile_id_as_user_id :
  ls_json (snd (get_bookings chantal_claims None db_four))
  = bookings_listing []
  /\ match ls_json (snd (get_bookings binta_claims None db_four)) with
     | bookings_listing rows =>
         map (fun r => (b_id (bi_booking r), b_prestataire_id (bi_booking r),
                        bi_prestataire_name r, bi_client_name r)) rows
     | _ => []
     end
     = [(3, 2, "Binta", "Binta"); (2, 1, "Awa", "Binta");
        (1, 1, "Awa", "Binta")].
Proof. split; vm_compute; reflexivity. Qed.











(** The client reads what the second provider wrote on booking 1. *)
Example get_messages_example :
  ls_json (snd (get_messages binta_claims 1 db_five))
  = messages_listing
      [mkMessageItem (mkMessage 1 1 3 "Bonjour" (Some false) 111) "Chantal"
                     None].
Proof. vm_compute. reflexivity. Qed.


(* ================================================================== *)
(** ** Providers and their profiles *)

Lemma providers_ok_same (d d' : db) :
  users d' = users d ->
  map p_user_id (prestataire_profiles d')
  = map p_user_id (prestataire_profiles d) ->
  providers_ok d -> providers_ok d'.
Proof.
  intros U P [A B]. split.
  - intros p Hp.
    assert (Hin : In (p_user_id p) (map p_user_id (prestataire_profiles d))).
    { rewrite <- P. now apply in_map. }
    apply in_map_iff in Hin. destruct Hin as [p0 [E Hp0]].
    destruct (A p0 Hp0) as [u [Hu [Eu R]]].
    exists u. rewrite U. split; [exact Hu|]. split; [congruence|exact R].
  - intros u Hu R. rewrite U in Hu. destruct (B u Hu R) as [p0 [Hp0 E]].
    assert (Hin : In (p_user_id p0) (map p_user_id (prestataire_profiles d'))).
    { rewrite P. now apply in_map. }
    apply in_map_iff in Hin. destruct Hin as [p [E' Hp]].
    exists p. split; [exact Hp|congruence].
Qed.

Section Providers.

Variable bcrypt_hash : string -> Z -> string -> string.
Variable jwt : Type.
Variable jwt_sign : claims -> string -> Z -> Z -> jwt.
Variable jwt_verify : jwt -> string -> Z -> option claims.
Variable JWT_SECRET : string.

Local Abbreviation register := (register bcrypt_hash jwt_sign JWT_SECRET).
Local Abbreviation serve :=
  (serve bcrypt_hash jwt_sign jwt_verify JWT_SECRET).
Local Abbreviation run := (run bcrypt_hash jwt_sign jwt_verify JWT_SECRET).

(** A registration leaves no provider without a profile: on a store whose
    ids lie below their sequences the second insert cannot fail once the
    first went through. *)
Lemma register_providers_ok now salt req d :
  accounts_wf d -> providers_ok d ->
  providers_ok (fst (register now salt req d)).
Proof.
  intros [Wu Wp] [A B]. rewrite register_unfold.
  destruct (users_by_email d (reg_email req)) as [|u0 l]; [|now split].
  destruct (reg_password req) as [pw|]; [|now split].
  destruct (insert_user _ _ _ _ _ _ _ _ d) as [d1 [u|e]] eqn:I.
  2:{ apply insert_user_throws in I. cbn [fst].
      destruct I as [->| ->]; now split. }
  apply insert_user_ok in I. destruct I as [E1 [Eid [_ [Ero _]]]].
  destruct (opt_eqb String.eqb (reg_role req) (Some "prestataire")) eqn:R.
  - apply opt_eqb_string_true in R. rewrite R in Ero. cbn in Ero.
    assert (Er : u_role u = "prestataire") by congruence.
    rewrite (insert_profile_succeeds (u_id u) "Général" d1).
    + subst d1. cbn. split.
      * intros p Hp. apply In_snoc in Hp. destruct Hp as [Hp| ->].
        -- destruct (A p Hp) as [u' [Hu' H']]. exists u'.
           split; [apply in_or_app; now left|exact H'].
        -- exists u. cbn. split; [apply in_or_app; right; now left|].
           split; [reflexivity|exact Er].
      * intros u' Hu' R'. apply In_snoc in Hu'. destruct Hu' as [Hu'| ->].
        -- destruct (B u' Hu' R') as [p [Hp E]]. exists p.
           split; [apply in_or_app; now left|exact E].
        -- eexists. split; [apply in_or_app; right; left; reflexivity|].
           reflexivity.
    + cbn. lia.
    + subst d1. cbn. intros p Hp. now apply Wp.
    + subst d1. cbn. intros p Hp E. destruct (Wp p Hp) as [_ L]. lia.
    + exists u. subst d1. cbn. split; [apply in_or_app; right; now left|].
      reflexivity.
  - cbn [fst]. subst d1. cbn. split.
    + intros p Hp. destruct (A p Hp) as [u' [Hu' H']]. exists u'.
      split; [apply in_or_app; now left|exact H'].
    + intros u' Hu' R'. apply In_snoc in Hu'. destruct Hu' as [Hu'| ->].
      * now apply B.
      * exfalso.
        assert (E : reg_role req = Some (u_role u)).
        { apply (varchar_opt_some_fits 20); [exact Ero|].
          rewrite R'. cbn. lia. }
        rewrite E, R' in R. cbn in R. discriminate.
Qed.

Lemma put_profile_providers_ok user req d :
  providers_ok d -> providers_ok (fst (put_profile (jwt:=jwt) user req d)).
Proof.
  unfold put_profile. unfold_M.
  destruct (update_profile_fields_accounts (pb_metier req) (pb_description req)
              (pb_annees_experience req) (pb_tarif_horaire req)
              (pb_zone_intervention req) (pb_adresse req) (pb_portfolio req)
              (pb_disponibilites req) (userId user) d) as [U P].
  destruct (update_profile_fields _ _ _ _ _ _ _ _ _ d) as [d1 [[|p l]|e]];
    cbn [fst] in U, P; unfold_M; cbn [fst];
    now apply providers_ok_same.
Qed.

Lemma post_service_providers_ok now user req d :
  providers_ok d -> providers_ok (fst (post_service (jwt:=jwt) now user req d)).
Proof.
  unfold post_service. unfold_M.
  destruct (hd_error _) as [row|]; unfold_M; [|trivial].
  destruct (negb _); unfold_M; [trivial|].
  destruct (filter _ (prestataire_profiles d)) as [|p l]; [trivial|].
  unfold_M.
  destruct (insert_service_accounts now (p_id p) (sb_nom_service req)
              (sb_description req) (sb_prix req) (sb_duree_estimee req)
              (sb_categorie req) d) as [U P].
  destruct (insert_service _ _ _ _ _ _ _ d) as [d1 [s|e]];
    cbn [fst] in U, P; unfold_M; cbn [fst];
    apply providers_ok_same; congruence.
Qed.

Lemma post_booking_providers_ok now user req d :
  providers_ok d -> providers_ok (fst (post_booking (jwt:=jwt) now user req d)).
Proof.
  unfold post_booking. unfold_M.
  destruct (insert_booking_accounts now (userId user) (bb_prestataire_id req)
              (bb_service_id req) (bb_date_reservation req)
              (bb_adresse_prestation req) (bb_notes req) d) as [U P].
  destruct (insert_booking _ _ _ _ _ _ _ d) as [d1 [b|e]];
    cbn [fst] in U, P; unfold_M; cbn [fst];
    apply providers_ok_same; congruence.
Qed.

Lemma put_booking_status_providers_ok now user id statut d :
  providers_ok d ->
  providers_ok (fst (put_booking_status (jwt:=jwt) now user id statut d)).
Proof.
  unfold put_booking_status. unfold_M.
  destruct (update_booking_statut_accounts now statut id d) as [U P].
  destruct (update_booking_statut _ _ _ d) as [d1 [[|b l]|e]];
    cbn [fst] in U, P; unfold_M; cbn [fst];
    apply providers_ok_same; congruence.
Qed.

Lemma post_review_providers_ok now user req d :
  providers_ok d -> providers_ok (fst (post_review (jwt:=jwt) now user req d)).
Proof.
  rewrite post_review_unfold.
  destruct (finished_bookings _ _ _) as [|b l]; [trivial|].
  destruct (reviews_by_booking _ _) as [|r0 l0]; [|trivial].
  destruct (insert_review_accounts now (rb_booking_id req) (rb_note req)
              (rb_commentaire req) d) as [U P].
  destruct (insert_review _ _ _ _ d) as [d1 [r|e]]; cbn [fst] in U, P.
  - destruct (update_note_moyenne_accounts (b_prestataire_id b) d1) as [U2 P2].
    destruct (update_note_moyenne _ d1) as [d2 [x|e]]; cbn [fst] in *;
      apply providers_ok_same; congruence.
  - cbn [fst]. apply providers_ok_same; congruence.
Qed.

Lemma post_message_providers_ok now user req d :
  providers_ok d -> providers_ok (fst (post_message (jwt:=jwt) now user req d)).
Proof.
  unfold post_message. unfold_M.
  destruct (insert_message_accounts now (mb_booking_id req) (userId user)
              (mb_message req) d) as [U P].
  destruct (insert_message _ _ _ _ d) as [d1 [m|e]];
    cbn [fst] in U, P; unfold_M; cbn [fst];
    apply providers_ok_same; congruence.
Qed.

Lemma serve_providers_ok now rq d :
  accounts_wf d -> providers_ok d -> providers_ok (fst (serve now rq d)).
Proof.
  intros W Hd. destruct rq; simpl_serve;
    try (unfold authenticateToken;
         match goal with
         | |- context [match ?a with Some _ => _ | None => _ end] =>
             destruct a as [token|]; [|exact Hd]
         end;
         destruct (jwt_verify token JWT_SECRET now) as [user|]; [|exact Hd]).
  - now apply register_providers_ok.
  - now apply put_profile_providers_ok.
  - now apply post_service_providers_ok.
  - now apply post_booking_providers_ok.
  - now apply put_booking_status_providers_ok.
  - now apply post_review_providers_ok.
  - now apply post_message_providers_ok.
Qed.

Lemma run_providers_ok trace d :
  store_wf d -> providers_ok d -> providers_ok (run trace d).
Proof.
  revert d. induction trace as [|[now rq] trace IH]; intros d W Hd.
  - exact Hd.
  - simpl_run. apply IH.
    + exact (serve_invariant bcrypt_hash jwt jwt_sign jwt_verify JWT_SECRET
               store_wf store_wf_statements now rq d W).
    + apply serve_providers_ok; [exact (proj1 W)|exact Hd].
Qed.

(** On every store the API builds from the empty database, the users of
    role ['prestataire'] are the owners of the profiles: each profile
    belongs to such a user, and each such user has one.  A request that
    fails halfway never leaves a provider without a profile, so the 404 of
    POST /api/services is not one a registered provider can meet. *)
Theorem providers_ok_reachable (trace : list (Z * request jwt)) :
  providers_ok (run trace init_db).
Proof.
  apply run_providers_ok; [exact store_wf_init|].
  split; [intros p []|intros u []].
Qed.

End Providers.
